(** * Retrieval confidence gating and dual-index merge of the LlamaIndex server

    A shallow embedding of [llamaindex-server/app.py]: the slug resolver, the
    injection recorder and its reconstruction, the retrieval merger, the
    confidence gate, and the request handlers [answer] and [inject], with the
    properties the specification states about them. *)

From Stdlib Require Import String Ascii List ZArith QArith Lia Bool DecimalString.
From stdpp Require Import gmap strings.

Close Scope Q_scope.
Local Open Scope Z_scope.
Local Open Scope nat_scope.

(** ** Python strings

    A Python string is the [string] of its code points; the strings with a
    code point above 255 are outside this model. *)

Module Str.

(** [s.startswith(p)] *)
Fixpoint startswith (p s : string) : bool :=
  match p, s with
  | EmptyString, _ => true
  | String _ _, EmptyString => false
  | String a p', String b s' => Ascii.eqb a b && startswith p' s'
  end.

(** [s[n:]] *)
Fixpoint drop (n : nat) (s : string) : string :=
  match n, s with
  | O, _ => s
  | S _, EmptyString => EmptyString
  | S n', String _ s' => drop n' s'
  end.

(** [sub in s] *)
Fixpoint contains (sub s : string) : bool :=
  startswith sub s ||
  match s with
  | EmptyString => false
  | String _ s' => contains sub s'
  end.

(** The scan of [s.replace(old, new)] for a non-empty [old]: left to right,
    every occurrence found is replaced and the scan resumes after it, so
    occurrences never overlap. [skip] counts the characters of an
    occurrence that are still to be passed over. *)
Fixpoint replace_from (old new : string) (skip : nat) (s : string) : string :=
  match s with
  | EmptyString => EmptyString
  | String c s' =>
      match skip with
      | S k => replace_from old new k s'
      | O =>
          if startswith old s
          then new +:+ replace_from old new (String.length old - 1) s'
          else String c (replace_from old new 0 s')
      end
  end.

(** With an empty [old], Python puts [new] before every character and at
    the end. *)
Fixpoint interleave (new s : string) : string :=
  match s with
  | EmptyString => new
  | String c s' => new +:+ String c (interleave new s')
  end.

(** [s.replace(old, new)] *)
Definition replace (old new s : string) : string :=
  match old with
  | EmptyString => interleave new s
  | String _ _ => replace_from old new 0 s
  end.

(** The first occurrence of a non-empty [sep] in [s]: the text before it
    and the text after it. *)
Fixpoint cut (sep s : string) : option (string * string) :=
  match s with
  | EmptyString => None
  | String c s' =>
      if startswith sep s then Some (EmptyString, drop (String.length sep) s)
      else match cut sep s' with
           | Some (a, b) => Some (String c a, b)
           | None => None
           end
  end.

(** [s.split(sep, 1)] for a non-empty [sep] *)
Definition split1 (sep s : string) : list string :=
  match cut sep s with
  | Some (a, b) => [a; b]
  | None => [s]
  end.

(** Python's [str.isspace] on one character, which is what [str.strip]
    removes: among the code points below 256 the space, tab, line feed,
    vertical tab, form feed and carriage return, the four separators
    0x1c-0x1f, the next-line control 0x85 and the no-break space 0xa0. *)
Definition isspace (c : ascii) : bool :=
  let n := nat_of_ascii c in
  (n =? 32) || ((9 <=? n) && (n <=? 13)) || ((28 <=? n) && (n <=? 31)) ||
  (n =? 133) || (n =? 160).

(** [bool(s.strip())]: some character of [s] is not white space. *)
Fixpoint has_text (s : string) : bool :=
  match s with
  | EmptyString => false
  | String c s' => negb (isspace c) || has_text s'
  end.

(** [s.endswith(p)] *)
Definition endswith (p s : string) : bool :=
  (String.length p <=? String.length s) &&
  String.eqb (drop (String.length s - String.length p) s) p.

(** [s.split(c)] for a separator of one character: the pieces between its
    occurrences, the empty ones included. *)
Fixpoint split_char (c : ascii) (s : string) : list string :=
  match s with
  | EmptyString => [EmptyString]
  | String x s' =>
      if Ascii.eqb x c then EmptyString :: split_char c s'
      else match split_char c s' with
           | piece :: pieces => String x piece :: pieces
           | [] => [String x EmptyString]
           end
  end.

End Str.

(** ** Slug resolver *)

Definition marker : string := "-dot-".
Definition separator : string := "-".

(** [normalize_version], app.py lines 63-65 *)
Definition normalize_version (version : string) : string :=
  Str.replace "." marker version.

(** [get_slug], app.py lines 68-72. An empty string is falsy. *)
Definition get_slug (project version : string) : string :=
  match version with
  | EmptyString => project
  | String _ _ => project +:+ separator +:+ normalize_version version
  end.

(** ** JSON values and the [json] module

    The values [json.loads] returns and [json.dumps] takes. Numbers are kept
    to integers. *)

#[warnings="-register-all"]
Inductive json : Type :=
| JNull
| JBool (b : bool)
| JNum (z : Z)
| JStr (s : string)
| JArr (items : list json)
| JObj (members : list (string * json)).

Module Json.

Definition dquote : ascii := "034"%char.
Definition backslash : ascii := "092"%char.

Definition hex_digit (n : nat) : ascii :=
  ascii_of_nat (if n <? 10 then 48 + n else 87 + n).

(** One character of a string literal as [json.dumps] writes it with
    [ensure_ascii]: the quote and the backslash are escaped, the usual
    control characters get their short form, and every other character
    outside space..tilde becomes a [\u00xx] escape. *)
Definition escape_char (c : ascii) : string :=
  let n := nat_of_ascii c in
  if Ascii.eqb c dquote then String backslash (String dquote EmptyString)
  else if Ascii.eqb c backslash then String backslash (String backslash EmptyString)
  else if n =? 10 then String backslash "n"
  else if n =? 13 then String backslash "r"
  else if n =? 9 then String backslash "t"
  else if n =? 8 then String backslash "b"
  else if n =? 12 then String backslash "f"
  else if (32 <=? n) && (n <=? 126) then String c EmptyString
  else String backslash ("u00" +:+ String (hex_digit (n / 16))
                                     (String (hex_digit (n mod 16)) EmptyString)).

Fixpoint escape (s : string) : string :=
  match s with
  | EmptyString => EmptyString
  | String c s' => escape_char c +:+ escape s'
  end.

Definition quote (s : string) : string :=
  String dquote (escape s +:+ String dquote EmptyString).

Definition digits (z : Z) : string :=
  DecimalString.NilZero.string_of_int (Z.to_int z).

(** [json.dumps(v)] with the default separators [", "] and [": "];
    the members of an object are written in insertion order. *)
Fixpoint dumps (v : json) : string :=
  match v with
  | JNull => "null"
  | JBool true => "true"
  | JBool false => "false"
  | JNum z => digits z
  | JStr s => quote s
  | JArr items =>
      "[" +:+
      (fix go (l : list json) : string :=
         match l with
         | [] => EmptyString
         | [x] => dumps x
         | x :: l' => dumps x +:+ ", " +:+ go l'
         end) items +:+ "]"
  | JObj members =>
      "{" +:+
      (fix go (l : list (string * json)) : string :=
         match l with
         | [] => EmptyString
         | [(k, x)] => quote k +:+ ": " +:+ dumps x
         | (k, x) :: l' => quote k +:+ ": " +:+ dumps x +:+ ", " +:+ go l'
         end) members +:+ "}"
  end.

(** White space between JSON tokens: space, tab, line feed, carriage
    return. *)
Definition is_ws (c : ascii) : bool :=
  let n := nat_of_ascii c in
  (n =? 32) || (n =? 9) || (n =? 10) || (n =? 13).

Fixpoint skip_ws (s : string) : string :=
  match s with
  | String c s' => if is_ws c then skip_ws s' else s
  | EmptyString => s
  end.

Definition hex_value (c : ascii) : option nat :=
  let n := nat_of_ascii c in
  if (48 <=? n) && (n <=? 57) then Some (n - 48)
  else if (97 <=? n) && (n <=? 102) then Some (n - 87)
  else if (65 <=? n) && (n <=? 70) then Some (n - 55)
  else None.

(** The character an escape sequence stands for, and the text after the
    sequence; [s] starts after the backslash. Only [\u00xx] is decoded among
    the [\u] escapes: a [string] holds single-byte characters. *)
Definition unescape (s : string) : option (ascii * string) :=
  match s with
  | String c r =>
      if Ascii.eqb c dquote then Some (dquote, r)
      else if Ascii.eqb c backslash then Some (backslash, r)
      else if Ascii.eqb c "/" then Some ("/"%char, r)
      else if Ascii.eqb c "n" then Some (ascii_of_nat 10, r)
      else if Ascii.eqb c "r" then Some (ascii_of_nat 13, r)
      else if Ascii.eqb c "t" then Some (ascii_of_nat 9, r)
      else if Ascii.eqb c "b" then Some (ascii_of_nat 8, r)
      else if Ascii.eqb c "f" then Some (ascii_of_nat 12, r)
      else if Ascii.eqb c "u" then
        match r with
        | String "0" (String "0" (String h (String l r'))) =>
            match hex_value h, hex_value l with
            | Some a, Some b => Some (ascii_of_nat (16 * a + b), r')
            | _, _ => None
            end
        | _ => None
        end
      else None
  | EmptyString => None
  end.

(** A string literal after its opening quote: its value and the text after
    the closing quote. A raw control character ends the decoding with an
    error, as in Python's strict mode. *)
Fixpoint scan_string (fuel : nat) (s : string) : option (string * string) :=
  match fuel, s with
  | S f, String c r =>
      if Ascii.eqb c dquote then Some (EmptyString, r)
      else if Ascii.eqb c backslash then
        match unescape r with
        | Some (x, r') =>
            match scan_string f r' with
            | Some (v, rest) => Some (String x v, rest)
            | None => None
            end
        | None => None
        end
      else if nat_of_ascii c <? 32 then None
      else match scan_string f r with
           | Some (v, rest) => Some (String c v, rest)
           | None => None
           end
  | _, _ => None
  end.

Definition is_digit (c : ascii) : bool :=
  let n := nat_of_ascii c in (48 <=? n) && (n <=? 57).

Fixpoint span_digits (s : string) : string * string :=
  match s with
  | String c r =>
      if is_digit c then let (d, rest) := span_digits r in (String c d, rest)
      else (EmptyString, s)
  | EmptyString => (EmptyString, s)
  end.

(** An integer literal: an optional minus sign, then [0] or a digit sequence
    without a leading zero. *)
Definition scan_number (s : string) : option (Z * string) :=
  let (neg, body) :=
    match s with
    | String "-" r => (true, r)
    | _ => (false, s)
    end in
  let (d, rest) := span_digits body in
  match d with
  | EmptyString => None
  | String "0" (String _ _) => None
  | _ =>
      match DecimalString.NilZero.int_of_string d with
      | Some i => Some (if neg then (- Z.of_int i)%Z else Z.of_int i, rest)
      | None => None
      end
  end.

(** A JSON value at the head of [s], and the text after it. *)
Fixpoint scan_value (fuel : nat) (s : string) : option (json * string) :=
  match fuel with
  | O => None
  | S f =>
      match skip_ws s with
      | String c r =>
          if Ascii.eqb c dquote then
            match scan_string (String.length r) r with
            | Some (v, rest) => Some (JStr v, rest)
            | None => None
            end
          else if Ascii.eqb c "[" then
            match skip_ws r with
            | String "]" rest => Some (JArr [], rest)
            | _ =>
                match scan_items f r with
                | Some (l, rest) => Some (JArr l, rest)
                | None => None
                end
            end
          else if Ascii.eqb c "{" then
            match skip_ws r with
            | String "}" rest => Some (JObj [], rest)
            | _ =>
                match scan_members f r with
                | Some (l, rest) => Some (JObj l, rest)
                | None => None
                end
            end
          else if Str.startswith "null" (String c r)
          then Some (JNull, Str.drop 4 (String c r))
          else if Str.startswith "true" (String c r)
          then Some (JBool true, Str.drop 4 (String c r))
          else if Str.startswith "false" (String c r)
          then Some (JBool false, Str.drop 5 (String c r))
          else match scan_number (String c r) with
               | Some (z, rest) => Some (JNum z, rest)
               | None => None
               end
      | EmptyString => None
      end
  end
with scan_items (fuel : nat) (s : string) : option (list json * string) :=
  match fuel with
  | O => None
  | S f =>
      match scan_value f s with
      | Some (v, r) =>
          match skip_ws r with
          | String "]" rest => Some ([v], rest)
          | String "," rest =>
              match scan_items f rest with
              | Some (l, rest') => Some (v :: l, rest')
              | None => None
              end
          | _ => None
          end
      | None => None
      end
  end
with scan_members (fuel : nat) (s : string) : option (list (string * json) * string) :=
  match fuel with
  | O => None
  | S f =>
      match skip_ws s with
      | String c r =>
          if Ascii.eqb c dquote then
            match scan_string (String.length r) r with
            | Some (k, r1) =>
                match skip_ws r1 with
                | String ":" r2 =>
                    match scan_value f r2 with
                    | Some (v, r3) =>
                        match skip_ws r3 with
                        | String "}" rest => Some ([(k, v)], rest)
                        | String "," rest =>
                            match scan_members f rest with
                            | Some (l, rest') => Some ((k, v) :: l, rest')
                            | None => None
                            end
                        | _ => None
                        end
                    | None => None
                    end
                | _ => None
                end
            | None => None
            end
          else None
      | EmptyString => None
      end
  end.

(** [json.loads(s)]: [None] stands for [JSONDecodeError]. The whole text
    must be one value between optional white space. Fractions, exponents and
    [\u] escapes above code 255 are outside this decoder: it rejects them,
    where Python accepts them. *)
Definition loads (s : string) : option json :=
  match scan_value (2 * String.length s + 2) s with
  | Some (v, rest) =>
      match skip_ws rest with
      | EmptyString => Some v
      | String _ _ => None
      end
  | None => None
  end.

End Json.

(** ** Data model *)

(** Python truthiness of a JSON value, as in [metadata or {}]. *)
Definition truthy (v : json) : bool :=
  match v with
  | JNull => false
  | JBool b => b
  | JNum z => negb (z =? 0)%Z
  | JStr s => negb (String.eqb s EmptyString)
  | JArr l => negb (Nat.eqb (length l) 0)
  | JObj l => negb (Nat.eqb (length l) 0)
  end.

(** [d.get(k)] on the dict that [json.loads] builds from an object: a
    repeated key keeps its last value. *)
Fixpoint dict_get (k : string) (members : list (string * json)) : option json :=
  match members with
  | [] => None
  | (k', v) :: rest =>
      match dict_get k rest with
      | Some v' => Some v'
      | None => if String.eqb k' k then Some v else None
      end
  end.

(** A chunk: [Document(text=..., metadata=..., doc_id=...)]. *)
Record Document : Type := mkDocument {
  text : string;
  metadata : json;
  doc_id : option json
}.

(** A corpus index holds chunks; how it embeds and ranks them is the
    library's business. *)
Definition Index : Type := list Document.

(** Scores are Python floats. The gate uses two things of them: the
    comparison [<] and the mean [sum(scores) / len(scores)]; the
    specification also speaks of [>=]. *)
Class Score (F : Type) : Type := {
  score_lt : F -> F -> bool;
  score_ge : F -> F -> bool;
  score_mean : list F -> F
}.

(** The one law the proofs need relates the two comparisons: [a >= b]
    excludes [a < b]. IEEE comparisons satisfy it, also on nan. *)
Class ScoreLaws (F : Type) `{Score F} : Prop := {
  score_ge_not_lt : forall a b : F, score_ge a b = true -> score_lt a b = false
}.

(** A retrieved candidate: [NodeWithScore]. *)
Record NodeWithScore (F : Type) : Type := mkNode {
  node : Document;
  score : option F
}.
Arguments mkNode {F} _ _.
Arguments node {F} _.
Arguments score {F} _.

(** [sep.join(parts)] *)
Fixpoint join (sep : string) (parts : list string) : string :=
  match parts with
  | [] => EmptyString
  | [x] => x
  | x :: rest => x +:+ sep +:+ join sep rest
  end.

(** Modelled from the spec: [SimilarityPostprocessor.postprocess_nodes] is a
    class of the vector index library, absent from the sources. Following
    the Filter step of the Confidence Gate: a candidate whose score is
    present and below the cutoff is dropped, one without a score is kept. *)
Definition postprocess_nodes {F : Type} `{Score F} (similarity_cutoff : F)
  (nodes : list (NodeWithScore F)) : list (NodeWithScore F) :=
  List.filter (fun n => match score n with
                        | Some x => negb (score_lt x similarity_cutoff)
                        | None => true
                        end) nodes.

(** ** Retrieval merger and confidence gate *)

Section Retrieval.

Context {F : Type} `{Score F}.

(** Configuration read from the environment at start-up. *)
Variable MIN_HITS : Z.
Variable SIMILARITY_CUTOFF : F.
Variable CONFIDENCE_THRESHOLD : F.
Variable TOP_K : Z.

(** [index.as_retriever(similarity_top_k=k).retrieve(query)], the search of
    the vector index library. *)
Variable retrieve : Index -> string -> Z -> list (NodeWithScore F).

(** [SimilarityPostprocessor(similarity_cutoff=c).postprocess_nodes(nodes)],
    the cutoff filter of the same library. *)
Variable SimilarityPostprocessor : F -> list (NodeWithScore F) -> list (NodeWithScore F).

(** [[node.score for node in nodes if node.score is not None]] *)
Definition defined_scores (nodes : list (NodeWithScore F)) : list F :=
  omap score nodes.

(** [retrieve_with_confidence], app.py lines 167-180: the candidates of the
    base index, then those of the delta index when there is one. *)
Definition merge_nodes (base_index : Index) (delta_index : option Index) (query : string)
  : list (NodeWithScore F) :=
  let base_nodes := retrieve base_index query TOP_K in
  match delta_index with
  | Some d => base_nodes ++ retrieve d query TOP_K
  | None => base_nodes
  end.

(** [retrieve_with_confidence], app.py lines 187-208, on the merged
    candidates. *)
Definition confidence_gate (all_nodes : list (NodeWithScore F))
  : list (NodeWithScore F) * bool :=
  let filtered_nodes := SimilarityPostprocessor SIMILARITY_CUTOFF all_nodes in
  if (Z.of_nat (length filtered_nodes) <? MIN_HITS)%Z then (filtered_nodes, false)
  else
    match filtered_nodes with
    | [] => (filtered_nodes, true)
    | _ :: _ =>
        match defined_scores filtered_nodes with
        | [] => (filtered_nodes, true)
        | scores =>
            if score_lt (score_mean scores) CONFIDENCE_THRESHOLD
            then (filtered_nodes, false)
            else (filtered_nodes, true)
        end
    end.

(** [retrieve_with_confidence], app.py lines 160-208. The [print] calls
    write to the standard output only and are left out. *)
Definition retrieve_with_confidence (base_index : Index) (delta_index : option Index)
  (query : string) : list (NodeWithScore F) * bool :=
  confidence_gate (merge_nodes base_index delta_index query).

End Retrieval.

(** ** Process state, files and effects *)

Inductive exn : Type :=
| JSONDecodeError
| KeyError (key : string)
| TypeError
| ValueError
| ValidationError
| OSError (path : string)
| ProviderError.

Inductive result (A : Type) : Type :=
| Ok (a : A)
| Raise (e : exn).
Arguments Ok {A} _.
Arguments Raise {A} _.

(** One message of a conversation thread. *)
Record Message : Type := mkMessage {
  role : string;
  content : string
}.

(** What a request does to the outside, in the order it does it. The handlers
    do not read this log; it records the order of their effects. *)
Inductive event : Type :=
| LogAppended (path line : string)
| IndexInserted (slug : string) (doc : Document)
| IndexCreated (slug : string) (doc : Document)
| IndexPersisted (path : string)
| Generated (prompt : string)
| ThreadSaved (path : string).

(** The registries of app.py lines 30-32, the directories under the four
    roots, and the sources of identifiers and time. A directory of injection
    logs lists its files with their lines, in the order [glob] yields them.
    A persisted delta index that cannot be loaded is [None]. [unwritable]
    says of a path that the disk refuses it: the directory cannot be made,
    the file cannot be opened for writing. A write that was opened runs to
    its end. *)
Record World : Type := mkWorld {
  indexes : gmap string Index;
  delta_indexes : gmap string Index;
  threads : gmap string (list Message);
  thread_files : gmap string (list Message);
  inject_dirs : gmap string (list (string * list string));
  delta_dirs : gmap string (option Index);
  unwritable : string -> bool;
  uuids_drawn : nat;
  clock : nat;
  events : list event
}.

Definition with_delta_indexes (w : World) (m : gmap string Index) : World :=
  mkWorld (indexes w) m (threads w) (thread_files w) (inject_dirs w)
          (delta_dirs w) (unwritable w) (uuids_drawn w) (clock w) (events w).

Definition with_threads (w : World) (m : gmap string (list Message)) : World :=
  mkWorld (indexes w) (delta_indexes w) m (thread_files w) (inject_dirs w)
          (delta_dirs w) (unwritable w) (uuids_drawn w) (clock w) (events w).

Definition with_thread_files (w : World) (m : gmap string (list Message)) : World :=
  mkWorld (indexes w) (delta_indexes w) (threads w) m (inject_dirs w)
          (delta_dirs w) (unwritable w) (uuids_drawn w) (clock w) (events w).

Definition with_inject_dirs (w : World) (m : gmap string (list (string * list string))) : World :=
  mkWorld (indexes w) (delta_indexes w) (threads w) (thread_files w) m
          (delta_dirs w) (unwritable w) (uuids_drawn w) (clock w) (events w).

Definition with_delta_dirs (w : World) (m : gmap string (option Index)) : World :=
  mkWorld (indexes w) (delta_indexes w) (threads w) (thread_files w) (inject_dirs w)
          m (unwritable w) (uuids_drawn w) (clock w) (events w).

Definition with_uuids_drawn (w : World) (n : nat) : World :=
  mkWorld (indexes w) (delta_indexes w) (threads w) (thread_files w) (inject_dirs w)
          (delta_dirs w) (unwritable w) n (clock w) (events w).

Definition with_clock (w : World) (n : nat) : World :=
  mkWorld (indexes w) (delta_indexes w) (threads w) (thread_files w) (inject_dirs w)
          (delta_dirs w) (unwritable w) (uuids_drawn w) n (events w).

Definition with_events (w : World) (l : list event) : World :=
  mkWorld (indexes w) (delta_indexes w) (threads w) (thread_files w) (inject_dirs w)
          (delta_dirs w) (unwritable w) (uuids_drawn w) (clock w) l.

(** A computation that reads and changes the world and may raise. What was
    changed before an exception stays changed. *)
Definition M (A : Type) : Type := World -> result A * World.

#[global] Instance M_ret : MRet M := fun A a w => (Ok a, w).

#[global] Instance M_bind : MBind M := fun A B f m w =>
  match m w with
  | (Ok a, w') => f a w'
  | (Raise e, w') => (Raise e, w')
  end.

Definition raise {A : Type} (e : exn) : M A := fun w => (Raise e, w).
Definition get_world : M World := fun w => (Ok w, w).
Definition update (f : World -> World) : M unit := fun w => (Ok tt, f w).
Definition lift {A : Type} (r : result A) : M A := fun w => (r, w).
Definition emit (e : event) : M unit :=
  update (fun w => with_events w (events w ++ [e])).

(** Paths are [pathlib] pure POSIX paths, kept as the strings they render
    to. A path has a root (none, one slash, or two slashes when the text
    starts with exactly two) and the parts between its slashes; empty parts
    and parts that are a single dot are dropped, a part of two dots is
    kept. *)
Definition path_root (s : string) : string :=
  if Str.startswith "///" s then "/"
  else if Str.startswith "//" s then "//"
  else if Str.startswith "/" s then "/"
  else EmptyString.

Definition path_parts (s : string) : list string :=
  List.filter (fun part => negb (String.eqb part EmptyString || String.eqb part "."))
              (Str.split_char "/" s).

(** [a / b]: an absolute [b] takes the place of [a]. *)
Definition path_div (a : string * list string) (b : string) : string * list string :=
  if Str.startswith "/" b then (path_root b, path_parts b)
  else (fst a, snd a ++ path_parts b).

(** [str(path)]; the empty relative path is the dot. *)
Definition path_str (p : string * list string) : string :=
  match fst p, snd p with
  | EmptyString, [] => "."
  | root, parts => root +:+ join "/" parts
  end.

(** [str(Path(a) / b / c)] *)
Definition path_join (parts : list string) : string :=
  path_str (fold_left path_div parts (EmptyString, [])).

(** [path.mkdir(parents=True, exist_ok=True)] *)
Definition mkdir_inject (dir : string) : M unit :=
  w ← get_world;
  match inject_dirs w !! dir with
  | Some _ => mret tt
  | None =>
      if unwritable w dir then raise (OSError dir)
      else update (fun w => with_inject_dirs w (<[dir := []]> (inject_dirs w)))
  end.

(** The lines of file [name] after [line] was appended, in a directory
    listing; a file that does not exist yet is created. *)
Fixpoint append_line (name line : string) (files : list (string * list string))
  : list (string * list string) :=
  match files with
  | [] => [(name, [line])]
  | (n, ls) :: rest =>
      if String.eqb n name then (n, ls ++ [line]) :: rest
      else (n, ls) :: append_line name line rest
  end.

(** [with open(path, 'a') as f: f.write(line)] for [path = dir / name] *)
Definition open_append (dir name line : string) : M unit :=
  w ← get_world;
  let path := path_join [dir; name] in
  if unwritable w path then raise (OSError path)
  else
    update (fun w => with_inject_dirs w
              (<[dir := append_line name line (default [] (inject_dirs w !! dir))]>
                 (inject_dirs w)));;
    emit (LogAppended path line).

(** ** Requests and responses *)

Record AnswerRequest : Type := mkAnswerRequest {
  a_project : option string;
  a_version : option string;
  a_thread_slug : option string;
  a_message : option string
}.

Record InjectRequest : Type := mkInjectRequest {
  i_project : option string;
  i_version : option string;
  i_textContent : option string;
  i_metadata : option json
}.

(** [jsonify(body), status] *)
Record Response : Type := mkResponse {
  status : nat;
  body : json
}.

(** Truthiness of [data.get(field)]: the field is present and not empty. *)
Definition present (field : option string) : bool :=
  match field with
  | Some (String _ _) => true
  | _ => false
  end.

Definition field_value (field : option string) : string := default EmptyString field.

Definition nl : string := String (ascii_of_nat 10) EmptyString.

Definition abstention : string := "I don't know.".

(** The prompt of [answer], app.py lines 338-353. *)
Definition answer_prompt (context message : string) : string :=
  "You are a helpful technical assistant with expertise in Kubernetes and cloud-native technologies." +:+ nl +:+
  nl +:+
  "Use the provided context as your PRIMARY source of information. When the user asks for examples or configurations:" +:+ nl +:+
  "1. Start with what's provided in the context" +:+ nl +:+
  "2. Use your knowledge to complete and enhance the example to make it fully functional" +:+ nl +:+
  "3. Ensure all parts of your example are consistent (matching labels, IPs, names, etc.)" +:+ nl +:+
  "4. Provide complete, working configurations that the user can directly use" +:+ nl +:+
  nl +:+
  "If the context doesn't contain relevant information to answer the question at all, respond with: " +:+
  String Json.dquote (abstention +:+ String Json.dquote EmptyString) +:+ nl +:+
  nl +:+
  "Context:" +:+ nl +:+
  context +:+ nl +:+
  nl +:+
  "Question: " +:+ message +:+ nl +:+
  nl +:+
  "Answer:".

(** ** The server *)

Section Server.

Context {F : Type} `{Score F}.

Variable MIN_HITS : Z.
Variable SIMILARITY_CUTOFF : F.
Variable CONFIDENCE_THRESHOLD : F.
Variable TOP_K : Z.
Variable DELTA_ROOT : string.
Variable STATE_ROOT : string.
Variable INJECT_ROOT : string.

(** The collaborators: the [json] module; the constructor
    [Document(text=..., metadata=..., doc_id=...)] of the vector index
    library, which validates its three arguments ([None] is the
    [ValidationError] it raises, and Python's [None] is passed as [JNull]);
    the retriever and the cutoff filter of that library and its embedding
    step (does embedding this text succeed); the generation service ([None]
    is a provider error); [uuid.uuid4] as the sequence of identifiers it
    yields; and the two renderings of [datetime.now()]. *)
Variable json_dumps : json -> string.
Variable json_loads : string -> option json.
Variable Document_init : json -> json -> json -> option Document.
Variable retrieve : Index -> string -> Z -> list (NodeWithScore F).
Variable SimilarityPostprocessor : F -> list (NodeWithScore F) -> list (NodeWithScore F).
Variable embed_ok : string -> bool.
Variable generate_content : string -> option string.
Variable uuid4 : nat -> string.
Variable strftime_date : nat -> string.
Variable isoformat : nat -> string.

(** [str(uuid.uuid4())] *)
Definition new_uuid : M string :=
  w ← get_world;
  update (fun w => with_uuids_drawn w (Datatypes.S (uuids_drawn w)));;
  mret (uuid4 (uuids_drawn w)).

(** [datetime.now()] *)
Definition now : M nat :=
  w ← get_world;
  update (fun w => with_clock w (Datatypes.S (clock w)));;
  mret (clock w).

(** The file of a thread, app.py lines 77 and 86-88:
    [Path(STATE_ROOT) / "threads" / f"{thread_slug}.json"]. Slugs that differ
    by a dot part or a doubled slash name one file, and a slug that starts
    with a slash leaves the state directory. *)
Definition thread_path (thread_slug : string) : string :=
  path_join [STATE_ROOT; "threads"; thread_slug +:+ ".json"].

(** [load_thread_memory], app.py lines 75-81, on thread files that hold what
    [save_thread_memory] wrote. *)
Definition load_thread_memory (thread_slug : string) : M (list Message) :=
  w ← get_world;
  mret (default [] (thread_files w !! thread_path thread_slug)).

(** [save_thread_memory], app.py lines 84-90. The failure modelled is the
    disk refusing the file, at [mkdir] or at [open]: nothing is written
    then. A file that was opened is written whole; a write that breaks off
    after the open emptied the file is not modelled. *)
Definition save_thread_memory (thread_slug : string) (messages : list Message) : M unit :=
  w ← get_world;
  let path := thread_path thread_slug in
  if unwritable w path then raise (OSError path)
  else
    update (fun w => with_thread_files w (<[path := messages]> (thread_files w)));;
    emit (ThreadSaved path).

(** The directory of the injection logs of a project and version. *)
Definition inject_dir (project version : string) : string :=
  path_join [INJECT_ROOT; project; normalize_version version].

(** [append_to_jsonl], app.py lines 93-109. It returns nothing. *)
Definition append_to_jsonl (project version text : string) (metadata : json) : M unit :=
  let dir := inject_dir project version in
  mkdir_inject dir;;
  today ← now;
  let name := strftime_date today +:+ ".jsonl" in
  id ← new_uuid;
  timestamp ← now;
  let record := JObj [("id", JStr id);
                      ("timestamp", JStr (isoformat timestamp));
                      ("text", JStr text);
                      ("metadata", if truthy metadata then metadata else JObj [])] in
  open_append dir name (json_dumps record +:+ nl).

(** The chunk of one decoded log line, app.py lines 124-128: [record["text"]]
    needs a dict with that key; [record.get("metadata", {})] and
    [record.get("id")] have the defaults [{}] and [None]. What the
    constructor makes of the three values is the library's business. *)
Definition document_of_record (record : json) : result Document :=
  match record with
  | JObj members =>
      match dict_get "text" members with
      | Some t =>
          match Document_init t (default (JObj []) (dict_get "metadata" members))
                              (default JNull (dict_get "id" members)) with
          | Some doc => Ok doc
          | None => Raise ValidationError
          end
      | None => Raise (KeyError "text")
      end
  | _ => Raise TypeError
  end.

(** The loop over the lines of one file, app.py lines 121-129. *)
Fixpoint load_lines (lines : list string) (documents : list Document)
  : result (list Document) :=
  match lines with
  | [] => Ok documents
  | line :: rest =>
      if Str.has_text line then
        match json_loads line with
        | None => Raise JSONDecodeError
        | Some record =>
            match document_of_record record with
            | Ok doc => load_lines rest (documents ++ [doc])
            | Raise e => Raise e
            end
        end
      else load_lines rest documents
  end.

(** The loop over the files that [glob("*.jsonl")] yields, app.py lines
    119-129. *)
Fixpoint load_files (files : list (string * list string)) (documents : list Document)
  : result (list Document) :=
  match files with
  | [] => Ok documents
  | (name, lines) :: rest =>
      if Str.endswith ".jsonl" name then
        match load_lines lines documents with
        | Ok documents' => load_files rest documents'
        | Raise e => Raise e
        end
      else load_files rest documents
  end.

(** [load_injected_documents], app.py lines 112-130 *)
Definition load_injected_documents (project version : string) : M (list Document) :=
  w ← get_world;
  match inject_dirs w !! inject_dir project version with
  | None => mret []
  | Some files => lift (load_files files [])
  end.

(** [VectorStoreIndex.from_documents(documents)]: every chunk is embedded,
    then the index holds them. *)
Definition from_documents (documents : list Document) : M Index :=
  if forallb (fun d => embed_ok (text d)) documents then mret documents
  else raise ProviderError.

(** [path.mkdir(parents=True, exist_ok=True)] and
    [index.storage_context.persist(persist_dir=path)]. The failure modelled
    is the disk refusing the directory, before any file of the index is
    written; a persist that breaks off half way is not modelled. *)
Definition persist (path : string) (index : Index) : M unit :=
  w ← get_world;
  if unwritable w path then raise (OSError path)
  else
    update (fun w => with_delta_dirs w (<[path := Some index]> (delta_dirs w)));;
    emit (IndexPersisted path).

(** The project and version that [load_or_create_delta_index] reads off a
    slug, app.py lines 146-147. Unpacking a list that has not two items
    raises. *)
Definition parse_slug (slug : string) : result (string * string) :=
  match Str.split1 separator slug with
  | [project; version_slug] => Ok (project, Str.replace marker "." version_slug)
  | _ => Raise ValueError
  end.

(** [load_or_create_delta_index], app.py lines 133-157 *)
Definition load_or_create_delta_index (slug : string) : M (option Index) :=
  let delta_path := path_join [DELTA_ROOT; slug] in
  w ← get_world;
  match delta_dirs w !! delta_path with
  | Some (Some index) => mret (Some index)
  | _ =>
      '(project, version) ← lift (parse_slug slug);
      documents ← load_injected_documents project version;
      match documents with
      | [] => mret None
      | _ :: _ =>
          index ← from_documents documents;
          persist delta_path index;;
          mret (Some index)
      end
  end.

(** [generate_with_gemini], app.py lines 211-220 *)
Definition generate_with_gemini (prompt : string) : M string :=
  emit (Generated prompt);;
  match generate_content prompt with
  | Some response_text => mret response_text
  | None => raise ProviderError
  end.

(** The answer text, app.py lines 331-355. *)
Definition synthesize (message : string) (nodes : list (NodeWithScore F))
  (should_answer : bool) : M string :=
  if negb should_answer then mret abstention
  else
    let context := join (nl +:+ nl) (map (fun n => text (node n)) nodes) in
    generate_with_gemini (answer_prompt context message).

Definition error_body (message : string) : json := JObj [("error", JStr message)].

(** [answer], app.py lines 303-364 *)
Definition answer (data : AnswerRequest) : M Response :=
  if negb (present (a_project data) && present (a_version data) &&
           present (a_thread_slug data) && present (a_message data))
  then mret (mkResponse 400 (error_body "Missing required fields"))
  else
    let project := field_value (a_project data) in
    let version := field_value (a_version data) in
    let thread_slug := field_value (a_thread_slug data) in
    let message := field_value (a_message data) in
    let slug := get_slug project version in
    w ← get_world;
    match indexes w !! slug with
    | None =>
        mret (mkResponse 404
                (error_body ("No index found for " +:+ project +:+ "/" +:+ version)))
    | Some base_index =>
        let delta_index := delta_indexes w !! slug in
        let '(nodes, should_answer) :=
          retrieve_with_confidence MIN_HITS SIMILARITY_CUTOFF CONFIDENCE_THRESHOLD
                                   TOP_K retrieve SimilarityPostprocessor
                                   base_index delta_index message in
        response_text ← synthesize message nodes should_answer;
        thread_messages ← load_thread_memory thread_slug;
        let thread_messages :=
          thread_messages ++ [mkMessage "user" message;
                              mkMessage "assistant" response_text] in
        save_thread_memory thread_slug thread_messages;;
        update (fun w => with_threads w (<[thread_slug := thread_messages]> (threads w)));;
        mret (mkResponse 200 (JObj [("textResponse", JStr response_text)]))
    end.

(** [delta_index.insert(doc)] on the index registered under [slug] *)
Definition insert_document (slug : string) (index : Index) (doc : Document) : M Index :=
  if embed_ok (text doc) then
    update (fun w => with_delta_indexes w (<[slug := index ++ [doc]]> (delta_indexes w)));;
    emit (IndexInserted slug doc);;
    mret (index ++ [doc])
  else raise ProviderError.

(** The second half of [inject], app.py lines 439-461: the chunk gets an
    identifier of its own and is built by the constructor, which may refuse
    it; it goes into the delta index of the slug, and the index is
    persisted. An index object is always truthy, so [if delta_index] asks
    whether the registry has one. *)
Definition index_injected (slug text_content : string) (metadata : json) : M Response :=
  id ← new_uuid;
  doc ← match Document_init (JStr text_content) metadata (JStr id) with
        | Some doc => mret doc
        | None => raise ValidationError
        end;
  w ← get_world;
  delta_index ←
    match delta_indexes w !! slug with
    | Some index => insert_document slug index doc
    | None =>
        index ← from_documents [doc];
        update (fun w => with_delta_indexes w (<[slug := index]> (delta_indexes w)));;
        emit (IndexCreated slug doc);;
        mret index
    end;
  persist (path_join [DELTA_ROOT; slug]) delta_index;;
  mret (mkResponse 200 (JObj [("status", JStr "ok")])).

(** [inject], app.py lines 418-461 *)
Definition inject (data : InjectRequest) : M Response :=
  if negb (present (i_project data) && present (i_version data) &&
           present (i_textContent data))
  then mret (mkResponse 400 (error_body "Missing required fields"))
  else
    let project := field_value (i_project data) in
    let version := field_value (i_version data) in
    let text_content := field_value (i_textContent data) in
    let metadata := default (JObj []) (i_metadata data) in
    let slug := get_slug project version in
    append_to_jsonl project version text_content metadata;;
    index_injected slug text_content metadata.

End Server.

(** An exception that leaves a handler becomes the framework's answer 500. *)
Definition serve (handler : M Response) (w : World) : Response * World :=
  match handler w with
  | (Ok r, w') => (r, w')
  | (Raise _, w') => (mkResponse 500 (error_body "Internal Server Error"), w')
  end.

(** ** Exact scores

    Rational scores with exact arithmetic; [sum] starts from 0 and adds from
    the left. *)

Definition Qlt_bool (a b : Q) : bool :=
  (Qnum a * Zpos (Qden b) <? Qnum b * Zpos (Qden a))%Z.

Definition Qge_bool (a b : Q) : bool :=
  (Qnum b * Zpos (Qden a) <=? Qnum a * Zpos (Qden b))%Z.

Definition Qmean (scores : list Q) : Q :=
  Qred (Qdiv (fold_left Qplus scores (0 # 1)%Q)
             (inject_Z (Z.of_nat (length scores)))).

#[global] Instance Q_score : Score Q := {
  score_lt := Qlt_bool;
  score_ge := Qge_bool;
  score_mean := Qmean
}.

(** ** Observations on the event log *)

Definition is_generation (e : event) : bool :=
  match e with
  | Generated _ => true
  | _ => false
  end.

(** The number of calls made to the generation service so far. *)
Definition generation_calls (w : World) : nat :=
  length (List.filter is_generation (events w)).

(** The four required fields of an answer request are there. *)
Definition answer_fields_present (data : AnswerRequest) : bool :=
  present (a_project data) && present (a_version data) &&
  present (a_thread_slug data) && present (a_message data).

(** The three required fields of an injection request are there. *)
Definition inject_fields_present (data : InjectRequest) : bool :=
  present (i_project data) && present (i_version data) &&
  present (i_textContent data).

(** ** Collaborators for the concrete runs *)

(** A retriever that ranks the chunks in index order, scores each of them
    [score], and returns the first [k]. *)
Definition first_k_retrieve (score : Q) (index : Index) (query : string) (k : Z)
  : list (NodeWithScore Q) :=
  firstn (Z.to_nat k) (map (fun d => mkNode d (Some score)) index).

Definition chunk (t : string) : Document := mkDocument t (JObj []) None.

(** ** Versions that survive the way back

    The version strings on which reversing the marker substitution is safe:
    they hold neither the marker nor the text [-dot] right before a dot. *)
Definition reversible (version : string) : bool :=
  negb (Str.contains marker version) && negb (Str.contains "-dot." version).

(** ** Reading the injection logs *)

(** The chunk a log line yields, when it decodes and the record converts. *)
Definition chunk_of_line (json_loads : string -> option json)
  (Document_init : json -> json -> json -> option Document) (line : string)
  : option Document :=
  match json_loads line with
  | Some record =>
      match document_of_record Document_init record with
      | Ok doc => Some doc
      | Raise _ => None
      end
  | None => None
  end.

(** The lines with text of the [.jsonl] files of a directory, in reading
    order. *)
Definition jsonl_lines (files : list (string * list string)) : list string :=
  flat_map (fun f => if Str.endswith ".jsonl" (fst f)
                     then List.filter Str.has_text (snd f)
                     else []) files.

(** The reconstruction as the specification words it: every line is parsed
    on its own, a line that fails is skipped, and each remaining record gives
    one chunk. *)
Definition reconstruct_skipping (json_loads : string -> option json)
  (Document_init : json -> json -> json -> option Document)
  (files : list (string * list string)) : list Document :=
  omap (chunk_of_line json_loads Document_init) (jsonl_lines files).

(** A world with nothing loaded, nothing on disk and every path writable. *)
Definition empty_world : World :=
  mkWorld ∅ ∅ ∅ ∅ ∅ ∅ (fun _ => false) 0 0 [].

Definition record_line (id t : string) : string :=
  Json.dumps (JObj [("id", JStr id); ("timestamp", JStr "2025-01-01T00:00:00");
                    ("text", JStr t); ("metadata", JObj [])]) +:+ nl.

(** One log file of project [k8s], version [1.2]: two records around a line
    that is not JSON. *)
Definition broken_log : list (string * list string) :=
  [("2025-01-01.jsonl", [record_line "a" "X"; "not json" +:+ nl; record_line "b" "Y"])].

Definition broken_log_world : World :=
  with_inject_dirs empty_world {[ "/app/injected/k8s/1-dot-2" := broken_log ]}.

(** The same file with an empty line in place of the broken one. *)
Definition blank_log : list (string * list string) :=
  [("2025-01-01.jsonl", [record_line "a" "X"; nl; record_line "b" "Y"])].

Definition blank_log_world : World :=
  with_inject_dirs empty_world {[ "/app/injected/k8s/1-dot-2" := blank_log ]}.

(** ** What an injection writes *)

(** The line [append_to_jsonl] writes when [n] identifiers were drawn before
    and the clock stands at [t]. *)
Definition written_line (json_dumps : json -> string) (uuid4 isoformat : nat -> string)
  (n t : nat) (text : string) (metadata : json) : string :=
  json_dumps (JObj [("id", JStr (uuid4 n));
                    ("timestamp", JStr (isoformat (Datatypes.S t)));
                    ("text", JStr text);
                    ("metadata", if truthy metadata then metadata else JObj [])]) +:+ nl.

Definition written_path (INJECT_ROOT : string) (strftime_date : nat -> string)
  (t : nat) (project version : string) : string :=
  path_join [inject_dir INJECT_ROOT project version; strftime_date t +:+ ".jsonl"].


(** The chunk [inject] builds when [n] identifiers were drawn before the
    request: the recorder draws the first, the chunk gets the next. *)
Definition injected_chunk (uuid4 : nat -> string) (n : nat) (text : string)
  (metadata : json) : Document :=
  mkDocument text metadata (Some (JStr (uuid4 (Datatypes.S n)))).

(** The parts of a well-formed injection request. *)
Definition inject_project (data : InjectRequest) : string := field_value (i_project data).
Definition inject_version (data : InjectRequest) : string := field_value (i_version data).
Definition inject_text (data : InjectRequest) : string := field_value (i_textContent data).
Definition inject_metadata (data : InjectRequest) : json := default (JObj []) (i_metadata data).
Definition inject_slug (data : InjectRequest) : string :=
  get_slug (inject_project data) (inject_version data).

(** A constructor for the concrete runs: it takes a text that is a string,
    or [None] for the empty text, with a metadata that is a dict and an
    identifier that is a string, and refuses everything else. *)
Definition checked_document (text metadata doc_id : json) : option Document :=
  match metadata, doc_id with
  | JObj _, JStr _ =>
      match text with
      | JStr t => Some (mkDocument t metadata (Some doc_id))
      | JNull => Some (mkDocument EmptyString metadata (Some doc_id))
      | _ => None
      end
  | _, _ => None
  end.

(** Collaborators for the concrete runs: identifiers [uuid-0], [uuid-1], ...,
    a clock that stands still, an embedding service that always answers. *)
Definition numbered_uuid (n : nat) : string := "uuid-" +:+ Json.digits (Z.of_nat n).
Definition fixed_date (t : nat) : string := "2025-01-01".
Definition fixed_time (t : nat) : string := "2025-01-01T00:00:00".
Definition always_embeds (t : string) : bool := true.

Definition inject_x : InjectRequest :=
  mkInjectRequest (Some "k8s") (Some "1.2") (Some "X") None.

(** The same request with a metadata that is a list. *)
Definition inject_list_metadata : InjectRequest :=
  mkInjectRequest (Some "k8s") (Some "1.2") (Some "X") (Some (JArr [JNum 1])).

(** A world whose disk refuses the log file of the day. *)
Definition full_disk_world : World :=
  mkWorld ∅ ∅ ∅ ∅ ∅ ∅
          (fun p => String.eqb p "/app/injected/k8s/1-dot-2/2025-01-01.jsonl") 0 0 [].

(** A request for a project that no index was built for. *)
Definition ask_unknown : AnswerRequest :=
  mkAnswerRequest (Some "unknown") (Some "1.0") (Some "test-thread") (Some "test").

(** ** The other handlers, the start-up loops and the index builder *)

Definition with_indexes (w : World) (m : gmap string Index) : World :=
  mkWorld m (delta_indexes w) (threads w) (thread_files w) (inject_dirs w)
          (delta_dirs w) (unwritable w) (uuids_drawn w) (clock w) (events w).

Record ElaborateRequest : Type := mkElaborateRequest {
  e_thread_slug : option string;
  e_message : option string
}.

Definition elaborate_fields_present (data : ElaborateRequest) : bool :=
  present (e_thread_slug data) && present (e_message data).

(** [f"{msg['role']}: {msg['content']}"] *)
Definition message_line (msg : Message) : string :=
  role msg +:+ ": " +:+ content msg.

(** The instruction both prompts of [elaborate] end with, app.py lines
    394-397 and 401-404. *)
Definition reformat_instruction (message : string) : string :=
  "Please take the following content and reformat it in a clear, readable, and well-organized way. " +:+
  "Summarize key points, improve structure, and make it easier to understand:" +:+ nl +:+ nl +:+
  message +:+ nl +:+ nl +:+
  "Reformatted version:".

(** The prompt of [elaborate], app.py lines 391-405. An empty conversation
    is falsy. *)
Definition elaborate_prompt (conversation message : string) : string :=
  match conversation with
  | EmptyString => reformat_instruction message
  | String _ _ =>
      "Previous conversation:" +:+ nl +:+ conversation +:+ nl +:+ nl +:+
      reformat_instruction message
  end.

(** [elaborate], app.py lines 367-415 *)
Definition elaborate (STATE_ROOT : string) (generate_content : string -> option string)
  (data : ElaborateRequest) : M Response :=
  if negb (present (e_thread_slug data) && present (e_message data))
  then mret (mkResponse 400 (error_body "Missing required fields"))
  else
    let thread_slug := field_value (e_thread_slug data) in
    let message := field_value (e_message data) in
    thread_messages ← load_thread_memory STATE_ROOT thread_slug;
    let conversation := join nl (map message_line thread_messages) in
    let prompt := elaborate_prompt conversation message in
    response_text ← generate_with_gemini generate_content prompt;
    let thread_messages :=
      thread_messages ++ [mkMessage "user" message;
                          mkMessage "assistant" response_text] in
    save_thread_memory STATE_ROOT thread_slug thread_messages;;
    update (fun w => with_threads w (<[thread_slug := thread_messages]> (threads w)));;
    mret (mkResponse 200 (JObj [("textResponse", JStr response_text)])).

(** [health], app.py lines 297-300 *)
Definition health : M Response :=
  w ← get_world;
  mret (mkResponse 200
          (JObj [("status", JStr "ok");
                 ("base_indexes", JNum (Z.of_nat (size (indexes w))));
                 ("delta_indexes", JNum (Z.of_nat (size (delta_indexes w))))])).

(** One entry of [Path(STORAGE_ROOT).iterdir()]: its name, whether it is a
    directory, and the index that [load_index_from_storage] gives for it
    ([None] when the loading raises). *)
Record StorageEntry : Type := mkStorageEntry {
  entry_name : string;
  entry_is_dir : bool;
  entry_index : option Index
}.

(** The loop that loads the base indexes, app.py lines 272-281: a directory
    that cannot be loaded is reported and passed over. *)
Fixpoint load_base_indexes (entries : list StorageEntry) : M unit :=
  match entries with
  | [] => mret tt
  | e :: rest =>
      (if entry_is_dir e then
         match entry_index e with
         | Some index =>
             update (fun w => with_indexes w (<[entry_name e := index]> (indexes w)))
         | None => mret tt
         end
       else mret tt);;
      load_base_indexes rest
  end.

(** The loop that loads the delta indexes, app.py lines 286-292, over the
    names and directory flags that [Path(DELTA_ROOT).iterdir()] yields. The
    call of [load_or_create_delta_index] is not guarded. *)
Fixpoint load_delta_indexes (DELTA_ROOT INJECT_ROOT : string)
  (json_loads : string -> option json)
  (Document_init : json -> json -> json -> option Document) (embed_ok : string -> bool)
  (entries : list (string * bool)) : M unit :=
  match entries with
  | [] => mret tt
  | (slug, is_dir) :: rest =>
      (if is_dir then
         delta_index ← load_or_create_delta_index DELTA_ROOT INJECT_ROOT json_loads
                                                   Document_init embed_ok slug;
         match delta_index with
         | Some index =>
             update (fun w => with_delta_indexes w (<[slug := index]> (delta_indexes w)))
         | None => mret tt
         end
       else mret tt);;
      load_delta_indexes DELTA_ROOT INJECT_ROOT json_loads Document_init embed_ok rest
  end.

(** The slug of [build_indexes.py], line 50: the separator is always there. *)
Definition build_slug (project_name version_name : string) : string :=
  project_name +:+ separator +:+ normalize_version version_name.

(** The body of the inner loop of [build_indexes], build_indexes.py lines
    49-71, on the storage directory as a map from directory name to persisted
    index. [documents] is what the directory reader gives, [None] when it
    raises. Every exception ends the turn of this version and nothing else. *)
Definition build_version (embed_ok : string -> bool) (storage_unwritable : string -> bool)
  (project_name version_name : string) (documents : option (list Document))
  (storage : gmap string Index) : gmap string Index :=
  let slug := build_slug project_name version_name in
  match documents with
  | None => storage
  | Some [] => storage
  | Some docs =>
      if forallb (fun d => embed_ok (text d)) docs then
        if storage_unwritable slug then storage
        else <[slug := docs]> storage
      else storage
  end.

(** The two loops of [build_indexes], build_indexes.py lines 44-71, over the
    project directories and their version directories. *)
Definition build_indexes (embed_ok : string -> bool) (storage_unwritable : string -> bool)
  (projects : list (string * list (string * option (list Document))))
  (storage : gmap string Index) : gmap string Index :=
  fold_left
    (fun st project =>
       fold_left (fun st' version =>
                    build_version embed_ok storage_unwritable (fst project)
                                  (fst version) (snd version) st')
                 (snd project) st)
    projects storage.

(** The exception a log line with text makes the reconstruction stop with,
    if any. *)
Definition line_error (json_loads : string -> option json)
  (Document_init : json -> json -> json -> option Document) (line : string) : option exn :=
  match json_loads line with
  | None => Some JSONDecodeError
  | Some record =>
      match document_of_record Document_init record with
      | Ok _ => None
      | Raise e => Some e
      end
  end.

(** The two messages one exchange adds to a thread. *)
Definition exchange (message response_text : string) : list Message :=
  [mkMessage "user" message; mkMessage "assistant" response_text].

(** The context block of the answer prompt, app.py line 335. *)
Definition context_of {F : Type} (nodes : list (NodeWithScore F)) : string :=
  join (nl +:+ nl) (map (fun n => text (node n)) nodes).

(** The requests of the concrete runs below. *)
Definition ask_k8s : AnswerRequest :=
  mkAnswerRequest (Some "k8s") (Some "1.2") (Some "t1") (Some "What is X?").

Definition k8s_world : World :=
  with_indexes empty_world {[ "k8s-1-dot-2" := [chunk "X is a thing."] ]}.

Definition echo_generation (prompt : string) : option string := Some "X is a thing.".
Definition failing_generation (prompt : string) : option string := None.

(** The corpora and the sources of identifiers and time are the same in two
    worlds: the two registries, the injection logs and the persisted delta
    indexes. *)
Definition same_corpora (w w' : World) : Prop :=
  indexes w' = indexes w /\ delta_indexes w' = delta_indexes w /\
  inject_dirs w' = inject_dirs w /\ delta_dirs w' = delta_dirs w /\
  uuids_drawn w' = uuids_drawn w /\ clock w' = clock w.

(** The threads are the same in two worlds, on disk and in the cache. *)
Definition same_threads (w w' : World) : Prop :=
  thread_files w' = thread_files w /\ threads w' = threads w.

Definition elaborate_t1 : ElaborateRequest :=
  mkElaborateRequest (Some "t1") (Some "raw notes").

(** The world of [k8s_world] on a disk that refuses every write. *)
Definition readonly_k8s_world : World :=
  mkWorld {[ "k8s-1-dot-2" := [chunk "X is a thing."] ]} ∅ ∅ ∅ ∅ ∅
          (fun _ => true) 0 0 [].

(** The request of [test_answer_missing_fields] and its siblings: only the
    project is given. *)
Definition answer_project_only : AnswerRequest :=
  mkAnswerRequest (Some "test") None None None.
Definition inject_project_only : InjectRequest :=
  mkInjectRequest (Some "test") None None None.
Definition elaborate_thread_only : ElaborateRequest :=
  mkElaborateRequest (Some "test") None.

(** An embedding service that is down. *)
Definition never_embeds (t : string) : bool := false.

(** A disk that refuses the directory of the delta index of [k8s-1-dot-2]. *)
Definition delta_refused_world : World :=
  mkWorld ∅ ∅ ∅ ∅ ∅ ∅
          (fun p => String.eqb p "/app/storage-delta/k8s-1-dot-2") 0 0 [].

(** A persisted delta index is there and can be loaded. *)
Definition loadable (DELTA_ROOT : string) (w : World) (slug : string) : option Index :=
  match delta_dirs w !! path_join [DELTA_ROOT; slug] with
  | Some (Some index) => Some index
  | _ => None
  end.

(** A world with the two records of [blank_log] in the log of [k8s] [1.2]
    and no delta index, in memory or on disk. *)
Definition unindexed_log_world : World := blank_log_world.

(** The registry after the loop over the storage entries: each directory
    that loads is registered under its name. *)
Definition register_entry (m : gmap string Index) (e : StorageEntry) : gmap string Index :=
  if entry_is_dir e then
    match entry_index e with
    | Some index => <[entry_name e := index]> m
    | None => m
    end
  else m.

(** An entry of the storage directory that the loop registers. *)
Definition registrable (e : StorageEntry) : bool :=
  entry_is_dir e && match entry_index e with Some _ => true | None => false end.

(** The decision of the gate on the filtered candidates. *)
Definition gate_decision {F : Type} `{Score F} (MIN_HITS : Z) (CONFIDENCE_THRESHOLD : F)
  (filtered_nodes : list (NodeWithScore F)) : bool :=
  negb (Z.of_nat (length filtered_nodes) <? MIN_HITS)%Z &&
  match defined_scores filtered_nodes with
  | [] => true
  | scores => negb (score_lt (score_mean scores) CONFIDENCE_THRESHOLD)
  end.

(** Three entries of a storage directory: a directory that loads, a file,
    and a directory that does not load. *)
Definition storage_listing : list StorageEntry :=
  [mkStorageEntry "k8s-1-dot-2" true (Some [chunk "A"]);
   mkStorageEntry "README.md" false None;
   mkStorageEntry "broken-1-dot-0" true None].

(** The delta registry after the loop over directories whose persisted
    indexes load. *)
Definition register_delta (DELTA_ROOT : string) (w : World) (m : gmap string Index)
  (entry : string * bool) : gmap string Index :=
  if snd entry then
    match loadable DELTA_ROOT w (fst entry) with
    | Some index => <[fst entry := index]> m
    | None => m
    end
  else m.

(** Every directory of a listing has a persisted delta index that loads. *)
Definition all_loadable (DELTA_ROOT : string) (w : World) (entries : list (string * bool))
  : bool :=
  forallb (fun entry => negb (snd entry) ||
                        match loadable DELTA_ROOT w (fst entry) with
                        | Some _ => true
                        | None => false
                        end) entries.

(** A world with one persisted delta index. *)
Definition persisted_delta_world : World :=
  with_delta_dirs empty_world
    {[ "/app/storage-delta/k8s-1-dot-2" := Some [chunk "D"] ]}.

(** A log whose second record has no text. *)
Definition textless_log : list (string * list string) :=
  [("2025-01-01.jsonl",
    [record_line "a" "X";
     Json.dumps (JObj [("id", JStr "b")]) +:+ nl;
     "not json" +:+ nl])].

Definition textless_log_world : World :=
  with_inject_dirs empty_world {[ "/app/injected/k8s/1-dot-2" := textless_log ]}.

(** The slugs the index builder may write for a listing of project and
    version directories. *)
Definition build_slugs (projects : list (string * list (string * option (list Document))))
  : list string :=
  flat_map (fun project => map (fun version => build_slug (fst project) (fst version))
                               (snd project)) projects.

(** * Properties *)

#[local] Arguments String.append !_ _ : simpl nomatch.
#[local] Arguments Ascii.eqb !_ !_ : simpl nomatch.

(** ** The confidence gate *)

Lemma Qge_not_lt (a b : Q) : Qge_bool a b = true -> Qlt_bool a b = false.
Proof.
  unfold Qge_bool, Qlt_bool. intros Hge.
  apply Z.leb_le in Hge. apply Z.ltb_ge. exact Hge.
Qed.

#[global] Instance Q_score_laws : ScoreLaws Q.
Proof. constructor. exact Qge_not_lt. Qed.

Section GateProperties.

Context {F : Type} `{Score F}.
Variables (MIN_HITS : Z) (SIMILARITY_CUTOFF CONFIDENCE_THRESHOLD : F).
Variable SimilarityPostprocessor : F -> list (NodeWithScore F) -> list (NodeWithScore F).

(** C1. For a positive [MIN_HITS], whenever fewer than [MIN_HITS] candidates
    survive the similarity cutoff, the gate abstains and hands back the
    filtered candidates, whatever their scores and whatever the cutoff
    filter of the library keeps. *)
Theorem gate_abstains_below_min_hits (candidates : list (NodeWithScore F)) :
  (0 < MIN_HITS)%Z ->
  (Z.of_nat (length (SimilarityPostprocessor SIMILARITY_CUTOFF candidates)) < MIN_HITS)%Z ->
  confidence_gate MIN_HITS SIMILARITY_CUTOFF CONFIDENCE_THRESHOLD SimilarityPostprocessor
                  candidates
  = (SimilarityPostprocessor SIMILARITY_CUTOFF candidates, false).
Proof.
  intros _ Hfew. unfold confidence_gate.
  apply Z.ltb_lt in Hfew. rewrite Hfew. reflexivity.
Qed.

(** The cutoff keeps a list whose defined scores all reach it. *)
Lemma postprocess_nodes_noop `{!ScoreLaws F} (candidates : list (NodeWithScore F)) :
  (forall n x, In n candidates -> score n = Some x ->
               score_ge x SIMILARITY_CUTOFF = true) ->
  postprocess_nodes SIMILARITY_CUTOFF candidates = candidates.
Proof.
  intros Hall. unfold postprocess_nodes.
  induction candidates as [| n rest IH]; [reflexivity |].
  cbn [List.filter].
  assert (Hkeep : match score n with
                  | Some x => negb (score_lt x SIMILARITY_CUTOFF)
                  | None => true
                  end = true).
  { destruct (score n) as [x |] eqn:Hs; [| reflexivity].
    rewrite (score_ge_not_lt x SIMILARITY_CUTOFF); [reflexivity |].
    apply (Hall n x); [left; reflexivity | exact Hs]. }
  rewrite Hkeep. f_equal. apply IH.
  intros m x Hin. apply Hall. right. exact Hin.
Qed.

(** C2. When every defined score reaches the cutoff, the mean of the defined
    scores reaches the confidence threshold and there are at least
    [MIN_HITS] candidates, the gate answers and hands back the input list
    itself. The hypotheses use [>=], so a score at the cutoff and a mean at
    the threshold are accepted: the gate compares with [<]. *)
Theorem gate_accepts_at_thresholds `{!ScoreLaws F} (candidates : list (NodeWithScore F)) :
  (forall n x, In n candidates -> score n = Some x ->
               score_ge x SIMILARITY_CUTOFF = true) ->
  (defined_scores candidates <> [] ->
   score_ge (score_mean (defined_scores candidates)) CONFIDENCE_THRESHOLD = true) ->
  (MIN_HITS <= Z.of_nat (length candidates))%Z ->
  confidence_gate MIN_HITS SIMILARITY_CUTOFF CONFIDENCE_THRESHOLD postprocess_nodes
                  candidates
  = (candidates, true).
Proof.
  intros Hcut Hmean Hhits. unfold confidence_gate.
  rewrite (postprocess_nodes_noop candidates Hcut).
  apply Z.ltb_ge in Hhits. rewrite Hhits.
  destruct candidates as [| n rest]; [reflexivity |].
  destruct (defined_scores (n :: rest)) as [| x xs] eqn:Hscores; [reflexivity |].
  rewrite (score_ge_not_lt _ _ (Hmean ltac:(discriminate))). reflexivity.
Qed.

(** The same for any cutoff filter that hands back unchanged a list whose
    candidates all have a score that is not below the cutoff: what the filter
    does with candidates without a score does not matter there. *)
Lemma gate_accepts_scored `{!ScoreLaws F} (candidates : list (NodeWithScore F)) :
  (forall nodes,
     (forall n, In n nodes -> exists x, score n = Some x /\
                                        score_lt x SIMILARITY_CUTOFF = false) ->
     SimilarityPostprocessor SIMILARITY_CUTOFF nodes = nodes) ->
  (forall n, In n candidates -> exists x, score n = Some x /\
                                          score_ge x SIMILARITY_CUTOFF = true) ->
  score_ge (score_mean (defined_scores candidates)) CONFIDENCE_THRESHOLD = true ->
  (MIN_HITS <= Z.of_nat (length candidates))%Z ->
  confidence_gate MIN_HITS SIMILARITY_CUTOFF CONFIDENCE_THRESHOLD SimilarityPostprocessor
                  candidates
  = (candidates, true).
Proof.
  intros Hfilter Hcut Hmean Hhits. unfold confidence_gate.
  rewrite Hfilter.
  - apply Z.ltb_ge in Hhits. rewrite Hhits.
    destruct candidates as [| n rest]; [reflexivity |].
    destruct (defined_scores (n :: rest)) as [| x xs] eqn:Hscores; [reflexivity |].
    rewrite (score_ge_not_lt _ _ Hmean). reflexivity.
  - intros n Hin. destruct (Hcut n Hin) as (x & Hx & Hge).
    exists x. split; [exact Hx | apply score_ge_not_lt; exact Hge].
Qed.

End GateProperties.

(** One candidate with a high score survives the cutoff 1/2, and three hits
    are asked for. *)
Lemma gate_abstains_below_min_hits_witness :
  confidence_gate 3%Z (1 # 2)%Q (1 # 10)%Q postprocess_nodes
    [mkNode (mkDocument "A" (JObj []) None) (Some (99 # 100)%Q);
     mkNode (mkDocument "B" (JObj []) None) (Some (1 # 4)%Q)]
  = ([mkNode (mkDocument "A" (JObj []) None) (Some (99 # 100)%Q)], false).
Proof.
  exact (gate_abstains_below_min_hits 3%Z (1 # 2)%Q (1 # 10)%Q postprocess_nodes
           [mkNode (mkDocument "A" (JObj []) None) (Some (99 # 100)%Q);
            mkNode (mkDocument "B" (JObj []) None) (Some (1 # 4)%Q)]
           eq_refl eq_refl).
Defined.

(** Three candidates: one above the cutoff 1/2, one exactly at it, one
    without a score. The mean of the defined scores is the threshold 3/4. *)
Lemma gate_accepts_at_thresholds_witness :
  confidence_gate 3%Z (1 # 2)%Q (3 # 4)%Q postprocess_nodes
    [mkNode (mkDocument "A" (JObj []) None) (Some (1 # 1)%Q);
     mkNode (mkDocument "B" (JObj []) None) (Some (1 # 2)%Q);
     mkNode (mkDocument "C" (JObj []) None) None]
  = ([mkNode (mkDocument "A" (JObj []) None) (Some (1 # 1)%Q);
      mkNode (mkDocument "B" (JObj []) None) (Some (1 # 2)%Q);
      mkNode (mkDocument "C" (JObj []) None) None], true).
Proof.
  apply (gate_accepts_at_thresholds 3%Z (1 # 2)%Q (3 # 4)%Q).
  - intros n x Hin Hs.
    destruct Hin as [<- | [<- | [<- | []]]]; simpl in Hs;
      try discriminate; injection Hs as <-; reflexivity.
  - intros _. reflexivity.
  - reflexivity.
Defined.

(** ** The answer synthesizer *)

Section AnswerProperties.

Context {F : Type} `{Score F}.
Variables (MIN_HITS : Z) (SIMILARITY_CUTOFF CONFIDENCE_THRESHOLD : F) (TOP_K : Z).
Variable STATE_ROOT : string.
Variable retrieve : Index -> string -> Z -> list (NodeWithScore F).
Variable SimilarityPostprocessor : F -> list (NodeWithScore F) -> list (NodeWithScore F).
Variable generate_content : string -> option string.

(** C3. With [should_answer] false the synthesizer returns the fixed text
    ["I don't know."] and leaves the world as it was: no call reaches the
    generation service, whatever the question and the candidates. *)
Theorem abstention_without_generation (message : string)
  (nodes : list (NodeWithScore F)) (w : World) :
  synthesize generate_content message nodes false w = (Ok "I don't know.", w) /\
  generation_calls (snd (synthesize generate_content message nodes false w))
  = generation_calls w.
Proof. split; reflexivity. Qed.

(** C8. A request with its four fields whose slug has no base index gets the
    answer 404, and the world after it is the world before it: the thread
    file and the thread cache, like everything else, are untouched. *)
Theorem answer_unknown_slug_not_found (data : AnswerRequest) (w : World) :
  answer_fields_present data = true ->
  indexes w !! get_slug (field_value (a_project data)) (field_value (a_version data)) = None ->
  answer MIN_HITS SIMILARITY_CUTOFF CONFIDENCE_THRESHOLD TOP_K STATE_ROOT
         retrieve SimilarityPostprocessor generate_content data w
  = (Ok (mkResponse 404
           (error_body ("No index found for " +:+ field_value (a_project data) +:+ "/" +:+
                        field_value (a_version data)))), w) /\
  thread_files (snd (answer MIN_HITS SIMILARITY_CUTOFF CONFIDENCE_THRESHOLD TOP_K STATE_ROOT
                            retrieve SimilarityPostprocessor generate_content data w))
  = thread_files w /\
  threads (snd (answer MIN_HITS SIMILARITY_CUTOFF CONFIDENCE_THRESHOLD TOP_K STATE_ROOT
                       retrieve SimilarityPostprocessor generate_content data w)) = threads w.
Proof.
  intros Hfields Hnone.
  assert (Hrun : answer MIN_HITS SIMILARITY_CUTOFF CONFIDENCE_THRESHOLD TOP_K STATE_ROOT
                        retrieve SimilarityPostprocessor generate_content data w
                 = (Ok (mkResponse 404
                          (error_body ("No index found for " +:+ field_value (a_project data)
                                       +:+ "/" +:+ field_value (a_version data)))), w)).
  { unfold answer. unfold answer_fields_present in Hfields. rewrite Hfields.
    cbn [negb]. unfold mbind, M_bind, get_world. rewrite Hnone. reflexivity. }
  rewrite Hrun. auto.
Qed.

(** The same on the whole handler: when the gate abstains, [answer] makes no
    generation call, and answers 200 with the fixed text once the thread file
    is written. *)
Lemma answer_abstains (data : AnswerRequest) (w : World) (base_index : Index) :
  answer_fields_present data = true ->
  indexes w !! get_slug (field_value (a_project data)) (field_value (a_version data))
  = Some base_index ->
  snd (retrieve_with_confidence MIN_HITS SIMILARITY_CUTOFF CONFIDENCE_THRESHOLD TOP_K
         retrieve SimilarityPostprocessor base_index
         (delta_indexes w !! get_slug (field_value (a_project data))
                                      (field_value (a_version data)))
         (field_value (a_message data))) = false ->
  generation_calls (snd (answer MIN_HITS SIMILARITY_CUTOFF CONFIDENCE_THRESHOLD TOP_K
                                STATE_ROOT retrieve SimilarityPostprocessor
                                generate_content data w))
  = generation_calls w /\
  (unwritable w (thread_path STATE_ROOT (field_value (a_thread_slug data))) = false ->
   fst (answer MIN_HITS SIMILARITY_CUTOFF CONFIDENCE_THRESHOLD TOP_K
               STATE_ROOT retrieve SimilarityPostprocessor generate_content data w)
   = Ok (mkResponse 200 (JObj [("textResponse", JStr "I don't know.")]))).
Proof.
  intros Hfields Hbase Hgate.
  set (path := thread_path STATE_ROOT (field_value (a_thread_slug data))).
  assert (Hrun : exists w',
    answer MIN_HITS SIMILARITY_CUTOFF CONFIDENCE_THRESHOLD TOP_K
           STATE_ROOT retrieve SimilarityPostprocessor generate_content data w
    = (if unwritable w path then Raise (OSError path)
       else Ok (mkResponse 200 (JObj [("textResponse", JStr "I don't know.")])), w') /\
    exists saved, events w' = events w ++ saved /\ List.filter is_generation saved = []).
  { unfold answer. unfold answer_fields_present in Hfields. rewrite Hfields.
    cbn [negb]. unfold mbind at 1. unfold M_bind at 1. unfold get_world at 1.
    rewrite Hbase.
    destruct (retrieve_with_confidence _ _ _ _ _ _ _ _ _) as [nodes should_answer].
    cbn [snd] in Hgate. subst should_answer.
    unfold synthesize, save_thread_memory, load_thread_memory, emit, update, get_world.
    cbn [negb]. unfold mbind, M_bind, mret, M_ret. fold path.
    destruct (unwritable w path) eqn:Hro.
    - exists w. split; [reflexivity |]. exists []. rewrite app_nil_r. auto.
    - eexists. split; [reflexivity |]. exists [ThreadSaved path]. auto. }
  destruct Hrun as (w' & -> & saved & Hev & Hnone).
  cbn [fst snd]. split.
  - unfold generation_calls. rewrite Hev, List.filter_app, Hnone, app_nil_r. reflexivity.
  - intros ->. reflexivity.
Qed.

End AnswerProperties.

(** The request of [test_answer_unknown_project], on a server without
    indexes. *)
Lemma answer_unknown_slug_not_found_witness :
  answer 1%Z (1 # 2)%Q (1 # 10)%Q 5%Z "/app/state" (first_k_retrieve (1 # 2)%Q)
         postprocess_nodes (fun _ => None) ask_unknown empty_world
  = (Ok (mkResponse 404 (error_body "No index found for unknown/1.0")), empty_world).
Proof.
  exact (proj1 (answer_unknown_slug_not_found 1%Z (1 # 2)%Q (1 # 10)%Q 5%Z "/app/state"
                  (first_k_retrieve (1 # 2)%Q) postprocess_nodes (fun _ => None)
                  ask_unknown empty_world eq_refl eq_refl)).
Defined.

(** ** The retrieval merger *)

Section MergerProperties.

Context {F : Type} `{Score F}.
Variable TOP_K : Z.
Variable retrieve : Index -> string -> Z -> list (NodeWithScore F).

(** C4. The merged candidates are the [TOP_K] results of the base index
    followed by the [TOP_K] results of the delta index when there is one: a
    plain concatenation, in that order, nothing dropped. With a retriever
    that returns at most [TOP_K] results the merged list has between 0 and
    [2 * TOP_K] items, and a candidate that both indexes return is there
    twice. *)
Theorem merge_is_concatenation (base_index : Index) (delta_index : option Index)
  (query : string) :
  (Z.of_nat (length (retrieve base_index query TOP_K)) <= TOP_K)%Z ->
  (forall d, delta_index = Some d ->
             (Z.of_nat (length (retrieve d query TOP_K)) <= TOP_K)%Z) ->
  let base_nodes := retrieve base_index query TOP_K in
  let delta_nodes := match delta_index with
                     | Some d => retrieve d query TOP_K
                     | None => []
                     end in
  let merged := merge_nodes TOP_K retrieve base_index delta_index query in
  merged = base_nodes ++ delta_nodes /\
  length merged = length base_nodes + length delta_nodes /\
  (0 <= Z.of_nat (length merged) <= 2 * TOP_K)%Z /\
  (forall n, In n base_nodes -> In n delta_nodes ->
             exists l1 l2 l3, merged = l1 ++ n :: l2 ++ n :: l3).
Proof.
  intros Hbase Hdelta base_nodes delta_nodes merged.
  assert (Hmerged : merged = base_nodes ++ delta_nodes).
  { unfold merged, merge_nodes, base_nodes, delta_nodes.
    destruct delta_index; [reflexivity | symmetry; apply app_nil_r]. }
  assert (Hlen : (Z.of_nat (length delta_nodes) <= TOP_K)%Z).
  { unfold delta_nodes. destruct delta_index as [d |].
    - apply Hdelta. reflexivity.
    - cbn. lia. }
  rewrite Hmerged. repeat split.
  - apply List.length_app.
  - lia.
  - rewrite List.length_app. fold base_nodes in Hbase. lia.
  - intros n Hin_base Hin_delta.
    apply in_split in Hin_base as (a1 & a2 & ->).
    apply in_split in Hin_delta as (b1 & b2 & ->).
    exists a1, (a2 ++ b1), b2.
    rewrite <- !app_assoc. reflexivity.
Qed.

End MergerProperties.

(** The chunk ["X"] sits in the base index and in the delta index: with
    [TOP_K = 2] the merged list has three candidates and ["X"] twice. *)
Lemma merge_is_concatenation_witness :
  merge_nodes 2%Z (first_k_retrieve (1 # 2)%Q) [chunk "A"; chunk "X"; chunk "Z"]
              (Some [chunk "X"]) "question"
  = [mkNode (chunk "A") (Some (1 # 2)%Q); mkNode (chunk "X") (Some (1 # 2)%Q);
     mkNode (chunk "X") (Some (1 # 2)%Q)].
Proof.
  refine (proj1 (merge_is_concatenation 2%Z (first_k_retrieve (1 # 2)%Q)
                   [chunk "A"; chunk "X"; chunk "Z"] (Some [chunk "X"]) "question" _ _)).
  - vm_compute. discriminate.
  - intros d Hd. injection Hd as <-. vm_compute. discriminate.
Defined.

(** ** The slug resolver *)

Example get_slug_k8s : get_slug "k8s" "1.2" = "k8s-1-dot-2".
Proof. reflexivity. Qed.

Example replace_empty_old : Str.replace EmptyString "-" "abc" = "-a-b-c-".
Proof. reflexivity. Qed.

Example replace_no_overlap : Str.replace "aa" "b" "aaa" = "ba".
Proof. reflexivity. Qed.

Example split1_first_dash : Str.split1 "-" "my-proj-1-dot-0" = ["my"; "proj-1-dot-0"].
Proof. reflexivity. Qed.

Example split1_no_dash : Str.split1 "-" "k8s" = ["k8s"].
Proof. reflexivity. Qed.

Example loads_dumps_record :
  Json.loads (record_line "a" "X")
  = Some (JObj [("id", JStr "a"); ("timestamp", JStr "2025-01-01T00:00:00");
                ("text", JStr "X"); ("metadata", JObj [])]).
Proof. vm_compute. reflexivity. Qed.

Example loads_truncated : Json.loads "{" = None.
Proof. reflexivity. Qed.

Lemma append_assoc (a b c : string) : (a +:+ b) +:+ c = a +:+ b +:+ c.
Proof. induction a as [| x a IH]; cbn; [reflexivity | f_equal; exact IH]. Qed.

Lemma append_inv_head (a b c : string) : a +:+ b = a +:+ c -> b = c.
Proof.
  induction a as [| x a IH]; cbn; intros Heq; [exact Heq |].
  injection Heq as Heq. apply IH. exact Heq.
Qed.

Lemma drop_append (a b : string) : Str.drop (String.length a) (a +:+ b) = b.
Proof. induction a as [| x a IH]; cbn; [destruct b; reflexivity | exact IH]. Qed.

Lemma normalize_cons (c : ascii) (s : string) :
  normalize_version (String c s)
  = if Ascii.eqb "." c then marker +:+ normalize_version s
    else String c (normalize_version s).
Proof.
  unfold normalize_version, Str.replace. cbn.
  destruct (Ascii.eqb "." c); reflexivity.
Qed.

Lemma replace_from_skip (old new : string) (s : string) :
  forall k, Str.replace_from old new k s = Str.replace_from old new 0 (Str.drop k s).
Proof.
  induction s as [| c s IH]; intros k.
  - destruct k; reflexivity.
  - destruct k as [| k]; [reflexivity |]. cbn. apply IH.
Qed.

Lemma denormalize_marker (s : string) :
  Str.replace marker "." (marker +:+ s) = "." +:+ Str.replace marker "." s.
Proof.
  unfold Str.replace, marker. cbn. destruct s; reflexivity.
Qed.

Lemma startswith_cons (a b : ascii) (p s : string) :
  Str.startswith (String a p) (String b s) = Ascii.eqb a b && Str.startswith p s.
Proof. reflexivity. Qed.

Lemma startswith_split (p s : string) :
  Str.startswith p s = true -> s = p +:+ Str.drop (String.length p) s.
Proof.
  revert s. induction p as [| a p IH]; intros s Hs.
  - destruct s; reflexivity.
  - destruct s as [| b s]; [discriminate |].
    rewrite startswith_cons in Hs. apply andb_prop in Hs as [Hab Hs].
    apply Ascii.eqb_eq in Hab. subst b. cbn. f_equal. apply IH. exact Hs.
Qed.

Lemma contains_cons (sub : string) (c : ascii) (s : string) :
  Str.contains sub (String c s) = Str.startswith sub (String c s) || Str.contains sub s.
Proof. reflexivity. Qed.

(** A character other than the dot and the dash heads the normalized version
    only if it heads the version. *)
Lemma startswith_normalize_char (a : ascii) (p v : string) :
  Ascii.eqb "." a = false -> Ascii.eqb a "-" = false ->
  Str.startswith (String a p) (normalize_version v) = true ->
  exists v', v = String a v' /\ Str.startswith p (normalize_version v') = true.
Proof.
  intros Hdot Hdash Hstart. destruct v as [| c v']; [discriminate |].
  rewrite normalize_cons in Hstart.
  destruct (Ascii.eqb_spec "." c) as [<- | Hc].
  - cbn in Hstart. rewrite Hdash in Hstart. discriminate.
  - cbn in Hstart. apply andb_prop in Hstart as [Hac Hrest].
    apply Ascii.eqb_eq in Hac. subst c. exists v'. auto.
Qed.

(** Where the marker heads a normalized version, the version starts with a
    dot, with the marker, or with [-dot] and a dot. *)
Lemma marker_heads_normalized (v : string) :
  Str.startswith marker (normalize_version v) = true ->
  Str.startswith "." v = true \/ Str.startswith marker v = true \/
  Str.startswith "-dot." v = true.
Proof.
  intros Hstart. destruct v as [| c1 v1]; [discriminate |].
  rewrite normalize_cons in Hstart.
  destruct (Ascii.eqb_spec "." c1) as [<- | Hc1]; [left; reflexivity | right].
  unfold marker in Hstart. rewrite startswith_cons in Hstart.
  apply andb_prop in Hstart as [Hdash Hrest].
  apply Ascii.eqb_eq in Hdash. subst c1.
  apply startswith_normalize_char in Hrest as (v2 & -> & Hrest); [| reflexivity ..].
  apply startswith_normalize_char in Hrest as (v3 & -> & Hrest); [| reflexivity ..].
  apply startswith_normalize_char in Hrest as (v4 & -> & Hrest); [| reflexivity ..].
  destruct v4 as [| c5 v5]; [discriminate |].
  rewrite normalize_cons in Hrest.
  destruct (Ascii.eqb_spec "." c5) as [<- | Hc5]; [right; reflexivity | left].
  rewrite startswith_cons in Hrest. apply andb_prop in Hrest as [Hdash _].
  apply Ascii.eqb_eq in Hdash. subst c5. reflexivity.
Qed.

Lemma reversible_tail (c : ascii) (v : string) :
  reversible (String c v) = true ->
  Str.startswith marker (String c v) = false /\
  Str.startswith "-dot." (String c v) = false /\
  reversible v = true.
Proof.
  unfold reversible. cbn [Str.contains].
  rewrite !negb_orb. intros Hrev.
  apply andb_prop in Hrev as [Hm Hd].
  apply andb_prop in Hm as [Hm1 Hm2]. apply andb_prop in Hd as [Hd1 Hd2].
  apply negb_true_iff in Hm1, Hd1.
  rewrite Hm2, Hd2. auto.
Qed.

(** Reversing the marker substitution gives back a reversible version. *)
Lemma denormalize_normalize (v : string) :
  reversible v = true -> Str.replace marker "." (normalize_version v) = v.
Proof.
  induction v as [| c v IH]; intros Hrev; [reflexivity |].
  pose proof (reversible_tail c v Hrev) as (Hm & Hd & Hrev').
  rewrite normalize_cons.
  destruct (Ascii.eqb_spec "." c) as [<- | Hc].
  - rewrite denormalize_marker, (IH Hrev'). reflexivity.
  - assert (Hno : Str.startswith marker (String c (normalize_version v)) = false).
    { destruct (Str.startswith marker (String c (normalize_version v))) eqn:Hs;
        [| reflexivity].
      assert (Hs' : Str.startswith marker (normalize_version (String c v)) = true).
      { rewrite normalize_cons. destruct (Ascii.eqb_spec "." c); [contradiction | exact Hs]. }
      apply marker_heads_normalized in Hs' as [Hs' | [Hs' | Hs']].
      - cbn in Hs'. apply andb_prop in Hs' as [Hs' _].
        apply Ascii.eqb_eq in Hs'. contradiction.
      - congruence.
      - congruence. }
    unfold Str.replace, marker in *. cbn [Str.replace_from].
    rewrite Hno. f_equal. apply IH. exact Hrev'.
Qed.

Lemma marker_heads_unreversible (v : string) :
  Str.startswith marker v = true \/ Str.startswith "-dot." v = true ->
  exists rest, Str.replace marker "." (normalize_version v) = String "." rest.
Proof.
  intros Hhead.
  assert (Hsplit : exists r, normalize_version v = marker +:+ r).
  { destruct Hhead as [Hm | Hd].
    - apply startswith_split in Hm. rewrite Hm.
      exists (normalize_version (Str.drop (String.length marker) v)). reflexivity.
    - apply startswith_split in Hd. rewrite Hd.
      exists ("dot-" +:+ normalize_version (Str.drop (String.length "-dot.") v)).
      reflexivity. }
  destruct Hsplit as [r ->]. rewrite denormalize_marker. eexists. reflexivity.
Qed.

(** The condition is exact: a version that is not reversible does not come
    back. *)
Lemma denormalize_normalize_only (v : string) :
  Str.replace marker "." (normalize_version v) = v -> reversible v = true.
Proof.
  induction v as [| c v IH]; intros Hback; [reflexivity |].
  destruct (Str.startswith marker (String c v)) eqn:Hm.
  { destruct (marker_heads_unreversible (String c v) (or_introl Hm)) as [rest Hrest].
    rewrite Hrest in Hback. unfold marker in Hm. rewrite startswith_cons in Hm.
    apply andb_prop in Hm as [Hc _]. apply Ascii.eqb_eq in Hc. subst c. discriminate. }
  destruct (Str.startswith "-dot." (String c v)) eqn:Hd.
  { destruct (marker_heads_unreversible (String c v) (or_intror Hd)) as [rest Hrest].
    rewrite Hrest in Hback. rewrite startswith_cons in Hd.
    apply andb_prop in Hd as [Hc _]. apply Ascii.eqb_eq in Hc. subst c. discriminate. }
  assert (Htail : Str.replace marker "." (normalize_version v) = v).
  { rewrite normalize_cons in Hback.
    destruct (Ascii.eqb_spec "." c) as [<- | Hc].
    - rewrite denormalize_marker in Hback. injection Hback as Hback. exact Hback.
    - assert (Hno : Str.startswith marker (String c (normalize_version v)) = false).
      { destruct (Str.startswith marker (String c (normalize_version v))) eqn:Hs;
          [| reflexivity].
        assert (Hs' : Str.startswith marker (normalize_version (String c v)) = true).
        { rewrite normalize_cons.
          destruct (Ascii.eqb_spec "." c); [contradiction | exact Hs]. }
        apply marker_heads_normalized in Hs' as [Hs' | [Hs' | Hs']]; [| congruence ..].
        cbn in Hs'. apply andb_prop in Hs' as [Hs' _].
        apply Ascii.eqb_eq in Hs'. contradiction. }
      unfold Str.replace, marker in *. cbn [Str.replace_from] in Hback.
      rewrite Hno in Hback. injection Hback as Hback. exact Hback. }
  specialize (IH Htail). unfold reversible in *.
  rewrite !contains_cons, Hm, Hd. exact IH.
Qed.

(** C7, as amended. [get_slug p ""] is [p]. For every non-empty version the
    slug is the project, the separator, and the version with every dot
    replaced by the marker. Reversing the substitution on what follows the
    separator gives the version back when the version holds neither the
    marker nor [-dot] right before a dot. *)
Theorem get_slug_roundtrip (p v : string) :
  get_slug p EmptyString = p /\
  (v <> EmptyString ->
   get_slug p v = p +:+ separator +:+ Str.replace "." marker v) /\
  (v <> EmptyString ->
   reversible v = true ->
   Str.replace marker "."
     (Str.drop (String.length p + String.length separator) (get_slug p v)) = v).
Proof.
  split; [reflexivity |].
  assert (Hslug : v <> EmptyString -> get_slug p v = p +:+ separator +:+ normalize_version v).
  { intros Hv. destruct v; [contradiction | reflexivity]. }
  split; [exact Hslug |].
  intros Hv Hrev. rewrite (Hslug Hv), <- append_assoc.
  replace (String.length p + String.length separator)
    with (String.length (p +:+ separator)).
  - rewrite drop_append. apply denormalize_normalize. exact Hrev.
  - clear. induction p as [| x p IH]; cbn; [reflexivity | f_equal; exact IH].
Qed.

(** The slug of a version that does not come back still has the shape, and
    the version [1.2] comes back. *)
Lemma get_slug_roundtrip_witness :
  get_slug "k8s" "-dot." = "k8s--dot-dot-" /\
  get_slug "k8s" "1.2" = "k8s-1-dot-2" /\
  Str.replace marker "." (Str.drop 4 (get_slug "k8s" "1.2")) = "1.2".
Proof.
  split; [| split].
  - exact (proj1 (proj2 (get_slug_roundtrip "k8s" "-dot.")) ltac:(discriminate)).
  - exact (proj1 (proj2 (get_slug_roundtrip "k8s" "1.2")) ltac:(discriminate)).
  - exact (proj2 (proj2 (get_slug_roundtrip "k8s" "1.2")) ltac:(discriminate) eq_refl).
Defined.

(** The version [-dot.] holds no marker, and yet reversing the substitution
    on its slug gives [.dot-]: the marker that the dot became and the [-dot]
    before it overlap in one dash. *)
Lemma get_slug_roundtrip_counterexample :
  Str.contains marker "-dot." = false /\
  get_slug "k8s" "-dot." = "k8s--dot-dot-" /\
  Str.replace marker "." (Str.drop 4 (get_slug "k8s" "-dot.")) = ".dot-" /\
  Str.replace marker "." (Str.drop 4 (get_slug "k8s" "-dot.")) <> "-dot.".
Proof. repeat split. discriminate. Qed.

(** A project without the separator is what [cut] finds before it. *)
Lemma cut_separator (p s : string) :
  Str.contains separator p = false ->
  Str.cut separator (p +:+ separator +:+ s) = Some (p, s).
Proof.
  induction p as [| c p IH]; intros Hp.
  - reflexivity.
  - rewrite contains_cons in Hp. apply orb_false_elim in Hp as [Hc Hp].
    unfold separator in Hc. rewrite startswith_cons in Hc.
    change ((String c p) +:+ separator +:+ s) with (String c (p +:+ separator +:+ s)).
    cbn [Str.cut]. unfold separator at 1. rewrite startswith_cons.
    destruct (Ascii.eqb "-" c); [discriminate |].
    cbn [andb]. rewrite (IH Hp). reflexivity.
Qed.

(** Normalizing after reversing gives back a text without dots, from
    whatever position the scan stands at. *)
Lemma normalize_replace_from (s : string) :
  forall k, Str.contains "." s = false ->
            normalize_version (Str.replace_from marker "." k s) = Str.drop k s.
Proof.
  induction s as [| c s IH]; intros k Hs.
  - destruct k; reflexivity.
  - rewrite contains_cons in Hs. apply orb_false_elim in Hs as [Hc Hs].
    rewrite startswith_cons in Hc. cbn [Str.startswith] in Hc.
    rewrite andb_true_r in Hc.
    destruct k as [| k]; [| cbn [Str.replace_from Str.drop]; apply IH; exact Hs].
    cbn [Str.replace_from Str.drop].
    destruct (Str.startswith marker (String c s)) eqn:Hm.
    + change ("." +:+ ?x) with (String "." x). rewrite normalize_cons.
      cbn [Ascii.eqb]. change (Ascii.eqb "." ".") with true. cbn iota.
      rewrite (IH _ Hs). apply startswith_split in Hm. symmetry. exact Hm.
    + rewrite normalize_cons, Hc. f_equal. apply (IH 0 Hs).
Qed.

Lemma normalize_no_dot (v : string) : Str.contains "." (normalize_version v) = false.
Proof.
  induction v as [| c v IH]; [reflexivity |].
  rewrite normalize_cons. destruct (Ascii.eqb "." c) eqn:Hc.
  - unfold marker. cbn. exact IH.
  - rewrite contains_cons, startswith_cons, Hc, IH. reflexivity.
Qed.

(** Whatever the version, reversing and normalizing again lands on the same
    normalized version. *)
Lemma normalize_denormalize_normalize (v : string) :
  normalize_version (Str.replace marker "." (normalize_version v)) = normalize_version v.
Proof.
  unfold Str.replace at 1, marker at 1.
  apply (normalize_replace_from (normalize_version v) 0). apply normalize_no_dot.
Qed.

Lemma parse_get_slug (p v : string) :
  Str.contains separator p = false -> v <> EmptyString ->
  parse_slug (get_slug p v) = Ok (p, Str.replace marker "." (normalize_version v)).
Proof.
  intros Hp Hv. unfold parse_slug, Str.split1.
  destruct v as [| c v]; [contradiction |].
  cbn [get_slug]. rewrite (cut_separator p _ Hp). reflexivity.
Qed.

(** Joining a list that ends with known parts. *)
Lemma join_app_cons (sep : string) (l : list string) (x : string) (r : list string) :
  l <> [] -> join sep (l ++ x :: r) = join sep l +:+ sep +:+ join sep (x :: r).
Proof.
  induction l as [| a l IH]; intros Hl; [contradiction |].
  destruct l as [| b l]; [reflexivity |].
  change (join sep ((a :: b :: l) ++ x :: r))
    with (a +:+ sep +:+ join sep ((b :: l) ++ x :: r)).
  rewrite IH by discriminate.
  change (join sep (a :: b :: l)) with (a +:+ sep +:+ join sep (b :: l)).
  rewrite !append_assoc. reflexivity.
Qed.

(** A path with a part renders as its root and its parts. *)
Lemma path_str_parts (root : string) (parts : list string) (x : string) (r : list string) :
  path_str (root, parts ++ x :: r) = root +:+ join "/" (parts ++ x :: r).
Proof. unfold path_str. cbn [fst snd]. destruct root, parts; reflexivity. Qed.

(** Two plain names under a root: the directory depends on the names. *)
Lemma path_join_under (root a b c d : string) :
  path_div (path_div (path_div (EmptyString, []) root) a) b
  = (fst (path_div (EmptyString, []) root),
     snd (path_div (EmptyString, []) root) ++ [a; b]) ->
  path_div (path_div (path_div (EmptyString, []) root) c) d
  = (fst (path_div (EmptyString, []) root),
     snd (path_div (EmptyString, []) root) ++ [c; d]) ->
  a +:+ "/" +:+ b <> c +:+ "/" +:+ d ->
  path_join [root; a; b] <> path_join [root; c; d].
Proof.
  intros Hab Hcd Hne. unfold path_join. cbn [fold_left]. rewrite Hab, Hcd.
  destruct (path_div (EmptyString, []) root) as [r cs]. cbn [fst snd].
  rewrite !path_str_parts. intros Heq. apply append_inv_head in Heq.
  destruct cs as [| c0 cs].
  - exact (Hne Heq).
  - rewrite !join_app_cons in Heq by discriminate.
    apply append_inv_head in Heq. apply append_inv_head in Heq. exact (Hne Heq).
Qed.

(** C10, as amended. For a project without a dash and a non-empty version,
    splitting the slug at its first dash and reversing the substitution gives
    the project and a version whose log directory is the one the injection
    wrote to, so the reconstruction reads that log; the version itself comes
    back when it is reversible. A project with a dash comes back as another
    project and version, and the reconstruction looks in another directory. *)
Theorem parse_slug_inverts_get_slug (INJECT_ROOT : string)
  (json_loads : string -> option json)
  (Document_init : json -> json -> json -> option Document) (p v : string) :
  Str.contains separator p = false ->
  v <> EmptyString ->
  (exists v',
     parse_slug (get_slug p v) = Ok (p, v') /\
     inject_dir INJECT_ROOT p v' = inject_dir INJECT_ROOT p v /\
     (forall w, load_injected_documents INJECT_ROOT json_loads Document_init p v' w
                = load_injected_documents INJECT_ROOT json_loads Document_init p v w) /\
     (reversible v = true -> v' = v)) /\
  (exists p0 v0 p1 v1,
     Str.contains separator p0 = true /\
     parse_slug (get_slug p0 v0) = Ok (p1, v1) /\
     (p1, v1) <> (p0, v0) /\
     inject_dir INJECT_ROOT p1 v1 <> inject_dir INJECT_ROOT p0 v0).
Proof.
  intros Hp Hv. split.
  - exists (Str.replace marker "." (normalize_version v)).
    assert (Hdir : inject_dir INJECT_ROOT p (Str.replace marker "." (normalize_version v))
                   = inject_dir INJECT_ROOT p v).
    { unfold inject_dir. rewrite normalize_denormalize_normalize. reflexivity. }
    split; [apply parse_get_slug; assumption |].
    split; [exact Hdir |]. split.
    + intros w. unfold load_injected_documents. rewrite Hdir. reflexivity.
    + apply denormalize_normalize.
  - exists "test-project", "1.0", "test", "project-1.0".
    split; [reflexivity |]. split; [reflexivity |]. split; [discriminate |].
    unfold inject_dir. apply path_join_under.
    + destruct (path_div (EmptyString, []) INJECT_ROOT) as [r cs].
      unfold path_div. cbn. rewrite <- app_assoc. reflexivity.
    + destruct (path_div (EmptyString, []) INJECT_ROOT) as [r cs].
      unfold path_div. cbn. rewrite <- app_assoc. reflexivity.
    + discriminate.
Qed.

Lemma parse_slug_inverts_get_slug_witness :
  exists v',
    parse_slug (get_slug "k8s" "1.2") = Ok ("k8s", v') /\
    inject_dir "/app/injected" "k8s" v' = inject_dir "/app/injected" "k8s" "1.2" /\
    v' = "1.2".
Proof.
  destruct (parse_slug_inverts_get_slug "/app/injected" Json.loads checked_document
              "k8s" "1.2"
              eq_refl ltac:(discriminate)) as [(v' & Hparse & Hdir & _ & Hback) _].
  exists v'. split; [exact Hparse |]. split; [exact Hdir |].
  apply Hback. reflexivity.
Defined.

(** A project without a dash, and three versions that do not come back: an
    empty one makes the unpacking of the split fail, one with the marker
    comes back with a dot, and [-dot.] comes back as [.dot-]. *)
Lemma parse_slug_inverts_get_slug_counterexample :
  Str.contains separator "k8s" = false /\
  parse_slug (get_slug "k8s" EmptyString) = Raise ValueError /\
  parse_slug (get_slug "k8s" "1-dot-2") = Ok ("k8s", "1.2") /\
  parse_slug (get_slug "k8s" "-dot.") = Ok ("k8s", ".dot-").
Proof. repeat split. Qed.

(** ** Reconstruction of the delta corpus *)

Section ReconstructionProperties.

Variable INJECT_ROOT : string.
Variable json_loads : string -> option json.
Variable Document_init : json -> json -> json -> option Document.

Lemma load_lines_app (l1 l2 : list string) :
  forall acc,
    load_lines json_loads Document_init (l1 ++ l2) acc
    = match load_lines json_loads Document_init l1 acc with
      | Ok acc' => load_lines json_loads Document_init l2 acc'
      | Raise e => Raise e
      end.
Proof.
  induction l1 as [| line l1 IH]; intros acc; [reflexivity |].
  cbn [app load_lines].
  destruct (Str.has_text line); [| apply IH].
  destruct (json_loads line) as [record |]; [| reflexivity].
  destruct (document_of_record Document_init record); [apply IH | reflexivity].
Qed.

Lemma load_lines_filter (lines : list string) :
  forall acc,
    load_lines json_loads Document_init (List.filter Str.has_text lines) acc
    = load_lines json_loads Document_init lines acc.
Proof.
  induction lines as [| line lines IH]; intros acc; [reflexivity |].
  cbn [List.filter load_lines].
  destruct (Str.has_text line) eqn:Htext; [| apply IH].
  cbn [load_lines]. rewrite Htext.
  destruct (json_loads line) as [record |]; [| reflexivity].
  destruct (document_of_record Document_init record); [apply IH | reflexivity].
Qed.

(** Reading the files one after the other is reading their lines with text
    in one go. *)
Lemma load_files_lines (files : list (string * list string)) :
  forall acc,
    load_files json_loads Document_init files acc = load_lines json_loads Document_init (jsonl_lines files) acc.
Proof.
  induction files as [| [name lines] files IH]; intros acc; [reflexivity |].
  cbn [load_files jsonl_lines flat_map fst snd].
  destruct (Str.endswith ".jsonl" name).
  - rewrite load_lines_app, load_lines_filter.
    destruct (load_lines json_loads Document_init lines acc); [apply IH | reflexivity].
  - apply IH.
Qed.

Lemma has_text_jsonl_lines (files : list (string * list string)) (line : string) :
  In line (jsonl_lines files) -> Str.has_text line = true.
Proof.
  unfold jsonl_lines. rewrite in_flat_map. intros ([name lines] & _ & Hin).
  cbn [fst snd] in Hin. destruct (Str.endswith ".jsonl" name); [| contradiction].
  apply List.filter_In in Hin. apply Hin.
Qed.

Lemma load_lines_all_good (lines : list string) :
  forall acc,
    (forall line, In line lines ->
                  Str.has_text line = true /\
                  exists doc, chunk_of_line json_loads Document_init line = Some doc) ->
    load_lines json_loads Document_init lines acc = Ok (acc ++ omap (chunk_of_line json_loads Document_init) lines).
Proof.
  induction lines as [| line lines IH]; intros acc Hgood.
  - cbn. rewrite app_nil_r. reflexivity.
  - destruct (Hgood line (or_introl eq_refl)) as (Htext & doc & Hdoc).
    cbn [load_lines omap list_omap]. rewrite Htext, Hdoc.
    unfold chunk_of_line in Hdoc.
    destruct (json_loads line) as [record |]; [| discriminate].
    destruct (document_of_record Document_init record) as [doc' | e]; [| discriminate].
    injection Hdoc as ->. rewrite IH.
    + rewrite <- app_assoc. reflexivity.
    + intros l Hin. apply Hgood. right. exact Hin.
Qed.

Lemma load_lines_one_bad (lines : list string) :
  forall acc line,
    In line lines -> Str.has_text line = true -> json_loads line = None ->
    exists e, load_lines json_loads Document_init lines acc = Raise e.
Proof.
  induction lines as [| l lines IH]; intros acc line Hin Htext Hbad; [contradiction |].
  cbn [load_lines]. destruct Hin as [-> | Hin].
  - rewrite Htext, Hbad. eauto.
  - destruct (Str.has_text l); [| eapply IH; eassumption].
    destruct (json_loads l) as [record |]; [| eauto].
    destruct (document_of_record Document_init record) as [doc | e]; [| eauto].
    eapply IH; eassumption.
Qed.

(** C5, as amended. Reading the logs of a project and version leaves the
    world as it is. A line without text is passed over. A line with text
    that does not decode aborts the reading: it ends with an exception and
    returns no chunk at all, and the exception is [JSONDecodeError] when
    every line with text before that line yields a chunk. When every line
    with text yields a chunk, the result is one chunk for each of them, in
    reading order. *)
Theorem load_injected_documents_strict (project version : string) (w : World)
  (files : list (string * list string)) :
  inject_dirs w !! inject_dir INJECT_ROOT project version = Some files ->
  ((exists line, In line (jsonl_lines files) /\ json_loads line = None) ->
   exists e, load_injected_documents INJECT_ROOT json_loads Document_init project version w
             = (Raise e, w)) /\
  (forall good bad rest,
     jsonl_lines files = good ++ bad :: rest ->
     (forall line, In line good ->
                   exists doc, chunk_of_line json_loads Document_init line = Some doc) ->
     json_loads bad = None ->
     load_injected_documents INJECT_ROOT json_loads Document_init project version w
     = (Raise JSONDecodeError, w)) /\
  ((forall line, In line (jsonl_lines files) ->
                 exists doc, chunk_of_line json_loads Document_init line = Some doc) ->
   load_injected_documents INJECT_ROOT json_loads Document_init project version w
   = (Ok (omap (chunk_of_line json_loads Document_init) (jsonl_lines files)), w) /\
   length (omap (chunk_of_line json_loads Document_init) (jsonl_lines files))
   = length (jsonl_lines files)).
Proof.
  intros Hdir.
  assert (Hrun : load_injected_documents INJECT_ROOT json_loads Document_init project
                                         version w
                 = (load_lines json_loads Document_init (jsonl_lines files) [], w)).
  { unfold load_injected_documents, mbind, M_bind, get_world, lift.
    rewrite Hdir, load_files_lines. reflexivity. }
  rewrite Hrun. split; [| split].
  - intros (line & Hin & Hbad).
    destruct (load_lines_one_bad (jsonl_lines files) [] line Hin
                (has_text_jsonl_lines files line Hin) Hbad) as [e He].
    exists e. rewrite He. reflexivity.
  - intros good bad rest Hlines Hgood Hbad.
    assert (Htext : forall line, In line (good ++ bad :: rest) ->
                                 Str.has_text line = true).
    { intros line Hin. apply (has_text_jsonl_lines files). rewrite Hlines. exact Hin. }
    rewrite Hlines, load_lines_app, load_lines_all_good.
    + cbn [load_lines].
      rewrite (Htext bad) by (apply in_or_app; right; left; reflexivity).
      rewrite Hbad. reflexivity.
    + intros line Hin. split; [| apply Hgood; exact Hin].
      apply Htext. apply in_or_app. left. exact Hin.
  - intros Hgood. split.
    + rewrite load_lines_all_good; [reflexivity |].
      intros line Hin. split; [eapply has_text_jsonl_lines; eassumption | auto].
    + clear Hrun. induction (jsonl_lines files) as [| line lines IH]; [reflexivity |].
      destruct (Hgood line (or_introl eq_refl)) as [doc Hdoc].
      cbn [omap list_omap]. rewrite Hdoc. cbn [length]. f_equal.
      apply IH. intros l Hin. apply Hgood. right. exact Hin.
Qed.

End ReconstructionProperties.

(** The log with an empty line between two records gives the two chunks;
    the log with a line that is not JSON in that place raises
    [JSONDecodeError] after the first record was read. *)
Lemma load_injected_documents_strict_witness :
  load_injected_documents "/app/injected" Json.loads checked_document "k8s" "1.2"
                          blank_log_world
  = (Ok [mkDocument "X" (JObj []) (Some (JStr "a"));
         mkDocument "Y" (JObj []) (Some (JStr "b"))], blank_log_world) /\
  load_injected_documents "/app/injected" Json.loads checked_document "k8s" "1.2"
                          broken_log_world
  = (Raise JSONDecodeError, broken_log_world).
Proof.
  split.
  - refine (proj1 (proj2 (proj2 (load_injected_documents_strict "/app/injected" Json.loads
                                   checked_document "k8s" "1.2" blank_log_world blank_log
                                   eq_refl)) _)).
    intros line Hin. vm_compute in Hin.
    destruct Hin as [<- | [<- | []]]; eexists; vm_compute; reflexivity.
  - refine (proj1 (proj2 (load_injected_documents_strict "/app/injected" Json.loads
                            checked_document "k8s" "1.2" broken_log_world broken_log
                            eq_refl))
                  [record_line "a" "X"] ("not json" +:+ nl) [record_line "b" "Y"] _ _ _).
    + vm_compute. reflexivity.
    + intros line [<- | []]. eexists. vm_compute. reflexivity.
    + vm_compute. reflexivity.
Defined.

(** The log with a line that is not JSON between two records: the
    specification asks for the two chunks, the reading raises
    [JSONDecodeError] and returns none. *)
Lemma load_injected_documents_counterexample :
  Json.loads ("not json" +:+ nl) = None /\
  reconstruct_skipping Json.loads checked_document broken_log
  = [mkDocument "X" (JObj []) (Some (JStr "a"));
     mkDocument "Y" (JObj []) (Some (JStr "b"))] /\
  load_injected_documents "/app/injected" Json.loads checked_document "k8s" "1.2"
                          broken_log_world
  = (Raise JSONDecodeError, broken_log_world).
Proof. repeat split; vm_compute; reflexivity. Qed.

(** ** The injection path *)

Lemma append_line_in (name line : string) (files : list (string * list string)) :
  exists lines, In (name, lines) (append_line name line files) /\ In line lines.
Proof.
  induction files as [| [n ls] files IH]; cbn [append_line].
  - exists [line]. split; left; reflexivity.
  - destruct (String.eqb_spec n name) as [-> | Hne].
    + exists (ls ++ [line]). split; [left; reflexivity |].
      apply in_or_app. right. left. reflexivity.
    + destruct IH as (lines & Hin & Hline). exists lines. split; [right |]; assumption.
Qed.

Section InjectionProperties.

Variables (DELTA_ROOT INJECT_ROOT : string).
Variable json_dumps : json -> string.
Variable Document_init : json -> json -> json -> option Document.
Variable embed_ok : string -> bool.
Variable uuid4 : nat -> string.
Variables (strftime_date isoformat : nat -> string).

(** What the recorder does: it never touches the delta registry nor the
    persisted delta indexes; it fails only with [OSError], on a path that
    cannot be written, and then reports no effect; when it returns, one
    identifier was drawn and the line is in the log. *)
Lemma append_to_jsonl_run (project version text : string) (metadata : json) (w : World) :
  let run := append_to_jsonl INJECT_ROOT json_dumps uuid4 strftime_date isoformat
                             project version text metadata w in
  delta_indexes (snd run) = delta_indexes w /\
  delta_dirs (snd run) = delta_dirs w /\
  unwritable (snd run) = unwritable w /\
  match fst run with
  | Raise e =>
      (exists path, e = OSError path /\ unwritable w path = true) /\
      events (snd run) = events w
  | Ok _ =>
      uuids_drawn (snd run) = Datatypes.S (uuids_drawn w) /\
      events (snd run)
      = events w ++ [LogAppended (written_path INJECT_ROOT strftime_date (clock w) project version)
                                 (written_line json_dumps uuid4 isoformat (uuids_drawn w)
                                               (clock w) text metadata)] /\
      exists files lines,
        inject_dirs (snd run) !! inject_dir INJECT_ROOT project version = Some files /\
        In (strftime_date (clock w) +:+ ".jsonl", lines) files /\
        In (written_line json_dumps uuid4 isoformat (uuids_drawn w) (clock w) text metadata) lines
  end.
Proof.
  destruct w as [ix dix th tf idirs ddirs ro n t ev].
  unfold append_to_jsonl, mkdir_inject, open_append, now, new_uuid, emit, update,
    get_world, raise.
  unfold mbind, M_bind, mret, M_ret. cbn -[path_join inject_dir append_line].
  destruct (idirs !! inject_dir INJECT_ROOT project version) as [files |] eqn:Hdir.
  - cbn -[path_join inject_dir append_line].
    fold (written_path INJECT_ROOT strftime_date t project version).
    destruct (ro (written_path INJECT_ROOT strftime_date t project version)) eqn:Hro;
      cbn -[path_join inject_dir append_line].
    + repeat split; eauto.
    + repeat split.
      destruct (append_line_in (strftime_date t +:+ ".jsonl")
                  (written_line json_dumps uuid4 isoformat n t text metadata) files)
        as (lines & Hin & Hline).
      exists (append_line (strftime_date t +:+ ".jsonl")
                (written_line json_dumps uuid4 isoformat n t text metadata) files), lines.
      rewrite lookup_insert_eq, Hdir. auto.
  - destruct (ro (inject_dir INJECT_ROOT project version)) eqn:Hrodir;
      cbn -[path_join inject_dir append_line].
    + repeat split; eauto.
    + fold (written_path INJECT_ROOT strftime_date t project version).
      destruct (ro (written_path INJECT_ROOT strftime_date t project version)) eqn:Hro;
        cbn -[path_join inject_dir append_line].
      * repeat split; eauto.
      * repeat split.
        exists [(strftime_date t +:+ ".jsonl",
                 [written_line json_dumps uuid4 isoformat n t text metadata])],
               [written_line json_dumps uuid4 isoformat n t text metadata].
        rewrite lookup_insert_eq. cbn. rewrite lookup_insert_eq. cbn. auto.
Qed.

(** The logs of a directory after [append_to_jsonl] returned: the line is at
    the end of the file of the day, and nothing else moved. *)
Lemma append_to_jsonl_logs (project version text : string) (metadata : json) (w : World) :
  let run := append_to_jsonl INJECT_ROOT json_dumps uuid4 strftime_date isoformat
                             project version text metadata w in
  let dir := inject_dir INJECT_ROOT project version in
  fst run = Ok tt ->
  inject_dirs (snd run)
  = <[dir := append_line (strftime_date (clock w) +:+ ".jsonl")
                         (written_line json_dumps uuid4 isoformat (uuids_drawn w)
                                       (clock w) text metadata)
                         (default [] (inject_dirs w !! dir))]> (inject_dirs w).
Proof.
  destruct w as [ix dix th tf idirs ddirs ro n t ev].
  unfold append_to_jsonl, mkdir_inject, open_append, now, new_uuid, emit, update,
    get_world, raise.
  unfold mbind, M_bind, mret, M_ret. cbn -[path_join inject_dir append_line].
  destruct (idirs !! inject_dir INJECT_ROOT project version) as [files |] eqn:Hdir;
    cbn -[path_join inject_dir append_line].
  - destruct (ro _); cbn -[path_join inject_dir append_line]; [discriminate |].
    intros _. rewrite Hdir. reflexivity.
  - destruct (ro (inject_dir INJECT_ROOT project version));
      cbn -[path_join inject_dir append_line]; [discriminate |].
    destruct (ro _); cbn -[path_join inject_dir append_line]; [discriminate |].
    intros _. rewrite lookup_insert_eq, insert_insert_eq. reflexivity.
Qed.

(** The indexing half only adds to the event log, and never writes to the
    injection logs. *)
Lemma index_injected_events (slug text_content : string) (metadata : json) (w : World) :
  inject_dirs (snd (index_injected DELTA_ROOT Document_init embed_ok uuid4 slug text_content
                                   metadata w)) = inject_dirs w /\
  exists more,
    events (snd (index_injected DELTA_ROOT Document_init embed_ok uuid4 slug text_content metadata w))
    = events w ++ more.
Proof.
  assert (Hrun : exists r w',
             index_injected DELTA_ROOT Document_init embed_ok uuid4 slug text_content metadata w
             = (r, w') /\
             inject_dirs w' = inject_dirs w /\ exists more, events w' = events w ++ more).
  { destruct w as [ix dix th tf idirs ddirs ro n t ev].
    unfold index_injected, insert_document, from_documents, persist, new_uuid, emit,
      update, get_world, raise.
    unfold mbind, M_bind, mret, M_ret. cbn -[path_join].
    destruct (Document_init _ _ _) as [doc |]; cbn -[path_join];
      [| eexists _, _; split; [reflexivity |]; split; [reflexivity |];
         exists []; rewrite app_nil_r; reflexivity].
    destruct (dix !! slug) as [index |]; cbn -[path_join];
      destruct (embed_ok (text doc)); cbn -[path_join];
      try (eexists _, _; split; [reflexivity |]; split; [reflexivity |];
           exists []; rewrite app_nil_r; reflexivity);
      destruct (ro (path_join [DELTA_ROOT; slug])); cbn -[path_join];
      eexists _, _; (split; [reflexivity |]); (split; [reflexivity |]);
      eexists; rewrite <- ?app_assoc; reflexivity. }
  destruct Hrun as (r & w' & -> & Hlogs & Hmore). cbn [snd]. auto.
Qed.

(** With the chunk accepted by the constructor, the embedding service up and
    the delta directory writable, the indexing half puts the chunk, built
    with the next identifier, at the end of the delta index of the slug. *)
Lemma index_injected_ok (slug text_content : string) (metadata : json) (doc : Document)
  (w : World) :
  Document_init (JStr text_content) metadata (JStr (uuid4 (uuids_drawn w))) = Some doc ->
  embed_ok (text doc) = true ->
  unwritable w (path_join [DELTA_ROOT; slug]) = false ->
  exists w',
    index_injected DELTA_ROOT Document_init embed_ok uuid4 slug text_content metadata w
    = (Ok (mkResponse 200 (JObj [("status", JStr "ok")])), w') /\
    delta_indexes w'
    = <[slug := default [] (delta_indexes w !! slug) ++ [doc]]> (delta_indexes w) /\
    delta_dirs w'
    = <[path_join [DELTA_ROOT; slug] := Some (default [] (delta_indexes w !! slug) ++ [doc])]>
        (delta_dirs w) /\
    uuids_drawn w' = Datatypes.S (uuids_drawn w) /\
    exists indexed,
      events w' = events w ++ [indexed; IndexPersisted (path_join [DELTA_ROOT; slug])] /\
      (indexed = IndexInserted slug doc \/ indexed = IndexCreated slug doc).
Proof.
  destruct w as [ix dix th tf idirs ddirs ro n t ev].
  cbn [unwritable uuids_drawn delta_indexes delta_dirs events inject_dirs].
  intros Hdoc Hembed Hro.
  unfold index_injected, insert_document, from_documents, persist, new_uuid, emit,
    update, get_world, raise.
  unfold mbind, M_bind, mret, M_ret. cbn -[path_join].
  rewrite Hdoc. cbn -[path_join].
  destruct (dix !! slug) as [index |]; cbn -[path_join];
    rewrite Hembed; cbn -[path_join]; rewrite Hro; cbn -[path_join];
    eexists; (split; [reflexivity |]); (split; [reflexivity |]);
    (split; [reflexivity |]); (split; [reflexivity |]); eexists; rewrite <- ?app_assoc;
    (split; [reflexivity |]); auto.
Qed.

Lemma inject_run (data : InjectRequest) (w : World) :
  inject_fields_present data = true ->
  inject DELTA_ROOT INJECT_ROOT json_dumps Document_init embed_ok uuid4 strftime_date
         isoformat data w
  = match append_to_jsonl INJECT_ROOT json_dumps uuid4 strftime_date isoformat
            (inject_project data) (inject_version data) (inject_text data)
            (inject_metadata data) w with
    | (Ok _, w1) =>
        index_injected DELTA_ROOT Document_init embed_ok uuid4 (inject_slug data)
                       (inject_text data) (inject_metadata data) w1
    | (Raise e, w1) => (Raise e, w1)
    end.
Proof.
  intros Hfields. unfold inject. unfold inject_fields_present in Hfields.
  rewrite Hfields. reflexivity.
Qed.

(** A request that lacks a field is refused before anything happens. *)
Lemma inject_missing_fields (data : InjectRequest) (w : World) :
  inject_fields_present data = false ->
  inject DELTA_ROOT INJECT_ROOT json_dumps Document_init embed_ok uuid4 strftime_date
         isoformat data w
  = (Ok (mkResponse 400 (error_body "Missing required fields")), w).
Proof.
  intros Hfields. unfold inject. unfold inject_fields_present in Hfields.
  rewrite Hfields. reflexivity.
Qed.

(** C6. The record goes to the log before the delta index is touched. When
    the log write fails, the request fails with that [OSError], and the
    delta registry, the persisted delta indexes and the event log are as
    before. When it succeeds, the line of the record is at the end of the
    log file of the day while the delta registry and the persisted delta
    indexes are still as before; the rest of the request starts from there,
    the log append is its first effect, and the line is still in the log
    when the request is over, whatever its outcome. So for every request:
    whenever the registry or the persisted indexes changed, the record was
    appended first and is in the log. *)
Theorem inject_log_before_index (data : InjectRequest) (w : World) :
  let recorded := append_to_jsonl INJECT_ROOT json_dumps uuid4 strftime_date isoformat
                    (inject_project data) (inject_version data) (inject_text data)
                    (inject_metadata data) w in
  let run := inject DELTA_ROOT INJECT_ROOT json_dumps Document_init embed_ok uuid4
                    strftime_date isoformat data w in
  let dir := inject_dir INJECT_ROOT (inject_project data) (inject_version data) in
  let line := written_line json_dumps uuid4 isoformat (uuids_drawn w) (clock w)
                           (inject_text data) (inject_metadata data) in
  let appended :=
    LogAppended (written_path INJECT_ROOT strftime_date (clock w)
                              (inject_project data) (inject_version data)) line in
  let logged (w' : World) :=
    inject_dirs w'
    = <[dir := append_line (strftime_date (clock w) +:+ ".jsonl") line
                           (default [] (inject_dirs w !! dir))]> (inject_dirs w) in
  (inject_fields_present data = true ->
   forall e, fst recorded = Raise e ->
             fst run = Raise e /\
             (exists path, e = OSError path /\ unwritable w path = true) /\
             delta_indexes (snd run) = delta_indexes w /\
             delta_dirs (snd run) = delta_dirs w /\
             events (snd run) = events w) /\
  (inject_fields_present data = true ->
   forall u, fst recorded = Ok u ->
             logged (snd recorded) /\
             delta_indexes (snd recorded) = delta_indexes w /\
             delta_dirs (snd recorded) = delta_dirs w /\
             run = index_injected DELTA_ROOT Document_init embed_ok uuid4 (inject_slug data)
                                  (inject_text data) (inject_metadata data) (snd recorded) /\
             logged (snd run) /\
             exists rest, events (snd run) = events w ++ appended :: rest) /\
  (delta_indexes (snd run) <> delta_indexes w \/ delta_dirs (snd run) <> delta_dirs w ->
   logged (snd run) /\
   exists rest, events (snd run) = events w ++ appended :: rest).
Proof.
  intros recorded run dir line appended logged.
  destruct (inject_fields_present data) eqn:Hfields.
  2: { split; [discriminate |]. split; [discriminate |].
       unfold run. rewrite (inject_missing_fields data w Hfields). cbn [snd].
       intros [Hchanged | Hchanged]; contradiction. }
  pose proof (append_to_jsonl_run (inject_project data) (inject_version data)
                (inject_text data) (inject_metadata data) w) as Hrec.
  pose proof (append_to_jsonl_logs (inject_project data) (inject_version data)
                (inject_text data) (inject_metadata data) w) as Hlogs.
  cbv zeta in Hrec, Hlogs. fold recorded in Hrec, Hlogs. fold dir line in Hlogs.
  assert (Hrun : run = match recorded with
                       | (Ok _, w1) =>
                           index_injected DELTA_ROOT Document_init embed_ok uuid4
                                          (inject_slug data) (inject_text data)
                                          (inject_metadata data) w1
                       | (Raise e, w1) => (Raise e, w1)
                       end) by (apply inject_run; exact Hfields).
  destruct recorded as [[u | e] w1]; cbn [fst snd] in Hrec, Hlogs |- *;
    destruct Hrec as (Hdix & Hdd & Hro & Hrest).
  - destruct Hrest as (_ & Hev & _). destruct u.
    specialize (Hlogs eq_refl).
    destruct (index_injected_events (inject_slug data) (inject_text data)
                (inject_metadata data) w1) as [Hkeep [more Hmore]].
    rewrite <- Hrun in Hmore, Hkeep.
    assert (Hlogged : logged (snd run)).
    { unfold logged. rewrite Hkeep. exact Hlogs. }
    assert (Hfirst : exists rest, events (snd run) = events w ++ appended :: rest).
    { exists more. rewrite Hmore, Hev, <- app_assoc. reflexivity. }
    split; [intros _ e He; discriminate He |].
    split; [intros _ u _; repeat split; assumption |]. auto.
  - destruct Hrest as (Hpath & Hev). rewrite Hrun. cbn [fst snd].
    split; [| split].
    + intros _ e' He'. injection He' as <-. auto.
    + intros _ u Hu. discriminate Hu.
    + intros [Hchanged | Hchanged]; contradiction.
Qed.

(** C9, on the code. With the disk writable, the chunk accepted by the
    constructor as it is given, and the embedding service up, an injection
    succeeds; the record it logs carries the identifier drawn first, the
    chunk it indexes is built with the one drawn next. The two are the same
    only if [uuid4] repeats itself. *)
Theorem inject_chunk_id_not_record_id (data : InjectRequest) (w : World) :
  inject_fields_present data = true ->
  Document_init (JStr (inject_text data)) (inject_metadata data)
                (JStr (uuid4 (Datatypes.S (uuids_drawn w))))
  = Some (injected_chunk uuid4 (uuids_drawn w) (inject_text data) (inject_metadata data)) ->
  embed_ok (inject_text data) = true ->
  (forall path, unwritable w path = false) ->
  exists w' indexed,
    inject DELTA_ROOT INJECT_ROOT json_dumps Document_init embed_ok uuid4 strftime_date
           isoformat data w
    = (Ok (mkResponse 200 (JObj [("status", JStr "ok")])), w') /\
    events w'
    = events w ++
      [LogAppended (written_path INJECT_ROOT strftime_date (clock w)
                                 (inject_project data) (inject_version data))
                   (written_line json_dumps uuid4 isoformat (uuids_drawn w) (clock w)
                                 (inject_text data) (inject_metadata data));
       indexed;
       IndexPersisted (path_join [DELTA_ROOT; inject_slug data])] /\
    (indexed = IndexInserted (inject_slug data)
                 (injected_chunk uuid4 (uuids_drawn w) (inject_text data)
                                 (inject_metadata data)) \/
     indexed = IndexCreated (inject_slug data)
                 (injected_chunk uuid4 (uuids_drawn w) (inject_text data)
                                 (inject_metadata data))) /\
    delta_indexes w' !! inject_slug data
    = Some (default [] (delta_indexes w !! inject_slug data) ++
            [injected_chunk uuid4 (uuids_drawn w) (inject_text data)
                            (inject_metadata data)]) /\
    (uuid4 (uuids_drawn w) <> uuid4 (Datatypes.S (uuids_drawn w)) ->
     doc_id (injected_chunk uuid4 (uuids_drawn w) (inject_text data) (inject_metadata data))
     <> Some (JStr (uuid4 (uuids_drawn w)))).
Proof.
  intros Hfields Hdoc Hembed Hdisk.
  rewrite (inject_run data w Hfields).
  pose proof (append_to_jsonl_run (inject_project data) (inject_version data)
                (inject_text data) (inject_metadata data) w) as Hrec.
  cbv zeta in Hrec.
  destruct (append_to_jsonl _ _ _ _ _ _ _ _ _ w) as [[u | e] w1]; cbn [fst snd] in Hrec;
    destruct Hrec as (Hdix & Hdd & Hro & Hrest).
  - destruct Hrest as (Hn & Hev & _).
    destruct (index_injected_ok (inject_slug data) (inject_text data)
                (inject_metadata data)
                (injected_chunk uuid4 (uuids_drawn w) (inject_text data)
                                (inject_metadata data)) w1)
      as (w' & Hrun & Hdix' & _ & _ & indexed & Hev' & Hkind).
    { rewrite Hn. exact Hdoc. }
    { exact Hembed. }
    { rewrite Hro. apply Hdisk. }
    rewrite Hdix in Hdix'.
    exists w', indexed. split; [exact Hrun |].
    split; [rewrite Hev', Hev, <- app_assoc; reflexivity |].
    split; [exact Hkind |].
    split; [rewrite Hdix'; apply lookup_insert_eq |].
    unfold injected_chunk. cbn [doc_id]. intros Hfresh Heq.
    injection Heq as Heq. apply Hfresh. symmetry. exact Heq.
  - destruct Hrest as ((path & _ & Hpath) & _). rewrite Hdisk in Hpath. discriminate.
Qed.

End InjectionProperties.

(** The disk refuses the log file of the day: the request fails with that
    [OSError] and no delta index appears. On a writable disk the line of the
    record is in the log file of the day when the request is over, and the
    log append leads the events of the request. *)
Lemma inject_log_before_index_witness :
  (fst (inject "/app/storage-delta" "/app/injected" Json.dumps checked_document
               always_embeds numbered_uuid fixed_date fixed_time inject_x full_disk_world)
   = Raise (OSError "/app/injected/k8s/1-dot-2/2025-01-01.jsonl") /\
   delta_indexes (snd (inject "/app/storage-delta" "/app/injected" Json.dumps
                              checked_document always_embeds numbered_uuid fixed_date
                              fixed_time inject_x full_disk_world)) = ∅) /\
  inject_dirs (snd (inject "/app/storage-delta" "/app/injected" Json.dumps
                           checked_document always_embeds numbered_uuid fixed_date
                           fixed_time inject_x empty_world))
  !! "/app/injected/k8s/1-dot-2"
  = Some [("2025-01-01.jsonl",
           [written_line Json.dumps numbered_uuid fixed_time 0 0 "X" (JObj [])])] /\
  exists rest,
    events (snd (inject "/app/storage-delta" "/app/injected" Json.dumps checked_document
                        always_embeds numbered_uuid fixed_date fixed_time inject_x
                        empty_world))
    = LogAppended "/app/injected/k8s/1-dot-2/2025-01-01.jsonl"
                  (written_line Json.dumps numbered_uuid fixed_time 0 0 "X" (JObj []))
      :: rest.
Proof.
  split.
  - destruct (inject_log_before_index "/app/storage-delta" "/app/injected" Json.dumps
                checked_document always_embeds numbered_uuid fixed_date fixed_time inject_x
                full_disk_world) as [Hfail _].
    destruct (Hfail eq_refl (OSError "/app/injected/k8s/1-dot-2/2025-01-01.jsonl")
                ltac:(vm_compute; reflexivity)) as (Hraise & _ & Hdix & _).
    split; [exact Hraise | exact Hdix].
  - destruct (inject_log_before_index "/app/storage-delta" "/app/injected" Json.dumps
                checked_document always_embeds numbered_uuid fixed_date fixed_time inject_x
                empty_world) as (_ & Hok & _).
    destruct (Hok eq_refl tt ltac:(vm_compute; reflexivity))
      as (_ & _ & _ & _ & Hlogged & Hfirst).
    split; [| exact Hfirst].
    rewrite Hlogged. apply lookup_insert_eq.
Defined.

(** One injection into an empty world: the log line carries [uuid-0], the
    chunk in the delta index carries [uuid-1], and reading the log back gives
    a chunk with [uuid-0]. *)
Lemma inject_chunk_id_not_record_id_witness :
  exists w',
    inject "/app/storage-delta" "/app/injected" Json.dumps checked_document always_embeds
           numbered_uuid fixed_date fixed_time inject_x empty_world
    = (Ok (mkResponse 200 (JObj [("status", JStr "ok")])), w') /\
    delta_indexes w' !! "k8s-1-dot-2"
    = Some [mkDocument "X" (JObj []) (Some (JStr "uuid-1"))] /\
    load_injected_documents "/app/injected" Json.loads checked_document "k8s" "1.2" w'
    = (Ok [mkDocument "X" (JObj []) (Some (JStr "uuid-0"))], w').
Proof.
  destruct (inject_chunk_id_not_record_id "/app/storage-delta" "/app/injected"
              Json.dumps checked_document always_embeds numbered_uuid fixed_date fixed_time
              inject_x empty_world eq_refl eq_refl eq_refl (fun _ => eq_refl))
    as (w' & indexed & Hrun & _ & _ & Hdix & _).
  exists w'. split; [exact Hrun |]. split; [exact Hdix |].
  vm_compute in Hrun. injection Hrun as <-. vm_compute. reflexivity.
Defined.

(** * Further properties of the code *)

(** ** Slugs *)

Lemma normalize_version_append (a b : string) :
  normalize_version (a +:+ b) = normalize_version a +:+ normalize_version b.
Proof.
  induction a as [| c a IH]; [reflexivity |].
  change (String c a +:+ b) with (String c (a +:+ b)).
  rewrite !normalize_cons, IH. destruct (Ascii.eqb "." c).
  - rewrite append_assoc. reflexivity.
  - reflexivity.
Qed.

Lemma normalize_without_dot (s : string) :
  Str.contains "." s = false -> normalize_version s = s.
Proof.
  induction s as [| c s IH]; intros Hs; [reflexivity |].
  rewrite contains_cons in Hs. apply orb_false_elim in Hs as [Hc Hs].
  rewrite startswith_cons in Hc. cbn [Str.startswith] in Hc. rewrite andb_true_r in Hc.
  rewrite normalize_cons, Hc, (IH Hs). reflexivity.
Qed.

(** X1. [normalize_version] leaves no dot behind, so a second pass changes
    nothing. *)
Theorem normalize_version_idempotent (version : string) :
  Str.contains "." (normalize_version version) = false /\
  normalize_version (normalize_version version) = normalize_version version.
Proof.
  split; [apply normalize_no_dot |].
  apply normalize_without_dot, normalize_no_dot.
Qed.

(** X2. Two projects without a dash and two non-empty reversible versions get
    the same slug only when they are the same project and version. *)
Theorem get_slug_injective (p v p' v' : string) :
  Str.contains separator p = false -> Str.contains separator p' = false ->
  v <> EmptyString -> v' <> EmptyString ->
  reversible v = true -> reversible v' = true ->
  get_slug p v = get_slug p' v' -> p = p' /\ v = v'.
Proof.
  intros Hp Hp' Hv Hv' Hr Hr' Hslug.
  pose proof (parse_get_slug p v Hp Hv) as Hparse.
  rewrite Hslug, (parse_get_slug p' v' Hp' Hv') in Hparse.
  rewrite !denormalize_normalize in Hparse by assumption.
  injection Hparse as -> ->. auto.
Qed.

Lemma get_slug_injective_witness :
  "k8s" = String "k" "8s" /\ "1.2" = String "1" ".2".
Proof.
  apply (get_slug_injective "k8s" "1.2" (String "k" "8s") (String "1" ".2"));
    try reflexivity; discriminate.
Defined.

(** X3. Slugs collide across the dash: a version that starts with [q-] under
    project [p] has the slug of the rest of the version under the project
    [p-q] (with the dots of [q] replaced). *)
Theorem get_slug_collision (p q v : string) :
  v <> EmptyString ->
  get_slug p (q +:+ separator +:+ v) = get_slug (p +:+ separator +:+ normalize_version q) v.
Proof.
  intros Hv.
  assert (Hleft : get_slug p (q +:+ separator +:+ v)
                  = p +:+ separator +:+ normalize_version (q +:+ separator +:+ v)).
  { destruct (q +:+ separator +:+ v) eqn:Hq; [| reflexivity].
    destruct q; discriminate Hq. }
  rewrite Hleft. destruct v as [| c v]; [contradiction |].
  cbn [get_slug]. rewrite !normalize_version_append, !append_assoc. reflexivity.
Qed.

Lemma get_slug_collision_witness :
  get_slug "my" "proj-1.0" = get_slug "my-proj" "1.0".
Proof.
  exact (get_slug_collision "my" "proj" "1.0" ltac:(discriminate)).
Defined.

(** ** Thread memory *)

Lemma length_append (a b : string) :
  String.length (a +:+ b) = String.length a + String.length b.
Proof. induction a as [| x a IH]; cbn; [reflexivity | f_equal; exact IH]. Qed.



(** ** The answer handler *)

Section AnswerMore.

Context {F : Type} `{Score F}.
Variables (MIN_HITS : Z) (SIMILARITY_CUTOFF CONFIDENCE_THRESHOLD : F) (TOP_K : Z).
Variable STATE_ROOT : string.
Variable retrieve : Index -> string -> Z -> list (NodeWithScore F).
Variable SimilarityPostprocessor : F -> list (NodeWithScore F) -> list (NodeWithScore F).
Variable generate_content : string -> option string.

Let run_answer := answer MIN_HITS SIMILARITY_CUTOFF CONFIDENCE_THRESHOLD TOP_K STATE_ROOT
                         retrieve SimilarityPostprocessor generate_content.

Let gate (w : World) (data : AnswerRequest) (base_index : Index) :=
  retrieve_with_confidence MIN_HITS SIMILARITY_CUTOFF CONFIDENCE_THRESHOLD TOP_K
    retrieve SimilarityPostprocessor base_index
    (delta_indexes w !! get_slug (field_value (a_project data)) (field_value (a_version data)))
    (field_value (a_message data)).

(** X6. Answering never touches the corpora: the two registries, the injection
    logs, the persisted delta indexes and the sources of identifiers and
    time are after any request, failed or not, what they were before. *)
Theorem answer_keeps_corpora (data : AnswerRequest) (w : World) :
  same_corpora w (snd (run_answer data w)).
Proof.
  assert (Hrun : exists r w', run_answer data w = (r, w') /\ same_corpora w w').
  { unfold run_answer, answer.
    destruct (negb _); [eexists _, _; split; [reflexivity | repeat split] |].
    unfold mbind at 1. unfold M_bind at 1. unfold get_world at 1.
    destruct (indexes w !! _) as [base_index |];
      [| eexists _, _; split; [reflexivity | repeat split]].
    destruct (retrieve_with_confidence _ _ _ _ _ _ _ _ _) as [nodes should_answer].
    destruct w as [ix dix th tf idirs ddirs ro n t ev].
    unfold synthesize, generate_with_gemini, save_thread_memory, load_thread_memory,
      emit, update, get_world, raise.
    unfold mbind, M_bind, mret, M_ret.
    destruct should_answer; cbn -[thread_path answer_prompt].
    - destruct (generate_content _); cbn -[thread_path answer_prompt];
        [| eexists _, _; split; [reflexivity | repeat split]].
      destruct (ro _); cbn -[thread_path answer_prompt];
        eexists _, _; (split; [reflexivity | repeat split]).
    - destruct (ro _); cbn -[thread_path answer_prompt];
        eexists _, _; (split; [reflexivity | repeat split]). }
  destruct Hrun as (r & w' & -> & Hsame). exact Hsame.
Qed.

(** X7. A request that is answered, by abstention or by the generation service,
    adds exactly its own exchange to the thread: the user message, then the
    response. The thread file and the cache entry hold the same history, and
    the generation service was called once when the gate let the request
    through and not at all otherwise. *)
Theorem answer_records_exchange (data : AnswerRequest) (w : World) (base_index : Index)
  (nodes : list (NodeWithScore F)) (should_answer : bool) (response_text : string) :
  let thread_slug := field_value (a_thread_slug data) in
  let message := field_value (a_message data) in
  let path := thread_path STATE_ROOT thread_slug in
  let history := default [] (thread_files w !! path) ++ exchange message response_text in
  answer_fields_present data = true ->
  indexes w !! get_slug (field_value (a_project data)) (field_value (a_version data))
  = Some base_index ->
  gate w data base_index = (nodes, should_answer) ->
  (if should_answer then generate_content (answer_prompt (context_of nodes) message)
   else Some abstention) = Some response_text ->
  unwritable w path = false ->
  exists w',
    run_answer data w
    = (Ok (mkResponse 200 (JObj [("textResponse", JStr response_text)])), w') /\
    thread_files w' = <[path := history]> (thread_files w) /\
    threads w' = <[thread_slug := history]> (threads w) /\
    events w'
    = events w ++
      (if should_answer then [Generated (answer_prompt (context_of nodes) message)] else []) ++
      [ThreadSaved path].
Proof.
  intros thread_slug message path history Hfields Hbase Hgate Htext Hro.
  unfold run_answer, answer. unfold answer_fields_present in Hfields. rewrite Hfields.
  cbn [negb]. unfold mbind at 1. unfold M_bind at 1. unfold get_world at 1.
  rewrite Hbase. unfold gate in Hgate. rewrite Hgate.
  destruct w as [ix dix th tf idirs ddirs ro n t ev].
  cbn [unwritable thread_files threads events] in *.
  unfold synthesize, generate_with_gemini, save_thread_memory, load_thread_memory,
    emit, update, get_world, raise.
  unfold mbind, M_bind, mret, M_ret.
  fold (context_of nodes). fold thread_slug message path.
  remember (answer_prompt (context_of nodes) message) as prompt eqn:Hprompt.
  destruct should_answer; cbn -[thread_path].
  - rewrite Htext. cbn -[thread_path]. fold path. rewrite Hro.
    cbn -[thread_path]. eexists. split; [reflexivity |].
    rewrite <- app_assoc. repeat split.
  - injection Htext as <-. fold path. rewrite Hro.
    cbn -[thread_path]. eexists. split; [reflexivity |]. repeat split.
Qed.

(** X8. When the generation service fails, the failure leaves the handler as
    [ProviderError]: it is not turned into the abstention text, and the
    thread, on disk and in the cache, is as before. *)
Theorem answer_provider_error (data : AnswerRequest) (w : World) (base_index : Index)
  (nodes : list (NodeWithScore F)) :
  answer_fields_present data = true ->
  indexes w !! get_slug (field_value (a_project data)) (field_value (a_version data))
  = Some base_index ->
  gate w data base_index = (nodes, true) ->
  generate_content (answer_prompt (context_of nodes) (field_value (a_message data))) = None ->
  exists w',
    run_answer data w = (Raise ProviderError, w') /\
    same_threads w w' /\
    events w'
    = events w ++ [Generated (answer_prompt (context_of nodes)
                                            (field_value (a_message data)))].
Proof.
  intros Hfields Hbase Hgate Hnone.
  unfold run_answer, answer. unfold answer_fields_present in Hfields. rewrite Hfields.
  cbn [negb]. unfold mbind at 1. unfold M_bind at 1. unfold get_world at 1.
  rewrite Hbase. unfold gate in Hgate. rewrite Hgate.
  destruct w as [ix dix th tf idirs ddirs ro n t ev].
  unfold synthesize, generate_with_gemini, emit, update, get_world, raise.
  unfold mbind, M_bind, mret, M_ret. fold (context_of nodes).
  remember (answer_prompt (context_of nodes) (field_value (a_message data)))
    as prompt eqn:Hprompt.
  cbn -[thread_path]. rewrite Hnone.
  eexists. split; [reflexivity |]. repeat split.
Qed.

(** X9. When the disk refuses the thread file, so that its directory cannot
    be made or the file cannot be opened for writing, the request fails with
    [OSError] although the response was produced; nothing was written, and
    the thread is as before, on disk and in the cache. *)
Theorem answer_thread_write_failure (data : AnswerRequest) (w : World) (base_index : Index)
  (nodes : list (NodeWithScore F)) (should_answer : bool) (response_text : string) :
  let path := thread_path STATE_ROOT (field_value (a_thread_slug data)) in
  answer_fields_present data = true ->
  indexes w !! get_slug (field_value (a_project data)) (field_value (a_version data))
  = Some base_index ->
  gate w data base_index = (nodes, should_answer) ->
  (if should_answer
   then generate_content (answer_prompt (context_of nodes) (field_value (a_message data)))
   else Some abstention) = Some response_text ->
  unwritable w path = true ->
  exists w', run_answer data w = (Raise (OSError path), w') /\ same_threads w w'.
Proof.
  intros path Hfields Hbase Hgate Htext Hro.
  unfold run_answer, answer. unfold answer_fields_present in Hfields. rewrite Hfields.
  cbn [negb]. unfold mbind at 1. unfold M_bind at 1. unfold get_world at 1.
  rewrite Hbase. unfold gate in Hgate. rewrite Hgate.
  destruct w as [ix dix th tf idirs ddirs ro n t ev].
  cbn [unwritable thread_files threads events] in *.
  unfold synthesize, generate_with_gemini, save_thread_memory, load_thread_memory,
    emit, update, get_world, raise.
  unfold mbind, M_bind, mret, M_ret. fold (context_of nodes). fold path.
  remember (answer_prompt (context_of nodes) (field_value (a_message data)))
    as prompt eqn:Hprompt.
  destruct should_answer; cbn -[thread_path].
  - rewrite Htext. cbn -[thread_path]. fold path. rewrite Hro.
    eexists. split; [reflexivity |]. repeat split.
  - fold path. rewrite Hro. eexists. split; [reflexivity |]. repeat split.
Qed.

End AnswerMore.

Lemma answer_records_exchange_witness :
  exists w',
    answer 1%Z (1 # 2)%Q (1 # 10)%Q 5%Z "/app/state" (first_k_retrieve (1 # 2)%Q)
           postprocess_nodes echo_generation ask_k8s k8s_world
    = (Ok (mkResponse 200 (JObj [("textResponse", JStr "X is a thing.")])), w') /\
    thread_files w' !! "/app/state/threads/t1.json"
    = Some [mkMessage "user" "What is X?"; mkMessage "assistant" "X is a thing."] /\
    threads w' !! "t1"
    = Some [mkMessage "user" "What is X?"; mkMessage "assistant" "X is a thing."].
Proof.
  destruct (answer_records_exchange 1%Z (1 # 2)%Q (1 # 10)%Q 5%Z "/app/state"
              (first_k_retrieve (1 # 2)%Q) postprocess_nodes echo_generation
              ask_k8s k8s_world [chunk "X is a thing."]
              [mkNode (chunk "X is a thing.") (Some (1 # 2)%Q)] true "X is a thing."
              eq_refl ltac:(vm_compute; reflexivity) ltac:(vm_compute; reflexivity)
              eq_refl eq_refl)
    as (w' & Hrun & Hfiles & Hcache & _).
  exists w'. split; [exact Hrun |]. rewrite Hfiles, Hcache.
  split; apply lookup_insert_eq.
Defined.

Lemma answer_provider_error_witness :
  exists w',
    answer 1%Z (1 # 2)%Q (1 # 10)%Q 5%Z "/app/state" (first_k_retrieve (1 # 2)%Q)
           postprocess_nodes failing_generation ask_k8s k8s_world
    = (Raise ProviderError, w') /\
    thread_files w' = ∅.
Proof.
  destruct (answer_provider_error 1%Z (1 # 2)%Q (1 # 10)%Q 5%Z "/app/state"
              (first_k_retrieve (1 # 2)%Q) postprocess_nodes failing_generation
              ask_k8s k8s_world [chunk "X is a thing."]
              [mkNode (chunk "X is a thing.") (Some (1 # 2)%Q)]
              eq_refl ltac:(vm_compute; reflexivity) ltac:(vm_compute; reflexivity)
              eq_refl)
    as (w' & Hrun & [Hfiles _] & _).
  exists w'. split; [exact Hrun | exact Hfiles].
Defined.

Lemma answer_thread_write_failure_witness :
  exists w',
    answer 1%Z (1 # 2)%Q (1 # 10)%Q 5%Z "/app/state" (first_k_retrieve (1 # 2)%Q)
           postprocess_nodes echo_generation ask_k8s
           readonly_k8s_world
    = (Raise (OSError "/app/state/threads/t1.json"), w') /\
    threads w' = ∅.
Proof.
  destruct (answer_thread_write_failure 1%Z (1 # 2)%Q (1 # 10)%Q 5%Z "/app/state"
              (first_k_retrieve (1 # 2)%Q) postprocess_nodes echo_generation
              ask_k8s readonly_k8s_world [chunk "X is a thing."]
              [mkNode (chunk "X is a thing.") (Some (1 # 2)%Q)] true "X is a thing."
              eq_refl ltac:(vm_compute; reflexivity) ltac:(vm_compute; reflexivity)
              eq_refl eq_refl)
    as (w' & Hrun & [_ Hcache]).
  exists w'. split; [exact Hrun | exact Hcache].
Defined.

(** ** The elaborate handler *)

Section ElaborateProperties.

Variable STATE_ROOT : string.
Variable generate_content : string -> option string.

Lemma join_message_lines_not_empty (m : Message) (rest : list Message) :
  join nl (map message_line (m :: rest)) <> EmptyString.
Proof.
  cbn [map]. destruct (map message_line rest) as [| l ls];
    cbn [join]; unfold message_line; destruct (role m); cbn; discriminate.
Qed.

(** X10. The history goes into the prompt of [elaborate] exactly when the thread
    has messages, even messages with empty role and content; on a new thread
    the prompt is the bare instruction. *)
Theorem elaborate_prompt_history (history : list Message) (message : string) :
  elaborate_prompt (join nl (map message_line history)) message
  = match history with
    | [] => reformat_instruction message
    | _ :: _ =>
        "Previous conversation:" +:+ nl +:+ join nl (map message_line history) +:+
        nl +:+ nl +:+ reformat_instruction message
    end.
Proof.
  destruct history as [| m rest]; [reflexivity |].
  pose proof (join_message_lines_not_empty m rest) as Hne.
  unfold elaborate_prompt.
  destruct (join nl (map message_line (m :: rest))); [contradiction | reflexivity].
Qed.

(** X11. [elaborate] calls the generation service once, with the prompt built
    from the history of the thread, and adds the exchange to the thread, on
    disk and in the cache. No index is consulted: the registries do not
    matter. *)
Theorem elaborate_records_exchange (data : ElaborateRequest) (w : World)
  (response_text : string) :
  let thread_slug := field_value (e_thread_slug data) in
  let message := field_value (e_message data) in
  let path := thread_path STATE_ROOT thread_slug in
  let old := default [] (thread_files w !! path) in
  let prompt := elaborate_prompt (join nl (map message_line old)) message in
  elaborate_fields_present data = true ->
  generate_content prompt = Some response_text ->
  unwritable w path = false ->
  exists w',
    elaborate STATE_ROOT generate_content data w
    = (Ok (mkResponse 200 (JObj [("textResponse", JStr response_text)])), w') /\
    thread_files w' = <[path := old ++ exchange message response_text]> (thread_files w) /\
    threads w' = <[thread_slug := old ++ exchange message response_text]> (threads w) /\
    events w' = events w ++ [Generated prompt; ThreadSaved path] /\
    same_corpora w w'.
Proof.
  intros thread_slug message path old prompt Hfields Hgen Hro.
  unfold elaborate. unfold elaborate_fields_present in Hfields. rewrite Hfields.
  cbn [negb]. fold thread_slug message.
  destruct w as [ix dix th tf idirs ddirs ro n t ev].
  cbn [unwritable thread_files threads events] in *.
  unfold generate_with_gemini, save_thread_memory, load_thread_memory,
    emit, update, get_world, raise.
  unfold mbind, M_bind, mret, M_ret.
  cbn [thread_files]. fold path. fold old. fold prompt.
  clearbody prompt old.
  cbn -[thread_path]. rewrite Hgen. cbn -[thread_path]. fold path. rewrite Hro.
  cbn -[thread_path]. eexists. split; [reflexivity |].
  rewrite <- app_assoc. repeat split.
Qed.

(** X12. When the generation service fails, [elaborate] fails with
    [ProviderError] and the thread is as before; when the disk refuses the
    thread file, so that its directory cannot be made or the file cannot be
    opened for writing, it fails with [OSError], nothing was written, and
    the thread is as before too. In both cases the corpora are untouched. *)
Theorem elaborate_failures (data : ElaborateRequest) (w : World) :
  let thread_slug := field_value (e_thread_slug data) in
  let path := thread_path STATE_ROOT thread_slug in
  let prompt := elaborate_prompt
                  (join nl (map message_line (default [] (thread_files w !! path))))
                  (field_value (e_message data)) in
  elaborate_fields_present data = true ->
  (generate_content prompt = None \/ unwritable w path = true) ->
  exists e w',
    elaborate STATE_ROOT generate_content data w = (Raise e, w') /\
    (e = ProviderError \/ e = OSError path) /\
    same_threads w w' /\ same_corpora w w'.
Proof.
  intros thread_slug path prompt Hfields Hfail.
  unfold elaborate. unfold elaborate_fields_present in Hfields. rewrite Hfields.
  cbn [negb]. fold thread_slug.
  destruct w as [ix dix th tf idirs ddirs ro n t ev].
  cbn [unwritable thread_files threads events] in *.
  unfold generate_with_gemini, save_thread_memory, load_thread_memory,
    emit, update, get_world, raise.
  unfold mbind, M_bind, mret, M_ret.
  cbn [thread_files]. fold path. fold prompt. clearbody prompt.
  cbn -[thread_path].
  destruct (generate_content prompt) as [response_text |] eqn:Hgen.
  - destruct Hfail as [Hfail | Hro]; [discriminate |].
    cbn -[thread_path]. fold path. rewrite Hro.
    eexists _, _. split; [reflexivity |]. split; [right; reflexivity |].
    repeat split.
  - eexists _, _. split; [reflexivity |]. split; [left; reflexivity |].
    repeat split.
Qed.

End ElaborateProperties.

Lemma elaborate_records_exchange_witness :
  exists w',
    elaborate "/app/state" echo_generation elaborate_t1 empty_world
    = (Ok (mkResponse 200 (JObj [("textResponse", JStr "X is a thing.")])), w') /\
    threads w' !! "t1"
    = Some [mkMessage "user" "raw notes"; mkMessage "assistant" "X is a thing."].
Proof.
  destruct (elaborate_records_exchange "/app/state" echo_generation elaborate_t1
              empty_world "X is a thing." eq_refl eq_refl eq_refl)
    as (w' & Hrun & _ & Hcache & _).
  exists w'. split; [exact Hrun |]. rewrite Hcache. apply lookup_insert_eq.
Defined.

Lemma elaborate_failures_witness :
  exists e w',
    elaborate "/app/state" failing_generation elaborate_t1 empty_world = (Raise e, w') /\
    thread_files w' = ∅.
Proof.
  destruct (elaborate_failures "/app/state" failing_generation elaborate_t1
              empty_world eq_refl (or_introl eq_refl))
    as (e & w' & Hrun & _ & [Hfiles _] & _).
  exists e, w'. split; [exact Hrun | exact Hfiles].
Defined.

(** ** Validation *)

(** X13. A request that lacks a required field is answered 400 by each of the
    three handlers, and the world stays as it is: nothing is logged, indexed,
    generated or saved. *)
Theorem missing_fields_rejected {F : Type} `{Score F}
  (MIN_HITS : Z) (SIMILARITY_CUTOFF CONFIDENCE_THRESHOLD : F) (TOP_K : Z)
  (DELTA_ROOT STATE_ROOT INJECT_ROOT : string)
  (json_dumps : json -> string)
  (Document_init : json -> json -> json -> option Document)
  (retrieve : Index -> string -> Z -> list (NodeWithScore F))
  (SimilarityPostprocessor : F -> list (NodeWithScore F) -> list (NodeWithScore F))
  (embed_ok : string -> bool) (generate_content : string -> option string)
  (uuid4 strftime_date isoformat : nat -> string)
  (a : AnswerRequest) (e : ElaborateRequest) (i : InjectRequest) (w : World) :
  (answer_fields_present a = false ->
   answer MIN_HITS SIMILARITY_CUTOFF CONFIDENCE_THRESHOLD TOP_K STATE_ROOT retrieve
          SimilarityPostprocessor generate_content a w
   = (Ok (mkResponse 400 (error_body "Missing required fields")), w)) /\
  (elaborate_fields_present e = false ->
   elaborate STATE_ROOT generate_content e w
   = (Ok (mkResponse 400 (error_body "Missing required fields")), w)) /\
  (inject_fields_present i = false ->
   inject DELTA_ROOT INJECT_ROOT json_dumps Document_init embed_ok uuid4 strftime_date isoformat i w
   = (Ok (mkResponse 400 (error_body "Missing required fields")), w)).
Proof.
  split; [| split].
  - intros Hfields. unfold answer. unfold answer_fields_present in Hfields.
    rewrite Hfields. reflexivity.
  - intros Hfields. unfold elaborate. unfold elaborate_fields_present in Hfields.
    rewrite Hfields. reflexivity.
  - apply inject_missing_fields.
Qed.

Lemma missing_fields_rejected_witness :
  answer 1%Z (1 # 2)%Q (1 # 10)%Q 5%Z "/app/state" (first_k_retrieve (1 # 2)%Q)
         postprocess_nodes echo_generation answer_project_only k8s_world
  = (Ok (mkResponse 400 (error_body "Missing required fields")), k8s_world) /\
  elaborate "/app/state" echo_generation elaborate_thread_only k8s_world
  = (Ok (mkResponse 400 (error_body "Missing required fields")), k8s_world) /\
  inject "/app/storage-delta" "/app/injected" Json.dumps checked_document always_embeds numbered_uuid
         fixed_date fixed_time inject_project_only k8s_world
  = (Ok (mkResponse 400 (error_body "Missing required fields")), k8s_world).
Proof.
  destruct (missing_fields_rejected 1%Z (1 # 2)%Q (1 # 10)%Q 5%Z
              "/app/storage-delta" "/app/state" "/app/injected" Json.dumps
              checked_document (first_k_retrieve (1 # 2)%Q) postprocess_nodes always_embeds
              echo_generation numbered_uuid fixed_date fixed_time
              answer_project_only elaborate_thread_only inject_project_only k8s_world)
    as (Ha & He & Hi).
  split; [exact (Ha eq_refl) |]. split; [exact (He eq_refl) | exact (Hi eq_refl)].
Defined.

(** ** More on the injection path *)

Section InjectionMore.

Variables (DELTA_ROOT INJECT_ROOT : string).
Variable json_dumps : json -> string.
Variable Document_init : json -> json -> json -> option Document.
Variable embed_ok : string -> bool.
Variable uuid4 : nat -> string.
Variables (strftime_date isoformat : nat -> string).

Let run_inject := inject DELTA_ROOT INJECT_ROOT json_dumps Document_init embed_ok uuid4
                         strftime_date isoformat.

(** The recorder changes the injection logs and draws one identifier and two
    readings of the clock; the rest of the world is as before. *)
Lemma append_to_jsonl_frame (project version text : string) (metadata : json) (w : World) :
  let w1 := snd (append_to_jsonl INJECT_ROOT json_dumps uuid4 strftime_date isoformat
                                 project version text metadata w) in
  indexes w1 = indexes w /\ same_threads w w1.
Proof.
  assert (Hrun : exists r w1,
             append_to_jsonl INJECT_ROOT json_dumps uuid4 strftime_date isoformat
                             project version text metadata w = (r, w1) /\
             indexes w1 = indexes w /\ same_threads w w1).
  { destruct w as [ix dix th tf idirs ddirs ro n t ev].
    unfold append_to_jsonl, mkdir_inject, open_append, now, new_uuid, emit, update,
      get_world, raise.
    unfold mbind, M_bind, mret, M_ret. cbn -[path_join inject_dir append_line].
    destruct (idirs !! inject_dir INJECT_ROOT project version);
      cbn -[path_join inject_dir append_line].
    - destruct (ro _); cbn -[path_join inject_dir append_line];
        eexists _, _; (split; [reflexivity | repeat split]).
    - destruct (ro (inject_dir INJECT_ROOT project version));
        cbn -[path_join inject_dir append_line];
        [eexists _, _; (split; [reflexivity | repeat split]) |].
      destruct (ro _); cbn -[path_join inject_dir append_line];
        eexists _, _; (split; [reflexivity | repeat split]). }
  destruct Hrun as (r & w1 & -> & Hix & Hth). cbn. auto.
Qed.

(** The indexing half leaves the base registry, the threads and the
    injection logs alone, whatever its outcome. *)
Lemma index_injected_frame (slug text_content : string) (metadata : json) (w : World) :
  let w' := snd (index_injected DELTA_ROOT Document_init embed_ok uuid4 slug text_content
                                metadata w) in
  indexes w' = indexes w /\ same_threads w w' /\ inject_dirs w' = inject_dirs w.
Proof.
  assert (Hrun : exists r w',
             index_injected DELTA_ROOT Document_init embed_ok uuid4 slug text_content
                            metadata w = (r, w') /\
             indexes w' = indexes w /\ same_threads w w' /\
             inject_dirs w' = inject_dirs w).
  { destruct w as [ix dix th tf idirs ddirs ro n t ev].
    unfold index_injected, insert_document, from_documents, persist, new_uuid, emit,
      update, get_world, raise.
    unfold mbind, M_bind, mret, M_ret. cbn -[path_join].
    destruct (Document_init _ _ _) as [doc |]; cbn -[path_join];
      [| eexists _, _; (split; [reflexivity | repeat split])].
    destruct (dix !! slug); cbn -[path_join];
      destruct (embed_ok (text doc)); cbn -[path_join];
      try (eexists _, _; (split; [reflexivity | repeat split]));
      destruct (ro _); cbn -[path_join];
      eexists _, _; (split; [reflexivity | repeat split]). }
  destruct Hrun as (r & w' & -> & Hframe). cbn. exact Hframe.
Qed.

(** X14. An injection, whatever its outcome, never changes the base indexes nor
    any thread. *)
Theorem inject_keeps_base_and_threads (data : InjectRequest) (w : World) :
  indexes (snd (run_inject data w)) = indexes w /\
  same_threads w (snd (run_inject data w)).
Proof.
  unfold run_inject.
  destruct (inject_fields_present data) eqn:Hfields.
  2: { rewrite (inject_missing_fields _ _ _ _ _ _ _ _ data w Hfields). repeat split. }
  rewrite (inject_run _ _ _ _ _ _ _ _ data w Hfields).
  pose proof (append_to_jsonl_frame (inject_project data) (inject_version data)
                (inject_text data) (inject_metadata data) w) as Hrec.
  cbv zeta in Hrec.
  destruct (append_to_jsonl _ _ _ _ _ _ _ _ _ w) as [[u | e] w1]; cbn [snd] in Hrec.
  - pose proof (index_injected_frame (inject_slug data) (inject_text data)
                  (inject_metadata data) w1) as Hidx.
    cbv zeta in Hidx. destruct Hrec as (Hix & Htf & Hth).
    destruct Hidx as (Hix' & [Htf' Hth'] & _).
    unfold same_threads. rewrite Hix', Htf', Hth'. auto.
  - exact Hrec.
Qed.

Lemma index_injected_refused (slug text_content : string) (metadata : json) (w : World) :
  Document_init (JStr text_content) metadata (JStr (uuid4 (uuids_drawn w))) = None ->
  exists w',
    index_injected DELTA_ROOT Document_init embed_ok uuid4 slug text_content metadata w
    = (Raise ValidationError, w') /\
    delta_indexes w' = delta_indexes w /\ delta_dirs w' = delta_dirs w /\
    inject_dirs w' = inject_dirs w /\ events w' = events w.
Proof.
  destruct w as [ix dix th tf idirs ddirs ro n t ev].
  cbn [uuids_drawn]. intros Hdoc.
  unfold index_injected, insert_document, from_documents, persist, new_uuid, emit,
    update, get_world, raise.
  unfold mbind, M_bind, mret, M_ret. cbn -[path_join]. rewrite Hdoc.
  eexists. split; [reflexivity | repeat split].
Qed.

Lemma index_injected_embed_failure (slug text_content : string) (metadata : json)
  (doc : Document) (w : World) :
  Document_init (JStr text_content) metadata (JStr (uuid4 (uuids_drawn w))) = Some doc ->
  embed_ok (text doc) = false ->
  exists w',
    index_injected DELTA_ROOT Document_init embed_ok uuid4 slug text_content metadata w
    = (Raise ProviderError, w') /\
    delta_indexes w' = delta_indexes w /\ delta_dirs w' = delta_dirs w /\
    inject_dirs w' = inject_dirs w /\ events w' = events w.
Proof.
  destruct w as [ix dix th tf idirs ddirs ro n t ev].
  cbn [uuids_drawn]. intros Hdoc Hembed.
  unfold index_injected, insert_document, from_documents, persist, new_uuid, emit,
    update, get_world, raise.
  unfold mbind, M_bind, mret, M_ret. cbn -[path_join]. rewrite Hdoc. cbn -[path_join].
  destruct (dix !! slug) as [index |]; cbn -[path_join];
    rewrite Hembed; cbn -[path_join];
    eexists; (split; [reflexivity | repeat split]).
Qed.

Lemma index_injected_persist_failure (slug text_content : string) (metadata : json)
  (doc : Document) (w : World) :
  Document_init (JStr text_content) metadata (JStr (uuid4 (uuids_drawn w))) = Some doc ->
  embed_ok (text doc) = true ->
  unwritable w (path_join [DELTA_ROOT; slug]) = true ->
  exists w',
    index_injected DELTA_ROOT Document_init embed_ok uuid4 slug text_content metadata w
    = (Raise (OSError (path_join [DELTA_ROOT; slug])), w') /\
    delta_indexes w'
    = <[slug := default [] (delta_indexes w !! slug) ++ [doc]]> (delta_indexes w) /\
    delta_dirs w' = delta_dirs w.
Proof.
  destruct w as [ix dix th tf idirs ddirs ro n t ev].
  cbn [unwritable uuids_drawn delta_indexes delta_dirs].
  intros Hdoc Hembed Hro.
  unfold index_injected, insert_document, from_documents, persist, new_uuid, emit,
    update, get_world, raise.
  unfold mbind, M_bind, mret, M_ret. cbn -[path_join]. rewrite Hdoc. cbn -[path_join].
  destruct (dix !! slug) as [index |]; cbn -[path_join];
    rewrite Hembed; cbn -[path_join]; rewrite Hro; cbn -[path_join];
    eexists; (split; [reflexivity | repeat split]).
Qed.


(** X16. When the embedding service fails after the record was logged and the
    chunk was built, the request fails with [ProviderError]: the record is
    in the log, and neither the delta registry nor the persisted delta
    indexes have the chunk. *)
Theorem inject_embedding_failure (data : InjectRequest) (w : World) (doc : Document) :
  inject_fields_present data = true ->
  fst (append_to_jsonl INJECT_ROOT json_dumps uuid4 strftime_date isoformat
         (inject_project data) (inject_version data) (inject_text data)
         (inject_metadata data) w) = Ok tt ->
  Document_init (JStr (inject_text data)) (inject_metadata data)
                (JStr (uuid4 (Datatypes.S (uuids_drawn w)))) = Some doc ->
  embed_ok (text doc) = false ->
  exists w',
    run_inject data w = (Raise ProviderError, w') /\
    delta_indexes w' = delta_indexes w /\ delta_dirs w' = delta_dirs w /\
    exists files lines,
      inject_dirs w' !! inject_dir INJECT_ROOT (inject_project data) (inject_version data)
      = Some files /\
      In (strftime_date (clock w) +:+ ".jsonl", lines) files /\
      In (written_line json_dumps uuid4 isoformat (uuids_drawn w) (clock w)
                       (inject_text data) (inject_metadata data)) lines.
Proof.
  intros Hfields Hlog Hdoc Hembed. unfold run_inject.
  rewrite (inject_run _ _ _ _ _ _ _ _ data w Hfields).
  pose proof (append_to_jsonl_run INJECT_ROOT json_dumps uuid4 strftime_date isoformat
                (inject_project data) (inject_version data)
                (inject_text data) (inject_metadata data) w) as Hrec.
  cbv zeta in Hrec.
  destruct (append_to_jsonl _ _ _ _ _ _ _ _ _ w) as [[u | e] w1]; cbn [fst snd] in *;
    [| discriminate].
  destruct Hrec as (Hdix & Hdd & _ & Hn & _ & Hline).
  destruct (index_injected_embed_failure (inject_slug data) (inject_text data)
              (inject_metadata data) doc w1)
    as (w' & Hrun & Hdix' & Hdd' & Hlogs & _).
  { rewrite Hn. exact Hdoc. }
  { exact Hembed. }
  exists w'. split; [exact Hrun |].
  rewrite Hdix', Hdd', Hlogs. auto.
Qed.

(** X17. When the disk refuses the directory of the delta index, the request
    fails with [OSError] after the chunk went into the registered index: the
    index in memory has the chunk, and nothing was written to the persisted
    delta indexes. *)
Theorem inject_persist_failure (data : InjectRequest) (w : World) (doc : Document) :
  let slug := inject_slug data in
  let index := default [] (delta_indexes w !! slug) ++ [doc] in
  inject_fields_present data = true ->
  fst (append_to_jsonl INJECT_ROOT json_dumps uuid4 strftime_date isoformat
         (inject_project data) (inject_version data) (inject_text data)
         (inject_metadata data) w) = Ok tt ->
  Document_init (JStr (inject_text data)) (inject_metadata data)
                (JStr (uuid4 (Datatypes.S (uuids_drawn w)))) = Some doc ->
  embed_ok (text doc) = true ->
  unwritable w (path_join [DELTA_ROOT; slug]) = true ->
  exists w',
    run_inject data w = (Raise (OSError (path_join [DELTA_ROOT; slug])), w') /\
    delta_indexes w' = <[slug := index]> (delta_indexes w) /\
    delta_dirs w' = delta_dirs w.
Proof.
  intros slug index Hfields Hlog Hdoc Hembed Hro. unfold run_inject.
  rewrite (inject_run _ _ _ _ _ _ _ _ data w Hfields).
  pose proof (append_to_jsonl_run INJECT_ROOT json_dumps uuid4 strftime_date isoformat
                (inject_project data) (inject_version data)
                (inject_text data) (inject_metadata data) w) as Hrec.
  cbv zeta in Hrec.
  destruct (append_to_jsonl _ _ _ _ _ _ _ _ _ w) as [[u | e] w1]; cbn [fst snd] in *;
    [| discriminate].
  destruct Hrec as (Hdix & Hdd & Hro1 & Hn & _).
  destruct (index_injected_persist_failure (inject_slug data) (inject_text data)
              (inject_metadata data) doc w1)
    as (w' & Hrun & Hdix' & Hdd').
  { rewrite Hn. exact Hdoc. }
  { exact Hembed. }
  { rewrite Hro1. exact Hro. }
  exists w'. split; [exact Hrun |].
  rewrite Hdix', Hdd', Hdix, Hdd. auto.
Qed.

(** X18. [health] counts the delta indexes: after a successful injection it
    reports one more when the slug had none, and the same number when the
    slug had one; the count of base indexes does not move. *)
Theorem health_after_injection (data : InjectRequest) (w : World) (doc : Document) :
  inject_fields_present data = true ->
  Document_init (JStr (inject_text data)) (inject_metadata data)
                (JStr (uuid4 (Datatypes.S (uuids_drawn w)))) = Some doc ->
  embed_ok (text doc) = true ->
  (forall path, unwritable w path = false) ->
  let w' := snd (run_inject data w) in
  fst (run_inject data w) = Ok (mkResponse 200 (JObj [("status", JStr "ok")])) /\
  fst (health w')
  = Ok (mkResponse 200
          (JObj [("status", JStr "ok");
                 ("base_indexes", JNum (Z.of_nat (size (indexes w))));
                 ("delta_indexes",
                  JNum (Z.of_nat (match delta_indexes w !! inject_slug data with
                                  | Some _ => size (delta_indexes w)
                                  | None => Datatypes.S (size (delta_indexes w))
                                  end)))])).
Proof.
  intros Hfields Hdoc Hembed Hdisk w'.
  assert (Hrun : exists w1,
             run_inject data w = (Ok (mkResponse 200 (JObj [("status", JStr "ok")])), w1) /\
             indexes w1 = indexes w /\
             delta_indexes w1
             = <[inject_slug data :=
                   default [] (delta_indexes w !! inject_slug data) ++ [doc]]>
                 (delta_indexes w)).
  { unfold run_inject. rewrite (inject_run _ _ _ _ _ _ _ _ data w Hfields).
    pose proof (append_to_jsonl_run INJECT_ROOT json_dumps uuid4 strftime_date isoformat
                  (inject_project data) (inject_version data)
                  (inject_text data) (inject_metadata data) w) as Hrec.
    pose proof (append_to_jsonl_frame (inject_project data) (inject_version data)
                  (inject_text data) (inject_metadata data) w) as Hframe.
    cbv zeta in Hrec, Hframe.
    destruct (append_to_jsonl _ _ _ _ _ _ _ _ _ w) as [[u | e] w1];
      cbn [fst snd] in Hrec, Hframe; destruct Hrec as (Hdix & _ & Hro & Hrest).
    - destruct Hrest as (Hn & _). destruct Hframe as [Hix _].
      destruct (index_injected_ok DELTA_ROOT Document_init embed_ok uuid4
                  (inject_slug data) (inject_text data) (inject_metadata data) doc w1)
        as (w2 & Hrun & Hdix' & _).
      { rewrite Hn. exact Hdoc. }
      { exact Hembed. }
      { rewrite Hro. apply Hdisk. }
      pose proof (index_injected_frame (inject_slug data) (inject_text data)
                    (inject_metadata data) w1) as Hframe'.
      cbv zeta in Hframe'. rewrite Hrun in Hframe'. cbn [snd] in Hframe'.
      destruct Hframe' as [Hix' _].
      exists w2. split; [exact Hrun |]. split; [congruence |].
      rewrite Hdix', Hdix. reflexivity.
    - destruct Hrest as ((path & _ & Hpath) & _). rewrite Hdisk in Hpath. discriminate. }
  destruct Hrun as (w1 & Hrun & Hix & Hdix).
  subst w'. rewrite Hrun. cbn [fst snd]. split; [reflexivity |].
  unfold health, mbind, M_bind, get_world, mret, M_ret. cbn [fst].
  rewrite Hix, Hdix.
  destruct (delta_indexes w !! inject_slug data) as [old |] eqn:Hold.
  - rewrite map_size_insert_Some by (exists old; exact Hold). reflexivity.
  - rewrite map_size_insert_None by exact Hold. reflexivity.
Qed.

(** X30. When the constructor refuses the chunk, as it does a metadata that
    is not a dict, the request fails with [ValidationError] after the record
    was logged: the line is in the log, the log append is the only effect,
    and neither the delta registry nor the persisted delta indexes
    changed. *)
Theorem inject_validation_failure (data : InjectRequest) (w : World) :
  inject_fields_present data = true ->
  fst (append_to_jsonl INJECT_ROOT json_dumps uuid4 strftime_date isoformat
         (inject_project data) (inject_version data) (inject_text data)
         (inject_metadata data) w) = Ok tt ->
  Document_init (JStr (inject_text data)) (inject_metadata data)
                (JStr (uuid4 (Datatypes.S (uuids_drawn w)))) = None ->
  exists w',
    run_inject data w = (Raise ValidationError, w') /\
    delta_indexes w' = delta_indexes w /\ delta_dirs w' = delta_dirs w /\
    events w'
    = events w ++
      [LogAppended (written_path INJECT_ROOT strftime_date (clock w)
                                 (inject_project data) (inject_version data))
                   (written_line json_dumps uuid4 isoformat (uuids_drawn w) (clock w)
                                 (inject_text data) (inject_metadata data))] /\
    exists files lines,
      inject_dirs w' !! inject_dir INJECT_ROOT (inject_project data) (inject_version data)
      = Some files /\
      In (strftime_date (clock w) +:+ ".jsonl", lines) files /\
      In (written_line json_dumps uuid4 isoformat (uuids_drawn w) (clock w)
                       (inject_text data) (inject_metadata data)) lines.
Proof.
  intros Hfields Hlog Hdoc. unfold run_inject.
  rewrite (inject_run _ _ _ _ _ _ _ _ data w Hfields).
  pose proof (append_to_jsonl_run INJECT_ROOT json_dumps uuid4 strftime_date isoformat
                (inject_project data) (inject_version data)
                (inject_text data) (inject_metadata data) w) as Hrec.
  cbv zeta in Hrec.
  destruct (append_to_jsonl _ _ _ _ _ _ _ _ _ w) as [[u | e] w1]; cbn [fst snd] in *;
    [| discriminate].
  destruct Hrec as (Hdix & Hdd & _ & Hn & Hev & Hline).
  destruct (index_injected_refused (inject_slug data) (inject_text data)
              (inject_metadata data) w1)
    as (w' & Hrun & Hdix' & Hdd' & Hlogs & Hev').
  { rewrite Hn. exact Hdoc. }
  exists w'. split; [exact Hrun |].
  rewrite Hdix', Hdd', Hlogs, Hev'. auto.
Qed.

End InjectionMore.


Lemma inject_embedding_failure_witness :
  exists w',
    inject "/app/storage-delta" "/app/injected" Json.dumps checked_document never_embeds
           numbered_uuid fixed_date fixed_time inject_x empty_world
    = (Raise ProviderError, w') /\
    delta_indexes w' = ∅ /\
    load_injected_documents "/app/injected" Json.loads checked_document "k8s" "1.2" w'
    = (Ok [mkDocument "X" (JObj []) (Some (JStr "uuid-0"))], w').
Proof.
  destruct (inject_embedding_failure "/app/storage-delta" "/app/injected"
              Json.dumps checked_document never_embeds numbered_uuid fixed_date fixed_time
              inject_x empty_world (mkDocument "X" (JObj []) (Some (JStr "uuid-1")))
              eq_refl ltac:(vm_compute; reflexivity) eq_refl eq_refl)
    as (w' & Hrun & Hdix & _).
  exists w'. split; [exact Hrun |]. split; [exact Hdix |].
  vm_compute in Hrun. injection Hrun as <-. vm_compute. reflexivity.
Defined.

Lemma inject_persist_failure_witness :
  exists w',
    inject "/app/storage-delta" "/app/injected" Json.dumps checked_document always_embeds
           numbered_uuid fixed_date fixed_time inject_x delta_refused_world
    = (Raise (OSError "/app/storage-delta/k8s-1-dot-2"), w') /\
    delta_indexes w' !! "k8s-1-dot-2"
    = Some [mkDocument "X" (JObj []) (Some (JStr "uuid-1"))] /\
    delta_dirs w' = ∅.
Proof.
  destruct (inject_persist_failure "/app/storage-delta" "/app/injected"
              Json.dumps checked_document always_embeds numbered_uuid fixed_date fixed_time
              inject_x delta_refused_world
              (mkDocument "X" (JObj []) (Some (JStr "uuid-1")))
              eq_refl ltac:(vm_compute; reflexivity) eq_refl eq_refl eq_refl)
    as (w' & Hrun & Hdix & Hdd).
  exists w'. split; [exact Hrun |]. split; [| exact Hdd].
  rewrite Hdix. apply lookup_insert_eq.
Defined.

Lemma health_after_injection_witness :
  fst (health (snd (inject "/app/storage-delta" "/app/injected" Json.dumps
                           checked_document always_embeds numbered_uuid fixed_date
                           fixed_time inject_x empty_world)))
  = Ok (mkResponse 200 (JObj [("status", JStr "ok"); ("base_indexes", JNum 0);
                              ("delta_indexes", JNum 1)])).
Proof.
  exact (proj2 (health_after_injection "/app/storage-delta" "/app/injected"
                  Json.dumps checked_document always_embeds numbered_uuid fixed_date
                  fixed_time inject_x empty_world
                  (mkDocument "X" (JObj []) (Some (JStr "uuid-1")))
                  eq_refl eq_refl eq_refl (fun _ => eq_refl))).
Defined.

(** The request of [inject_x] with a metadata that is a list: the record is
    logged, the request fails, and no delta index appears. *)
Lemma inject_validation_failure_witness :
  exists w',
    inject "/app/storage-delta" "/app/injected" Json.dumps checked_document always_embeds
           numbered_uuid fixed_date fixed_time inject_list_metadata empty_world
    = (Raise ValidationError, w') /\
    delta_indexes w' = ∅ /\
    inject_dirs w' !! "/app/injected/k8s/1-dot-2"
    = Some [("2025-01-01.jsonl",
             [written_line Json.dumps numbered_uuid fixed_time 0 0 "X" (JArr [JNum 1])])].
Proof.
  destruct (inject_validation_failure "/app/storage-delta" "/app/injected"
              Json.dumps checked_document always_embeds numbered_uuid fixed_date fixed_time
              inject_list_metadata empty_world
              eq_refl ltac:(vm_compute; reflexivity) eq_refl)
    as (w' & Hrun & Hdix & _).
  exists w'. split; [exact Hrun |]. split; [exact Hdix |].
  vm_compute in Hrun. injection Hrun as <-. vm_compute. reflexivity.
Defined.

(** ** Logging and reading back *)

Section RoundTrip.

Variable INJECT_ROOT : string.
Variable json_dumps : json -> string.
Variable json_loads : string -> option json.
Variable Document_init : json -> json -> json -> option Document.
Variable uuid4 : nat -> string.
Variables (strftime_date isoformat : nat -> string).

Lemma endswith_jsonl (s : string) : Str.endswith ".jsonl" (s +:+ ".jsonl") = true.
Proof.
  unfold Str.endswith. rewrite length_append.
  replace (String.length s + String.length ".jsonl" - String.length ".jsonl")
    with (String.length s) by lia.
  rewrite drop_append. apply andb_true_intro. split.
  - apply Nat.leb_le. lia.
  - reflexivity.
Qed.

Lemma jsonl_lines_cons (name : string) (lines : list string)
  (files : list (string * list string)) :
  jsonl_lines ((name, lines) :: files)
  = (if Str.endswith ".jsonl" name then List.filter Str.has_text lines else [])
    ++ jsonl_lines files.
Proof. reflexivity. Qed.

(** Appending a line with text to a [.jsonl] file of a directory puts it at
    one place among the lines read and moves no other line. *)
Lemma jsonl_lines_append_line (name line : string) (files : list (string * list string)) :
  Str.endswith ".jsonl" name = true -> Str.has_text line = true ->
  exists l1 l2,
    jsonl_lines files = l1 ++ l2 /\
    jsonl_lines (append_line name line files) = l1 ++ line :: l2.
Proof.
  intros Hname Htext. induction files as [| [n ls] files IH].
  - exists [], []. split; [reflexivity |].
    cbn [append_line]. rewrite jsonl_lines_cons, Hname. cbn. rewrite Htext. reflexivity.
  - cbn [append_line]. destruct (String.eqb_spec n name) as [-> | Hne].
    + exists (List.filter Str.has_text ls), (jsonl_lines files).
      rewrite !jsonl_lines_cons, Hname. split; [reflexivity |].
      rewrite List.filter_app. cbn [List.filter]. rewrite Htext.
      rewrite <- app_assoc. reflexivity.
    + destruct IH as (l1 & l2 & Hbefore & Hafter).
      exists ((if Str.endswith ".jsonl" n then List.filter Str.has_text ls else []) ++ l1), l2.
      rewrite !jsonl_lines_cons, Hbefore, Hafter, <- !app_assoc. auto.
Qed.

Lemma load_lines_ok_inv (lines : list string) :
  forall acc r,
    load_lines json_loads Document_init lines acc = Ok r ->
    forall line, In line lines -> Str.has_text line = true ->
                 exists doc, chunk_of_line json_loads Document_init line = Some doc.
Proof.
  induction lines as [| l lines IH]; intros acc r Hload line Hin Htext; [contradiction |].
  cbn [load_lines] in Hload. destruct Hin as [-> | Hin].
  - rewrite Htext in Hload. unfold chunk_of_line.
    destruct (json_loads line) as [record |]; [| discriminate].
    destruct (document_of_record Document_init record) as [doc | e]; [eauto | discriminate].
  - destruct (Str.has_text l); [| eapply IH; eassumption].
    destruct (json_loads l) as [record |]; [| discriminate].
    destruct (document_of_record Document_init record) as [doc | e]; [| discriminate].
    eapply IH; eassumption.
Qed.

Lemma load_injected_documents_lines (project version : string) (w : World) :
  load_injected_documents INJECT_ROOT json_loads Document_init project version w
  = (load_lines json_loads Document_init
       (jsonl_lines (default [] (inject_dirs w !! inject_dir INJECT_ROOT project version)))
       [], w).
Proof.
  unfold load_injected_documents, mbind, M_bind, get_world, lift, mret, M_ret.
  destruct (inject_dirs w !! inject_dir INJECT_ROOT project version) as [files |].
  - rewrite load_files_lines. reflexivity.
  - reflexivity.
Qed.

(** X19. Reading the log back after a record was appended gives the chunks it
    gave before, in their order, and one more: the chunk that the
    constructor builds from the injected text, the metadata as logged (a
    falsy one has become the empty dict) and the identifier of the record.
    The hypotheses on the [json] module say that the line written has text
    and decodes to the record that was encoded; the one on the constructor
    says that it accepts these three values. *)
Theorem reconstruction_after_append (project version text_content : string)
  (metadata : json) (w : World) (docs : list Document) (doc : Document) :
  let run := append_to_jsonl INJECT_ROOT json_dumps uuid4 strftime_date isoformat
                             project version text_content metadata w in
  let line := written_line json_dumps uuid4 isoformat (uuids_drawn w) (clock w)
                           text_content metadata in
  fst run = Ok tt ->
  Str.has_text line = true ->
  json_loads line
  = Some (JObj [("id", JStr (uuid4 (uuids_drawn w)));
                ("timestamp", JStr (isoformat (Datatypes.S (clock w))));
                ("text", JStr text_content);
                ("metadata", if truthy metadata then metadata else JObj [])]) ->
  Document_init (JStr text_content) (if truthy metadata then metadata else JObj [])
                (JStr (uuid4 (uuids_drawn w))) = Some doc ->
  fst (load_injected_documents INJECT_ROOT json_loads Document_init project version w)
  = Ok docs ->
  exists before after,
    docs = before ++ after /\
    fst (load_injected_documents INJECT_ROOT json_loads Document_init project version
                                 (snd run))
    = Ok (before ++ doc :: after).
Proof.
  intros run line Hrun Htext Hdecode Hdoc Hdocs.
  rewrite load_injected_documents_lines in *. cbn [fst] in *.
  unfold run at 1.
  rewrite (append_to_jsonl_logs INJECT_ROOT json_dumps uuid4 strftime_date isoformat
             project version text_content metadata w Hrun).
  rewrite lookup_insert_eq. cbn [default from_option id]. fold line.
  set (files := default [] (inject_dirs w !! inject_dir INJECT_ROOT project version)) in *.
  destruct (jsonl_lines_append_line (strftime_date (clock w) +:+ ".jsonl") line files
              (endswith_jsonl _) Htext) as (l1 & l2 & Hbefore & Hafter).
  rewrite Hafter. rewrite Hbefore in Hdocs.
  assert (Hchunk : chunk_of_line json_loads Document_init line = Some doc).
  { unfold chunk_of_line. rewrite Hdecode.
    unfold document_of_record. cbn [dict_get String.eqb Ascii.eqb Bool.eqb].
    cbn [default from_option id]. rewrite Hdoc. reflexivity. }
  assert (Hgood : forall l, In l (l1 ++ l2) ->
                            Str.has_text l = true /\
                            exists d, chunk_of_line json_loads Document_init l = Some d).
  { intros l Hin.
    assert (Hl : Str.has_text l = true).
    { apply (has_text_jsonl_lines files). rewrite Hbefore. exact Hin. }
    split; [exact Hl |]. eapply load_lines_ok_inv; eassumption. }
  rewrite (load_lines_all_good json_loads Document_init (l1 ++ l2) [] Hgood) in Hdocs.
  injection Hdocs as <-.
  exists (omap (chunk_of_line json_loads Document_init) l1),
         (omap (chunk_of_line json_loads Document_init) l2).
  split; [cbn; apply omap_app |].
  rewrite load_lines_all_good.
  - cbn [app]. rewrite omap_app. cbn [omap list_omap]. rewrite Hchunk. reflexivity.
  - intros l Hin. apply in_app_or in Hin as [Hin | [<- | Hin]].
    + apply Hgood. apply in_or_app. left. exact Hin.
    + split; [exact Htext | eauto].
    + apply Hgood. apply in_or_app. right. exact Hin.
Qed.

End RoundTrip.

Lemma reconstruction_after_append_witness :
  exists before after,
    [mkDocument "X" (JObj []) (Some (JStr "a")); mkDocument "Y" (JObj []) (Some (JStr "b"))]
    = before ++ after /\
    fst (load_injected_documents "/app/injected" Json.loads checked_document "k8s" "1.2"
           (snd (append_to_jsonl "/app/injected" Json.dumps numbered_uuid fixed_date
                                 fixed_time "k8s" "1.2" "Z" JNull blank_log_world)))
    = Ok (before ++ mkDocument "Z" (JObj []) (Some (JStr "uuid-0")) :: after).
Proof.
  apply (reconstruction_after_append "/app/injected" Json.dumps Json.loads checked_document
           numbered_uuid fixed_date fixed_time "k8s" "1.2" "Z" JNull blank_log_world);
    vm_compute; reflexivity.
Defined.

(** ** Loading and rebuilding delta indexes *)

(** What the slug of a project without a dash is taken apart into reads the
    log of the project and version it was made from. *)
Lemma parse_slug_inverts_get_slug_dir (INJECT_ROOT : string)
  (json_loads : string -> option json)
  (Document_init : json -> json -> json -> option Document) (project version : string) :
  Str.contains separator project = false -> version <> EmptyString ->
  exists v',
    parse_slug (get_slug project version) = Ok (project, v') /\
    forall w, load_injected_documents INJECT_ROOT json_loads Document_init project v' w
              = load_injected_documents INJECT_ROOT json_loads Document_init project version w.
Proof.
  intros Hp Hv. exists (Str.replace marker "." (normalize_version version)).
  split; [apply parse_get_slug; assumption |].
  intros w. unfold load_injected_documents, inject_dir.
  rewrite normalize_denormalize_normalize. reflexivity.
Qed.

Section DeltaLoading.

Variables (DELTA_ROOT INJECT_ROOT : string).
Variable json_loads : string -> option json.
Variable Document_init : json -> json -> json -> option Document.
Variable embed_ok : string -> bool.

Let load_delta := load_or_create_delta_index DELTA_ROOT INJECT_ROOT json_loads Document_init embed_ok.

Lemma cut_without_separator (sep s : string) :
  Str.contains sep s = false -> Str.cut sep s = None.
Proof.
  induction s as [| c s IH]; intros Hs; [reflexivity |].
  rewrite contains_cons in Hs. apply orb_false_elim in Hs as [Hc Hs].
  cbn [Str.cut]. rewrite Hc, (IH Hs). reflexivity.
Qed.

Lemma parse_dashless_slug (slug : string) :
  Str.contains separator slug = false -> parse_slug slug = Raise ValueError.
Proof.
  intros Hslug. unfold parse_slug, Str.split1.
  rewrite (cut_without_separator _ _ Hslug). reflexivity.
Qed.

(** X21. A persisted delta index that loads is returned as it is, whatever the
    slug looks like, and nothing changes. Without one, a slug that has no
    dash cannot be taken apart: the unpacking raises [ValueError], and
    nothing changes. *)
Theorem load_or_create_delta_index_dashless (slug : string) (w : World) :
  Str.contains separator slug = false ->
  load_delta slug w
  = match loadable DELTA_ROOT w slug with
    | Some index => (Ok (Some index), w)
    | None => (Raise ValueError, w)
    end.
Proof.
  intros Hslug. unfold load_delta, load_or_create_delta_index, loadable.
  unfold mbind at 1. unfold M_bind at 1. unfold get_world at 1.
  pose proof (parse_dashless_slug slug Hslug) as Hparse.
  destruct (delta_dirs w !! path_join [DELTA_ROOT; slug]) as [[index |] |];
    [reflexivity | |]; rewrite Hparse; reflexivity.
Qed.

(** X22. Without a persisted index that loads, the delta index of a project
    without a dash and a non-empty version is rebuilt from the injection log
    of that project and version: an error of the reading is passed on; an
    empty log gives no index and changes nothing; otherwise, with the
    embedding service up and the directory writable, the index holds the
    chunks of the log in reading order and is persisted, while the registry
    of delta indexes is left to the caller. *)
Theorem load_or_create_delta_index_rebuilds (project version : string) (w : World) :
  let slug := get_slug project version in
  let path := path_join [DELTA_ROOT; slug] in
  Str.contains separator project = false ->
  version <> EmptyString ->
  loadable DELTA_ROOT w slug = None ->
  match fst (load_injected_documents INJECT_ROOT json_loads Document_init project version w) with
  | Raise e => load_delta slug w = (Raise e, w)
  | Ok [] => load_delta slug w = (Ok None, w)
  | Ok documents =>
      forallb (fun d => embed_ok (text d)) documents = true ->
      unwritable w path = false ->
      exists w',
        load_delta slug w = (Ok (Some documents), w') /\
        delta_dirs w' = <[path := Some documents]> (delta_dirs w) /\
        delta_indexes w' = delta_indexes w /\
        inject_dirs w' = inject_dirs w
  end.
Proof.
  intros slug path Hproject Hversion Hnone.
  destruct (parse_slug_inverts_get_slug_dir INJECT_ROOT json_loads Document_init project version)
    as (v' & Hparse & Hload); [assumption .. |].
  rewrite (load_injected_documents_lines INJECT_ROOT json_loads Document_init project version w).
  cbn [fst].
  assert (Hrun :
    load_delta slug w
    = match load_lines json_loads Document_init
              (jsonl_lines (default [] (inject_dirs w !!
                                          inject_dir INJECT_ROOT project version))) [] with
      | Raise e => (Raise e, w)
      | Ok [] => (Ok None, w)
      | Ok (d :: ds) =>
          (index ← from_documents embed_ok (d :: ds);
           persist path index;; mret (Some index)) w
      end).
  { unfold load_delta, load_or_create_delta_index. fold slug. fold path.
    unfold mbind at 1. unfold M_bind at 1. unfold get_world at 1.
    assert (Hrest :
      ('(p, v) ← lift (parse_slug slug);
       documents ← load_injected_documents INJECT_ROOT json_loads Document_init p v;
       match documents with
       | [] => mret None
       | _ :: _ => index ← from_documents embed_ok documents;
                   persist path index;; mret (Some index)
       end) w
      = match load_lines json_loads Document_init
                (jsonl_lines (default [] (inject_dirs w !!
                                            inject_dir INJECT_ROOT project version))) [] with
        | Raise e => (Raise e, w)
        | Ok [] => (Ok None, w)
        | Ok (d :: ds) =>
            (index ← from_documents embed_ok (d :: ds);
             persist path index;; mret (Some index)) w
        end).
    { unfold slug. rewrite Hparse.
      unfold mbind at 1. unfold M_bind at 1. unfold lift at 1.
      unfold mbind at 1. unfold M_bind at 1. rewrite Hload.
      rewrite (load_injected_documents_lines INJECT_ROOT json_loads Document_init project version w).
      destruct (load_lines json_loads Document_init _ []) as [[| d documents] | e]; reflexivity. }
    unfold loadable in Hnone. fold slug in Hnone. fold path in Hnone.
    destruct (delta_dirs w !! path) as [[index |] |]; [discriminate | exact Hrest ..]. }
  rewrite Hrun.
  destruct (load_lines json_loads Document_init _ []) as [[| d documents] | e];
    [reflexivity | | reflexivity].
  intros Hembed Hro.
  unfold from_documents, persist, emit, update, get_world, raise.
  rewrite Hembed. unfold mbind, M_bind, mret, M_ret. rewrite Hro.
  destruct w as [ix dix th tf idirs ddirs ro n t ev]. cbn.
  eexists. split; [reflexivity |]. repeat split.
Qed.

End DeltaLoading.

Lemma load_or_create_delta_index_dashless_witness :
  load_or_create_delta_index "/app/storage-delta" "/app/injected" Json.loads checked_document
                             always_embeds "k8s" empty_world
  = (Raise ValueError, empty_world).
Proof.
  exact (load_or_create_delta_index_dashless "/app/storage-delta" "/app/injected"
           Json.loads checked_document always_embeds "k8s" empty_world eq_refl).
Defined.

Lemma load_or_create_delta_index_rebuilds_witness :
  exists w',
    load_or_create_delta_index "/app/storage-delta" "/app/injected" Json.loads checked_document
                               always_embeds "k8s-1-dot-2" unindexed_log_world
    = (Ok (Some [mkDocument "X" (JObj []) (Some (JStr "a"));
                 mkDocument "Y" (JObj []) (Some (JStr "b"))]), w') /\
    delta_indexes w' = ∅.
Proof.
  pose proof (load_or_create_delta_index_rebuilds "/app/storage-delta" "/app/injected"
                Json.loads checked_document always_embeds "k8s" "1.2" unindexed_log_world
                eq_refl ltac:(discriminate) eq_refl) as Hcases.
  cbv zeta in Hcases.
  set (read := fst (load_injected_documents "/app/injected" Json.loads checked_document "k8s" "1.2"
                                            unindexed_log_world)) in Hcases.
  vm_compute in read. subst read. cbv iota in Hcases.
  destruct (Hcases eq_refl eq_refl) as (w' & Hrun & _ & Hdix & _).
  exists w'. split; [exact Hrun | exact Hdix].
Defined.

(** ** Start-up *)

Lemma load_base_indexes_run (entries : list StorageEntry) :
  forall w,
    load_base_indexes entries w
    = (Ok tt, with_indexes w (fold_left register_entry entries (indexes w))).
Proof.
  induction entries as [| e entries IH]; intros w.
  - destruct w. reflexivity.
  - cbn [load_base_indexes fold_left]. unfold mbind, M_bind.
    unfold register_entry at 2.
    destruct (entry_is_dir e); [destruct (entry_index e) as [index |] |].
    + unfold update. rewrite IH. destruct w. reflexivity.
    + unfold mret, M_ret. apply IH.
    + unfold mret, M_ret. apply IH.
Qed.

Lemma fold_register_other (entries : list StorageEntry) (name : string) :
  forall m,
    (forall e, In e entries -> entry_name e = name -> registrable e = false) ->
    fold_left register_entry entries m !! name = m !! name.
Proof.
  induction entries as [| e entries IH]; intros m Hnone; [reflexivity |].
  cbn [fold_left]. rewrite IH.
  - unfold register_entry.
    destruct (String.eqb_spec (entry_name e) name) as [Heq | Hne].
    + specialize (Hnone e (or_introl eq_refl) Heq). unfold registrable in Hnone.
      destruct (entry_is_dir e); [| reflexivity].
      destruct (entry_index e); [discriminate | reflexivity].
    + destruct (entry_is_dir e); [| reflexivity].
      destruct (entry_index e); [| reflexivity].
      apply lookup_insert_ne. exact Hne.
  - intros e' Hin. apply Hnone. right. exact Hin.
Qed.

(** X23. The loop over the storage directory never raises. With the names of a
    directory listing, which are distinct, every directory that loads is
    registered under its name; a name that belongs to a plain file or to a
    directory that does not load keeps what the registry had for it; and
    nothing but the registry of base indexes changes. *)
Theorem load_base_indexes_registers (entries : list StorageEntry) (w : World) :
  NoDup (map entry_name entries) ->
  let run := load_base_indexes entries w in
  fst run = Ok tt /\
  (forall e index, In e entries -> entry_is_dir e = true -> entry_index e = Some index ->
                   indexes (snd run) !! entry_name e = Some index) /\
  (forall name, (forall e, In e entries -> entry_name e = name -> registrable e = false) ->
                indexes (snd run) !! name = indexes w !! name) /\
  delta_indexes (snd run) = delta_indexes w /\ same_threads w (snd run).
Proof.
  intros Hnodup run. unfold run. rewrite load_base_indexes_run. cbn [fst snd].
  split; [reflexivity |]. split; [| split].
  - destruct w as [ix dix th tf idirs ddirs ro n t ev]. cbn [indexes with_indexes].
    clear run. revert ix. induction entries as [| e0 entries IH]; intros ix e index Hin Hdir Hidx;
      [contradiction |].
    cbn [map] in Hnodup. apply NoDup_cons in Hnodup as [Hfresh Hnodup].
    cbn [fold_left]. destruct Hin as [-> | Hin].
    + rewrite fold_register_other.
      * unfold register_entry. rewrite Hdir, Hidx. apply lookup_insert_eq.
      * intros e' Hin' Hname. exfalso. apply Hfresh. rewrite <- Hname.
        apply list_elem_of_In, in_map, Hin'.
    + apply IH; assumption.
  - intros name Hnone. destruct w. cbn [indexes with_indexes].
    apply fold_register_other. exact Hnone.
  - destruct w. repeat split.
Qed.

Lemma load_base_indexes_registers_witness :
  fst (load_base_indexes storage_listing empty_world) = Ok tt /\
  indexes (snd (load_base_indexes storage_listing empty_world)) !! "k8s-1-dot-2"
  = Some [chunk "A"] /\
  indexes (snd (load_base_indexes storage_listing empty_world)) !! "broken-1-dot-0" = None.
Proof.
  assert (Hnodup : NoDup (map entry_name storage_listing)).
  { cbn. repeat (apply NoDup_cons; split;
                 [rewrite ?list_elem_of_In; cbn; intuition discriminate |]).
    apply NoDup_nil. exact I. }
  destruct (load_base_indexes_registers storage_listing empty_world Hnodup)
    as (Hok & Hreg & Hkeep & _).
  split; [exact Hok |]. split.
  - apply (Hreg (mkStorageEntry "k8s-1-dot-2" true (Some [chunk "A"])));
      [left; reflexivity | reflexivity | reflexivity].
  - rewrite Hkeep; [reflexivity |].
    intros e [<- | [<- | [<- | []]]] Hname; try reflexivity; discriminate Hname.
Defined.

Section DeltaStartUp.

Variables (DELTA_ROOT INJECT_ROOT : string).
Variable json_loads : string -> option json.
Variable Document_init : json -> json -> json -> option Document.
Variable embed_ok : string -> bool.

Let load_deltas := load_delta_indexes DELTA_ROOT INJECT_ROOT json_loads Document_init embed_ok.

Lemma load_or_create_delta_index_persisted (slug : string) (w : World) (index : Index) :
  loadable DELTA_ROOT w slug = Some index ->
  load_or_create_delta_index DELTA_ROOT INJECT_ROOT json_loads Document_init embed_ok slug w
  = (Ok (Some index), w).
Proof.
  unfold loadable, load_or_create_delta_index.
  unfold mbind at 1. unfold M_bind at 1. unfold get_world at 1.
  destruct (delta_dirs w !! path_join [DELTA_ROOT; slug]) as [[i |] |];
    [| discriminate ..].
  intros Heq. injection Heq as ->. reflexivity.
Qed.

Lemma loadable_with_delta_indexes (w : World) (m : gmap string Index) (slug : string) :
  loadable DELTA_ROOT (with_delta_indexes w m) slug = loadable DELTA_ROOT w slug.
Proof. reflexivity. Qed.

Lemma load_delta_indexes_loadable_run (entries : list (string * bool)) (w0 : World) :
  forall w,
    delta_dirs w = delta_dirs w0 ->
    all_loadable DELTA_ROOT w0 entries = true ->
    load_deltas entries w
    = (Ok tt, with_delta_indexes w
                (fold_left (register_delta DELTA_ROOT w0) entries (delta_indexes w))).
Proof.
  assert (Hsame : forall w s, delta_dirs w = delta_dirs w0 ->
                              loadable DELTA_ROOT w s = loadable DELTA_ROOT w0 s).
  { intros w s Hdd. unfold loadable. rewrite Hdd. reflexivity. }
  induction entries as [| [slug is_dir] entries IH]; intros w Hdd Hall.
  - destruct w. reflexivity.
  - cbn [all_loadable forallb fst snd] in Hall. apply andb_prop in Hall as [Hhead Hall].
    unfold load_deltas in *. cbn [load_delta_indexes fold_left].
    unfold register_delta at 2. cbn [fst snd].
    destruct is_dir.
    + cbn [negb orb] in Hhead.
      destruct (loadable DELTA_ROOT w0 slug) as [index |] eqn:Hload; [| discriminate].
      unfold mbind at 1. unfold M_bind at 1.
      unfold mbind at 1. unfold M_bind at 1.
      rewrite (load_or_create_delta_index_persisted slug w index)
        by (rewrite Hsame; assumption).
      unfold update. rewrite IH; [destruct w; reflexivity | destruct w; exact Hdd | exact Hall].
    + unfold mbind at 1. unfold M_bind at 1. unfold mret at 1. unfold M_ret at 1.
      apply IH; assumption.
Qed.

Lemma load_delta_indexes_app (before after : list (string * bool)) :
  forall w,
    load_deltas (before ++ after) w
    = match load_deltas before w with
      | (Ok _, w1) => load_deltas after w1
      | (Raise e, w1) => (Raise e, w1)
      end.
Proof.
  unfold load_deltas.
  induction before as [| [slug is_dir] before IH]; intros w; [reflexivity |].
  cbn [app load_delta_indexes]. unfold mbind at 1 3. unfold M_bind at 1 3.
  match goal with
  | |- context [(if is_dir then ?a else ?b) w] =>
      destruct ((if is_dir then a else b) w) as [[u | e] w1]
  end; [apply IH | reflexivity].
Qed.

(** X24. The loop over the delta directories does not guard the loading: after
    any number of directories whose persisted indexes load, a directory
    without a loadable index whose name has no dash makes the start-up fail
    with [ValueError]. The directories after it are not looked at, and the
    persisted indexes are as before. *)
Theorem load_delta_indexes_unguarded (before after : list (string * bool))
  (slug : string) (w : World) :
  all_loadable DELTA_ROOT w before = true ->
  Str.contains separator slug = false ->
  loadable DELTA_ROOT w slug = None ->
  exists w',
    load_deltas (before ++ (slug, true) :: after) w = (Raise ValueError, w') /\
    delta_indexes w' = fold_left (register_delta DELTA_ROOT w) before (delta_indexes w) /\
    delta_dirs w' = delta_dirs w.
Proof.
  intros Hbefore Hslug Hnone.
  rewrite load_delta_indexes_app.
  unfold load_deltas. fold load_deltas.
  rewrite (load_delta_indexes_loadable_run before w w eq_refl Hbefore).
  set (w1 := with_delta_indexes w _).
  exists w1. split; [| destruct w; split; reflexivity].
  unfold load_deltas. cbn [load_delta_indexes].
  unfold mbind at 1. unfold M_bind at 1. unfold mbind at 1. unfold M_bind at 1.
  assert (Hload : load_or_create_delta_index DELTA_ROOT INJECT_ROOT json_loads Document_init
                                             embed_ok slug w1 = (Raise ValueError, w1)).
  { unfold load_or_create_delta_index.
    unfold mbind at 1. unfold M_bind at 1. unfold get_world at 1.
    assert (Hnone1 : loadable DELTA_ROOT w1 slug = None)
      by (unfold w1; rewrite loadable_with_delta_indexes; exact Hnone).
    unfold loadable in Hnone1. rewrite (parse_dashless_slug slug Hslug).
    destruct (delta_dirs w1 !! path_join [DELTA_ROOT; slug]) as [[index |] |];
      [discriminate | reflexivity | reflexivity]. }
  rewrite Hload. reflexivity.
Qed.

(** X25. When every directory of the listing has a persisted index that loads,
    the loop ends without an exception, and with distinct names each
    directory is registered with its persisted index; nothing is written. *)
Theorem load_delta_indexes_registers (entries : list (string * bool)) (w : World) :
  all_loadable DELTA_ROOT w entries = true ->
  NoDup (map fst entries) ->
  let run := load_deltas entries w in
  fst run = Ok tt /\
  (forall slug, In (slug, true) entries ->
                delta_indexes (snd run) !! slug = loadable DELTA_ROOT w slug) /\
  delta_dirs (snd run) = delta_dirs w /\ indexes (snd run) = indexes w.
Proof.
  intros Hall Hnodup run. unfold run.
  rewrite (load_delta_indexes_loadable_run entries w w eq_refl Hall). cbn [fst snd].
  split; [reflexivity |]. split; [| destruct w; split; reflexivity].
  assert (Hother : forall l m slug,
             ~ In slug (map fst l) ->
             fold_left (register_delta DELTA_ROOT w) l m !! slug = m !! slug).
  { induction l as [| [s d] l IH]; intros m slug Hnot; [reflexivity |].
    cbn [fold_left]. rewrite IH by (intros Hin; apply Hnot; right; exact Hin).
    unfold register_delta. cbn [fst snd].
    destruct d; [| reflexivity].
    destruct (loadable DELTA_ROOT w s); [| reflexivity].
    apply lookup_insert_ne. intros ->. apply Hnot. left. reflexivity. }
  clear run.
  assert (Hgen : forall m slug,
             In (slug, true) entries ->
             fold_left (register_delta DELTA_ROOT w) entries m !! slug
             = loadable DELTA_ROOT w slug).
  { revert Hall Hnodup.
    induction entries as [| [s d] entries IH]; intros Hall Hnodup m slug Hin;
      [contradiction |].
    cbn [map fst] in Hnodup. apply NoDup_cons in Hnodup as [Hfresh Hnodup].
    cbn [all_loadable forallb fst snd] in Hall. apply andb_prop in Hall as [Hhead Hall].
    cbn [fold_left]. destruct Hin as [Heq | Hin].
    - injection Heq as -> ->. rewrite Hother by (rewrite <- list_elem_of_In; exact Hfresh).
      unfold register_delta. cbn [fst snd] in *.
      destruct (loadable DELTA_ROOT w slug); [apply lookup_insert_eq | discriminate].
    - apply IH; assumption. }
  intros slug Hin. destruct w. cbn [delta_indexes with_delta_indexes].
  apply Hgen. exact Hin.
Qed.

End DeltaStartUp.

Lemma load_delta_indexes_unguarded_witness :
  exists w',
    load_delta_indexes "/app/storage-delta" "/app/injected" Json.loads checked_document always_embeds
                       [("k8s-1-dot-2", true); ("scratch", true); ("later-1-dot-0", true)]
                       persisted_delta_world
    = (Raise ValueError, w') /\
    delta_indexes w' !! "k8s-1-dot-2" = Some [chunk "D"].
Proof.
  destruct (load_delta_indexes_unguarded "/app/storage-delta" "/app/injected" Json.loads checked_document
              always_embeds [("k8s-1-dot-2", true)] [("later-1-dot-0", true)] "scratch"
              persisted_delta_world ltac:(vm_compute; reflexivity) eq_refl
              ltac:(vm_compute; reflexivity))
    as (w' & Hrun & Hdix & _).
  exists w'. split; [exact Hrun |]. rewrite Hdix. vm_compute. reflexivity.
Defined.

Lemma load_delta_indexes_registers_witness :
  fst (load_delta_indexes "/app/storage-delta" "/app/injected" Json.loads checked_document always_embeds
                          [("k8s-1-dot-2", true); ("notes.txt", false)]
                          persisted_delta_world) = Ok tt /\
  delta_indexes (snd (load_delta_indexes "/app/storage-delta" "/app/injected" Json.loads checked_document
                                         always_embeds
                                         [("k8s-1-dot-2", true); ("notes.txt", false)]
                                         persisted_delta_world)) !! "k8s-1-dot-2"
  = Some [chunk "D"].
Proof.
  assert (Hnodup : NoDup (map fst [("k8s-1-dot-2", true); ("notes.txt", false)])).
  { cbn. repeat (apply NoDup_cons; split;
                 [rewrite ?list_elem_of_In; cbn; intuition discriminate |]).
    apply NoDup_nil. exact I. }
  destruct (load_delta_indexes_registers "/app/storage-delta" "/app/injected" Json.loads checked_document
              always_embeds [("k8s-1-dot-2", true); ("notes.txt", false)]
              persisted_delta_world ltac:(vm_compute; reflexivity) Hnodup)
    as (Hok & Hreg & _).
  split; [exact Hok |].
  etransitivity; [exact (Hreg "k8s-1-dot-2" (or_introl eq_refl)) |].
  vm_compute. reflexivity.
Defined.

(** ** The gate, completely *)

(** X26. The gate always hands back what the cutoff filter kept, and it answers
    exactly when at least [MIN_HITS] candidates were kept and the mean of
    their defined scores, if there is any, is not below the threshold. With
    [MIN_HITS] at most 0 and nothing kept it answers. *)
Theorem confidence_gate_decision {F : Type} `{Score F}
  (MIN_HITS : Z) (SIMILARITY_CUTOFF CONFIDENCE_THRESHOLD : F)
  (SimilarityPostprocessor : F -> list (NodeWithScore F) -> list (NodeWithScore F))
  (candidates : list (NodeWithScore F)) :
  confidence_gate MIN_HITS SIMILARITY_CUTOFF CONFIDENCE_THRESHOLD SimilarityPostprocessor
                  candidates
  = (SimilarityPostprocessor SIMILARITY_CUTOFF candidates,
     gate_decision MIN_HITS CONFIDENCE_THRESHOLD
                   (SimilarityPostprocessor SIMILARITY_CUTOFF candidates)) /\
  ((MIN_HITS <= 0)%Z -> SimilarityPostprocessor SIMILARITY_CUTOFF candidates = [] ->
   snd (confidence_gate MIN_HITS SIMILARITY_CUTOFF CONFIDENCE_THRESHOLD
                        SimilarityPostprocessor candidates) = true).
Proof.
  assert (Hgate :
    confidence_gate MIN_HITS SIMILARITY_CUTOFF CONFIDENCE_THRESHOLD SimilarityPostprocessor
                    candidates
    = (SimilarityPostprocessor SIMILARITY_CUTOFF candidates,
       gate_decision MIN_HITS CONFIDENCE_THRESHOLD
                     (SimilarityPostprocessor SIMILARITY_CUTOFF candidates))).
  { unfold confidence_gate, gate_decision.
    destruct (Z.of_nat _ <? MIN_HITS)%Z; [reflexivity |]. cbn [negb andb].
    destruct (SimilarityPostprocessor SIMILARITY_CUTOFF candidates) as [| n rest];
      [reflexivity |].
    destruct (defined_scores (n :: rest)); [reflexivity |].
    destruct (score_lt _ _); reflexivity. }
  split; [exact Hgate |].
  intros Hmin Hnone. rewrite Hgate, Hnone. unfold gate_decision. cbn.
  apply andb_true_intro. split; [| reflexivity].
  apply negb_true_iff, Z.ltb_ge. exact Hmin.
Qed.

Lemma confidence_gate_decision_witness :
  snd (confidence_gate 0%Z (1 # 2)%Q (1 # 10)%Q postprocess_nodes
         [mkNode (chunk "A") (Some (1 # 4)%Q)]) = true.
Proof.
  exact (proj2 (confidence_gate_decision 0%Z (1 # 2)%Q (1 # 10)%Q postprocess_nodes
                  [mkNode (chunk "A") (Some (1 # 4)%Q)])
               ltac:(discriminate) eq_refl).
Defined.

(** ** The version round trip, exactly *)

(** X4. Reversing the marker substitution gives a version back exactly when the
    version is reversible. *)
Theorem version_roundtrip_iff (version : string) :
  Str.replace marker "." (normalize_version version) = version <->
  reversible version = true.
Proof.
  split; [apply denormalize_normalize_only | apply denormalize_normalize].
Qed.

Lemma version_roundtrip_iff_witness :
  Str.replace marker "." (normalize_version "1.2.3") = "1.2.3".
Proof. exact (proj2 (version_roundtrip_iff "1.2.3") eq_refl). Defined.

(** ** Which exception stops the reconstruction *)

(** X20. The reconstruction stops at the first line with text that does not
    yield a chunk, with the exception of that line: [JSONDecodeError] when
    the line does not decode, [TypeError] when the record is not an object,
    [KeyError] when it has no text, [ValidationError] when the constructor
    refuses its values. The lines after it are not looked at. *)
Theorem load_injected_documents_first_error (INJECT_ROOT : string)
  (json_loads : string -> option json)
  (Document_init : json -> json -> json -> option Document)
  (project version : string) (w : World)
  (files : list (string * list string)) (good rest : list string) (bad : string) (e : exn) :
  inject_dirs w !! inject_dir INJECT_ROOT project version = Some files ->
  jsonl_lines files = good ++ bad :: rest ->
  (forall line, In line good -> exists doc, chunk_of_line json_loads Document_init line = Some doc) ->
  line_error json_loads Document_init bad = Some e ->
  load_injected_documents INJECT_ROOT json_loads Document_init project version w = (Raise e, w).
Proof.
  intros Hdir Hlines Hgood Hbad.
  rewrite load_injected_documents_lines, Hdir. cbn [default from_option id].
  rewrite Hlines, load_lines_app.
  assert (Htext : forall line, In line (good ++ bad :: rest) -> Str.has_text line = true).
  { intros line Hin. apply (has_text_jsonl_lines files). rewrite Hlines. exact Hin. }
  rewrite load_lines_all_good.
  - cbn [load_lines]. rewrite (Htext bad) by (apply in_or_app; right; left; reflexivity).
    unfold line_error in Hbad.
    destruct (json_loads bad) as [record |]; [| injection Hbad as <-; reflexivity].
    destruct (document_of_record Document_init record) as [doc | e']; [discriminate |].
    injection Hbad as <-. reflexivity.
  - intros line Hin. split; [| apply Hgood; exact Hin].
    apply Htext. apply in_or_app. left. exact Hin.
Qed.

(** A record without text stops the reading with [KeyError], before the
    line that is not JSON is reached. *)
Lemma load_injected_documents_first_error_witness :
  load_injected_documents "/app/injected" Json.loads checked_document "k8s" "1.2" textless_log_world
  = (Raise (KeyError "text"), textless_log_world).
Proof.
  apply (load_injected_documents_first_error "/app/injected" Json.loads checked_document
           "k8s" "1.2"
           textless_log_world textless_log [record_line "a" "X"] ["not json" +:+ nl]
           (Json.dumps (JObj [("id", JStr "b")]) +:+ nl) (KeyError "text")).
  - reflexivity.
  - vm_compute. reflexivity.
  - intros line [<- | []]. eexists. vm_compute. reflexivity.
  - vm_compute. reflexivity.
Defined.

(** ** The index builder *)

Section BuilderProperties.

Variable embed_ok : string -> bool.
Variable storage_unwritable : string -> bool.

Lemma build_slug_is_get_slug (project_name version_name : string) :
  version_name <> EmptyString ->
  build_slug project_name version_name = get_slug project_name version_name.
Proof. intros Hversion. destruct version_name; [contradiction | reflexivity]. Qed.

(** X27. For a version directory, whose name is never empty, the builder stores
    the index under the slug that [answer] computes for that project and
    version; the other directories of the storage are as before. *)
Theorem build_version_stores_under_slug (project_name version_name : string)
  (d : Document) (ds : list Document) (storage : gmap string Index) :
  version_name <> EmptyString ->
  forallb (fun x => embed_ok (text x)) (d :: ds) = true ->
  storage_unwritable (get_slug project_name version_name) = false ->
  let built := build_version embed_ok storage_unwritable project_name version_name
                             (Some (d :: ds)) storage in
  built !! get_slug project_name version_name = Some (d :: ds) /\
  forall name, name <> get_slug project_name version_name ->
               built !! name = storage !! name.
Proof.
  intros Hversion Hembed Hro.
  unfold build_version. rewrite (build_slug_is_get_slug _ _ Hversion), Hembed, Hro. split.
  - apply lookup_insert_eq.
  - intros name Hname. apply lookup_insert_ne. congruence.
Qed.

Lemma build_version_other (project_name version_name : string)
  (documents : option (list Document)) (storage : gmap string Index) (name : string) :
  name <> build_slug project_name version_name ->
  build_version embed_ok storage_unwritable project_name version_name documents storage
  !! name = storage !! name.
Proof.
  intros Hname. unfold build_version.
  destruct documents as [[| d ds] |]; [reflexivity | | reflexivity].
  destruct (forallb _ _); [| reflexivity].
  destruct (storage_unwritable _); [reflexivity |].
  apply lookup_insert_ne. congruence.
Qed.

(** X29. The builder writes under the slugs of the listed project and version
    directories only: every other directory of the storage is after the two
    loops what it was before. *)
Theorem build_indexes_keeps_others
  (projects : list (string * list (string * option (list Document))))
  (storage : gmap string Index) (name : string) :
  ~ In name (build_slugs projects) ->
  build_indexes embed_ok storage_unwritable projects storage !! name = storage !! name.
Proof.
  unfold build_indexes. revert storage.
  induction projects as [| [project versions] projects IH]; intros storage Hname;
    [reflexivity |].
  cbn [fold_left fst snd]. rewrite IH.
  - assert (Hhere : ~ In name (map (fun version => build_slug project (fst version))
                                   versions)).
    { intros Hin. apply Hname. unfold build_slugs. cbn [flat_map fst snd].
      apply in_or_app. left. exact Hin. }
    clear IH Hname. revert storage.
    induction versions as [| [version documents] versions IHv]; intros storage;
      [reflexivity |].
    cbn [fold_left fst snd]. rewrite IHv.
    + apply build_version_other. intros ->. apply Hhere. left. reflexivity.
    + intros Hin. apply Hhere. right. exact Hin.
  - intros Hin. apply Hname. unfold build_slugs. cbn [flat_map].
    apply in_or_app. right. exact Hin.
Qed.

(** X28. What happened to the directories before it does not matter to a version
    that builds: reader errors, empty directories, failed embeddings and
    refused writes end the turn of their version only. After the two loops
    the index of the last listed version directory is in the storage under
    its slug. *)
Theorem build_indexes_last_builds
  (projects : list (string * list (string * option (list Document))))
  (project_name : string) (versions : list (string * option (list Document)))
  (version_name : string) (d : Document) (ds : list Document)
  (storage : gmap string Index) :
  version_name <> EmptyString ->
  forallb (fun x => embed_ok (text x)) (d :: ds) = true ->
  storage_unwritable (get_slug project_name version_name) = false ->
  build_indexes embed_ok storage_unwritable
    (projects ++ [(project_name, versions ++ [(version_name, Some (d :: ds))])]) storage
  !! get_slug project_name version_name = Some (d :: ds).
Proof.
  intros Hversion Hembed Hro. unfold build_indexes.
  rewrite fold_left_app. cbn [fold_left fst snd]. rewrite fold_left_app.
  cbn [fold_left fst snd].
  unfold build_version. rewrite (build_slug_is_get_slug _ _ Hversion), Hembed, Hro.
  apply lookup_insert_eq.
Qed.

End BuilderProperties.

Lemma build_version_stores_under_slug_witness :
  build_version always_embeds (fun _ => false) "k8s" "1.2" (Some [chunk "A"]) ∅
  !! "k8s-1-dot-2" = Some [chunk "A"].
Proof.
  exact (proj1 (build_version_stores_under_slug always_embeds (fun _ => false)
                  "k8s" "1.2" (chunk "A") [] ∅ ltac:(discriminate) eq_refl eq_refl)).
Defined.

Lemma build_indexes_keeps_others_witness :
  build_indexes always_embeds (fun _ => false)
                [("k8s", [("1.2", Some [chunk "A"]); ("1.3", None)])]
                {[ "old-1-dot-0" := [chunk "O"] ]}
  !! "old-1-dot-0" = Some [chunk "O"].
Proof.
  etransitivity.
  - apply (build_indexes_keeps_others always_embeds (fun _ => false)
             [("k8s", [("1.2", Some [chunk "A"]); ("1.3", None)])]
             {[ "old-1-dot-0" := [chunk "O"] ]} "old-1-dot-0").
    cbn. intros [Heq | [Heq | []]]; discriminate Heq.
  - apply lookup_singleton_eq.
Defined.

Lemma build_indexes_last_builds_witness :
  build_indexes always_embeds (fun _ => false)
                [("k8s", [("1.1", None); ("1.2", Some []); ("1.3", Some [chunk "A"])])] ∅
  !! "k8s-1-dot-3" = Some [chunk "A"].
Proof.
  exact (build_indexes_last_builds always_embeds (fun _ => false) [] "k8s"
           [("1.1", None); ("1.2", Some [])] "1.3" (chunk "A") [] ∅
           ltac:(discriminate) eq_refl eq_refl).
Defined.
